(* ===== verification/_CoqProject ===== *)
-Q . S2P
Prelude.v
PyStr.v
PyM.v
Logging.v
PyObj.v
Json.v
Database.v
Telegram.v
Relay.v
Admin.v
Bot.v
Engine.v
Lifecycle.v
Exceptions.v
Console.v
Process.v
