(* ===== verification/Prelude.v ===== *)
(** * A verification library for saarahelperbot

    saarahelperbot is a Telegram relay between many anonymous clients and
    one operator (the "admin").  It has two source files:

    - [src/database.py], class [UserDatabase]: the registry.  It keeps one
      Python object [self.data], loaded from a JSON file.  That object is a
      dict holding a dict ["users"] that maps [str(user_id)] to a user
      record, and an unused ["admin_messages"] dict.  Every mutating method
      rewrites the whole file ([_save_data]).
    - [src/bot.py]: the python-telegram-bot handlers.  They share the
      module-level [db] and the global [admin_current_chat].  They call
      the Telegram API, whose requests may fail: [send_message],
      [reply_text], [edit_message_text] and [query.answer].  [main]
      registers them with an [Application], which handles the updates one
      at a time.
    - [src/test_bot.py] is a connectivity smoke test: it asks Telegram
      for the bot's own account and prints it.

    ** How the files of the library correspond to the code

    - [Prelude] (this file): the [py_scope] notation scope, the hint
      databases, the tactics and the generic lemmas on lists and options.
    - [PyStr]: Python [str] values as lists of code points.  It decodes the
      UTF-8 bytes of Rocq string literals, and it models [str(int)],
      [int(str)], [str.split(sep)], [str.split()], [str.join],
      [str.startswith], slicing, [range] and the [:.1f] format of a
      quotient.  It proves the round
      trip [int(str(z)) = z] and the chunking lemmas for
      [s[x:x+n] for x in range(0, len(s), n)].
    - [PyM]: Python exceptions and a state-and-exception monad [PyM S A]
      with [try]/[except].  A raised exception keeps the mutations made
      before it, as in Python.  Lenses lift an operation on one part of
      the state to the whole state.  [within R m] says that [m] moves the
      state along a preorder [R]; [frame l m] says that [m] neither reads
      nor writes the part the lens [l] views.  The tactics [solve_within]
      and [solve_frame] decompose a handler into its steps.
    - [Logging]: [logging.basicConfig] and [logger] of [bot.py]: the
      root level and the format of its handler ([bot_log_config]), log
      records, [Logger.error] through the handlers ([log_emit]), and the
      [%]-formatter ([percent_format], [format_record]).
    - [PyObj]: the JSON-shaped Python objects held in [self.data] (None,
      bool, int, str, list, dict).  Dicts keep insertion order, as Python
      dicts do.  The file models the object operations the code uses:
      [d[k]], [d[k] = v], [d.get(k, default)], [k in d], [.append],
      [.values()], [len], [repr] and truthiness, each with Python's
      error cases.
    - [Json]: the text and the bytes of the registry file.  [json_dump_at]
      is [json.dump(..., ensure_ascii=False, indent=2)]; [pvalue],
      [pmembers], [pelems], [pstring] and [pnumber] are CPython's JSON
      scanner, and [json_loads] is [json.loads]; [utf8_encode] and
      [utf8_decode_strict] are the UTF-8 codec of the file, and
      [universal_newlines] the newline translation of text mode.  The
      library is not repository code: it is modelled from CPython's
      behaviour, as [Telegram] is from the spec.
    - [Database]: [UserDatabase], with its state [self.data], the content
      of the JSON file on disk, and the clock [datetime.now()] reads.
      [encode_file] and [decode_file] compose [Json] the way [_save_data]
      and [_load_data] do; a crash leaves some prefix of the bytes
      [_save_data] writes ([Process] restarts from it).  Its
      methods are [_load_data], [_save_data], [add_user], [get_user],
      [add_message], [get_user_messages], [get_all_users],
      [deactivate_user] and [activate_user].  The invariant [wf_db db rs]
      relates [self.data] to an abstract list of user records [rs]; the
      class [Registry] with its laws [RegistryLaws] is the spec's registry
      contract (§4.1), and [list_registry] implements it.
    - [Telegram]: the transport collaborator (spec-modelled).  It has the
      incoming updates, the outgoing API requests, and a delivery oracle
      [w_net] that decides which request fails; the shared state of the
      handlers is a [world] (registry, [admin_current_chat], log of
      requests, oracle, and the records the logging handler wrote);
      [logger_error] is [logger.error].
    - [Relay]: [start], [help_command] and [handle_client_message].
    - [Admin]: [users_command], [stats_command], [reply_command],
      [broadcast_command], [block_command], [unblock_command],
      [handle_admin_message] and [button_callback].
    - [Bot]: [handle_message], [main]'s handler table as [dispatch], and
      [run] over a list of updates; an exception that escapes a handler
      is logged by the [Application] ([log_handler_error]).  The
      preorder [evolves Q] and the
      lemmas that every handler moves the registry along any [Q] closed
      under the registry operations it performs, within [db_frame].
    - [Engine]: the spec's RelayEngine (§4.2) as [engine_step] on the
      abstract registry, the registry effect of every handler, and the
      refinement of [engine_run] by [run].
    - [Lifecycle]: the spec's per-user state machine (§4.2) as an
      inductive step relation [ustep] labelled by updates, and
      [lifecycle] over sequences of updates; the abstraction [state_of]
      of a registry to the state of one user.
    - [Exceptions]: a Hoare logic [triple m Q E] on [PyM world] (value
      [Q], escaping exception [E], registry kept well formed), its rules
      for the monad's combinators and the registry calls, and a triple
      for every handler.
    - [Console]: [main]'s start-up lines followed by [run] ([boot_main]),
      and [test_bot.py]: [test_bot] and [test_main] over a console state
      holding the printed lines and the answer of [getMe].
    - [Process]: [config.py] (spec-modelled: it is not in the
      repository) as the record [config], the file system as the bytes
      of each file, the import of [bot.py] ([db = UserDatabase(DB_FILE)],
      [admin_current_chat = None]) as [bot_module_init], and [python
      bot.py] as [bot_process]: the import, then [main] over a finite
      sequence of updates, or death at import.

    ** What the theorems show

    - Registry ([Database]): every call the bot makes implements its
      abstract operation and keeps [wf_db], and either leaves the file
      alone or leaves it equal to [self.data]; upsert is idempotent;
      [add_message] appends exactly one entry; [get_all_users] lists the
      active records in insertion order; reload after a call gives back
      the registry; [_load_data]'s policy on missing, malformed and
      non-UTF-8 files.  Every call touches only the ["users"] entry of
      [self.data] and keeps the file equal to [self.data] when it was
      ([db_frame]), so [self.data] stays a value [json.dump] writes
      faithfully as long as its records hold characters only
      ([json_wf_users_only]).
    - File ([Json], [Database]): [json.loads] reads back what
      [json.dump] writes, and so [_load_data] reads back the bytes
      [_save_data] writes; no proper prefix of those bytes loads as
      JSON, so no crash point leaves a loadable file; a crash inside a
      multi-byte character leaves bytes that make [UserDatabase] raise
      [UnicodeDecodeError].  The proofs go through fuel monotonicity, a
      round trip with any remaining text (in the style of
      serialisation libraries), the lemma that text appended after a
      closed value is never read ([parse_ext]), and the UTF-8 lemma that
      a cut byte string decodes to a prefix of the text or not at all.
    - Process ([Process]): a process restarted on the bytes
      [_save_data] wrote runs with exactly the saved registry; restarted
      on the bytes a crash during [_save_data] left, it dies at import
      with [UnicodeDecodeError] or runs with an empty registry; a file
      that is not JSON starts an empty registry and logs nothing.  Over a
      whole run of updates whose text is Unicode, from a registry on
      disk, every change is saved, and a process restarted on the bytes
      of the file runs with the registry the abstract engine computes
      for that run ([restart_after_run]): [Engine]'s refinement, the
      frame of the registry calls, the validity of the records the
      engine builds ([engine_run_valid]) and the byte-level round trip,
      composed.
    - Console ([Console]): the smoke test never raises; it prints four
      lines and returns [True] exactly when the token is non-empty and
      [getMe] answers.
    - Handlers ([Relay], [Admin]): every branch of
      [handle_client_message] (unregistered, blocked, forwarded, with any
      pattern of delivery failures); reply atomicity and the reply to an
      unknown id; broadcast accounting, with one log record per failed
      send; [/stats] numbers and rendering;
      [/block] and [/unblock]; the operator guard of every command; the
      chunking of [/users]; the selection-button round trip; and that the
      reply target set by a button is never read; the keyboard of a bare
      operator message; that [/reply] sends the words of the operator's
      text re-joined by single spaces; the length of the
      forward, which exceeds Telegram's limit for long client texts.
    - Runs ([Bot], [Engine]): over any sequence of updates, ledgers are
      append-only and records never deleted; a blocked user stays blocked
      while no [/unblock] is processed; every client message is answered;
      the bot refines the abstract engine, which reads for each update
      whether the first request the run made for it was delivered
      ([run_bits]); the spec's block-gating
      scenario holds as a run.
    - Lifecycle ([Lifecycle]): every run moves each user along the
      spec's state machine, with the transitions fired only by the
      user's [/start] and the operator's [/block] and [/unblock]; by
      rule induction, a user who never sends [/start] is never
      registered.
    - Exceptions ([Exceptions]): on a well-formed registry the only
      exceptions that escape a handler are the network's
      [TelegramError]s, the [AttributeError] of an operator message
      without text and the [ValueError] of a [reply_] button without a
      number.
    - [PROJECT.json] lists the findings: where the code departs from
      the spec or from its own intent.

    ** Bounds and approximations

    - [:.1f] is modelled exactly for the quotients [/stats] computes:
      [div_to_double] rounds [m/n] to the nearest binary64 (exact for
      [m/n < 2^1023], far beyond any message count) and [format_fixed1]
      rounds half to even on that value.
    - [int()] accepts the ASCII digits, signs, surrounding whitespace
      and underscores; Unicode digits, which Python also accepts, are
      rejected (a [ValueError] where Python would parse).
    - [repr()] escapes the ASCII control characters only.
    - [range] is computed with fuel [stop - start], enough for any
      positive step ([py_range_complete]: more fuel gives the same
      list), so every loop of the model terminates by structure.
    - Telegram's limit of 4096 characters per message is not part of the
      delivery oracle, which may refuse any request; [Relay] shows which
      forwards exceed it, counting code points (a lower bound on the
      UTF-16 units Telegram counts).
    - The clock is one value per registry state: every timestamp of an
      update is [clock], which no operation advances.
    - The JSON parser takes fuel; [json_loads] gives it twice the length
      of the text, which [json_loads_complete] shows is enough for every
      text that parses at all.  Floats, [NaN] and [Infinity] are
      rejected ([pyobj] has no floats and the registry holds none), and
      integers of more than 4300 digits, which CPython refuses, are not
      modelled.  Files are written on POSIX, where text mode writes
      ['\n'] as is; [json.dump] writes no ['\r'], so the universal
      newlines of reading change nothing.  A crash leaves some prefix of
      the bytes written: any prefix, since the buffer of the text file
      reaches the disk in pieces of any length.

    ** Not modelled

    - The registry's [disk] field holds what [json.load] makes of the
      file ([FileJson], [FileMalformed], [FileNotUtf8]); the bytes are
      modelled in [Json] and [Database] ([decode_file]), which relate the
      two.
    - Lone surrogates in a string: [json.dump] with [ensure_ascii=False]
      writes them and the UTF-8 encoder then raises; the round trip is
      proved for strings of valid characters ([json_wf]).
    - The time in a log line's [asctime] (the records are kept, and
      [format_record] takes the formatted time as given) and the
      traceback lines that follow a record with [exc_info].  Of the
      records the libraries log (python-telegram-bot's start-up lines,
      the HTTP client's line per request, which [basicConfig]'s [INFO]
      level lets through), only the [Application]'s record of an
      exception escaping a handler is modelled.
      [run_polling]'s network loop is modelled by [run] over a finite
      sequence of updates.
    - Concurrency: python-telegram-bot processes updates one at a time by
      default, which [run] models; concurrent handlers interleaving at
      [await] points are not modelled.
    - [config.py] is not in the repository: [Process] models it from
      the spec as a record of its three names; the handler files take
      [ADMIN_USER_ID] as a section variable.
    - Edited messages and channel posts.  [main] asks for
      [Update.ALL_TYPES] and registers [MessageHandler(filters.ALL &
      ~filters.COMMAND)], so python-telegram-bot also passes an edited
      message to [handle_message]; there [update.message] is [None].
      The model's updates are new messages, commands and button presses
      only: the handlers take the message itself, not an optional one.
    - The [import] lines that open the three sources: they only bind
      names, which the files here take from their [Require]s.  Every
      other line of the sources is translated by a definition named in
      [PROJECT.json]'s map.  The libraries the code calls (CPython's
      [json] and UTF-8 codec, [logging], python-telegram-bot) are
      modelled only as far as the code uses them.
*)

From Stdlib Require Export ZArith.
From stdpp Require Export base list options sets.

Declare Scope py_scope.
Delimit Scope py_scope with py.

(** Lemmas the development uses to compute with its definitions. *)
Create HintDb pyeval discriminated.
Create Rewrite HintDb pyrw.

(** ** Generic list lemmas *)

(** Python's [l[-n:]]: the last [n] elements (all of them when the list is
    shorter). *)
Definition last_n {A} (n : nat) (l : list A) : list A := drop (length l - n) l.

Lemma last_n_length {A} n (l : list A) : length (last_n n l) = Nat.min n (length l).
Proof. unfold last_n. rewrite length_drop. lia. Qed.

Lemma last_n_suffix {A} n (l : list A) : last_n n l `suffix_of` l.
Proof. unfold last_n. apply suffix_drop. Qed.

Lemma last_n_map {A B} (f : A -> B) n (l : list A) : last_n n (map f l) = map f (last_n n l).
Proof. unfold last_n. rewrite length_map. apply skipn_map. Qed.

Lemma mjoin_map_singleton {A B} (f : A -> B) (l : list A) : mjoin (map (fun x => [f x]) l) = map f l.
Proof. induction l as [|x l IH]; [done|]. simpl. by rewrite IH. Qed.

Lemma filter_app_single {A} (P : A -> Prop) `{!∀ x, Decision (P x)} l x :
  filter P (l ++ [x]) = filter P l ++ (if decide (P x) then [x] else []).
Proof. rewrite filter_app. simpl. unfold filter. simpl. by case_decide. Qed.

#[export] Hint Resolve last_n_suffix : pyeval.

(** ** Tactics *)

(** Case analysis on every [if]/[match] of a hypothesis, keeping its
    equation. *)
Ltac case_match_in H :=
  match type of H with
  | context [match ?x with _ => _ end] => destruct x eqn:?
  end.

(** Unfold a handler and compute the straight-line part of it. *)
Ltac py_simpl := repeat (cbn -[Z.of_nat Z.to_nat]; simplify_eq/=).
