(* ===== verification/PyStr.v ===== *)
(** * Python strings

    A Python [str] is a sequence of Unicode code points, and [len],
    indexing and slicing count code points.  We model it as [list Z].
    The literals of [bot.py] are written as Rocq string literals, whose
    bytes are UTF-8, and [lit] decodes them.  The Python builtins the bot
    applies to strings are modelled here: [str(int)], [int(str)],
    [str.split(sep)], [str.split()], [sep.join(l)], [str.startswith],
    [str.strip], slicing and [range(start, stop, step)].  The main result is the round
    trip [int(str(z)) = z].  The bot depends on it in two places:
    [/reply <id>] and the ["reply_<id>"] callback data identify users by
    [str(user_id)]. *)

From S2P Require Import Prelude.
From Stdlib Require Import Ascii String DecimalZ.
Export String.StringSyntax.

Abbreviation pystr := (list Z) (only parsing).

(** ** Literals *)

(** UTF-8 decoding of a well-formed byte sequence into code points. *)
Fixpoint utf8_decode (bs : list Z) : pystr :=
  match bs with
  | [] => []
  | b0 :: r0 =>
    if (b0 <? 128)%Z then b0 :: utf8_decode r0 else
    match r0 with
    | [] => []
    | b1 :: r1 =>
      if (b0 <? 224)%Z then (Z.land b0 31 * 64 + Z.land b1 63)%Z :: utf8_decode r1 else
      match r1 with
      | [] => []
      | b2 :: r2 =>
        if (b0 <? 240)%Z
        then (Z.land b0 15 * 4096 + Z.land b1 63 * 64 + Z.land b2 63)%Z :: utf8_decode r2
        else match r2 with
             | [] => []
             | b3 :: r3 =>
               (Z.land b0 7 * 262144 + Z.land b1 63 * 4096 + Z.land b2 63 * 64
                + Z.land b3 63)%Z :: utf8_decode r3
             end
      end
    end
  end.

Definition lit (s : string) : pystr :=
  utf8_decode (map (fun a => Z.of_nat (nat_of_ascii a)) (list_ascii_of_string s)).
Arguments lit s%_string.

(** ** [str(int)] *)

Fixpoint uint_digits (d : Decimal.uint) : pystr :=
  match d with
  | Decimal.Nil => []
  | Decimal.D0 d => 48%Z :: uint_digits d
  | Decimal.D1 d => 49%Z :: uint_digits d
  | Decimal.D2 d => 50%Z :: uint_digits d
  | Decimal.D3 d => 51%Z :: uint_digits d
  | Decimal.D4 d => 52%Z :: uint_digits d
  | Decimal.D5 d => 53%Z :: uint_digits d
  | Decimal.D6 d => 54%Z :: uint_digits d
  | Decimal.D7 d => 55%Z :: uint_digits d
  | Decimal.D8 d => 56%Z :: uint_digits d
  | Decimal.D9 d => 57%Z :: uint_digits d
  end.

(** [str(z)]: an optional ['-'] and the decimal digits, with no leading
    zeros and ["0"] for zero ([Z.to_int] normalises). *)
Definition py_str_int (z : Z) : pystr :=
  match Z.to_int z with
  | Decimal.Pos d => uint_digits d
  | Decimal.Neg d => 45%Z :: uint_digits d
  end.

(** ** [int(str)] *)

Definition digit_ctor (c : Z) : option (Decimal.uint -> Decimal.uint) :=
  if ((48 <=? c) && (c <=? 57))%Z
  then [Decimal.D0; Decimal.D1; Decimal.D2; Decimal.D3; Decimal.D4;
        Decimal.D5; Decimal.D6; Decimal.D7; Decimal.D8; Decimal.D9]
         !! Z.to_nat (c - 48)
  else None.

Fixpoint digits_uint (s : pystr) : option Decimal.uint :=
  match s with
  | [] => Some Decimal.Nil
  | c :: r => k ← digit_ctor c; d ← digits_uint r; Some (k d)
  end.

(** The code points for which [str.isspace()] holds; [int()] strips
    them on both sides. *)
Definition is_py_space (c : Z) : bool :=
  ((9 <=? c) && (c <=? 13))%Z || ((28 <=? c) && (c <=? 32))%Z
  || (c =? 133)%Z || (c =? 160)%Z || (c =? 5760)%Z
  || ((8192 <=? c) && (c <=? 8202))%Z || (c =? 8232)%Z || (c =? 8233)%Z
  || (c =? 8239)%Z || (c =? 8287)%Z || (c =? 12288)%Z.

Fixpoint lstrip_by (p : Z -> bool) (s : pystr) : pystr :=
  match s with
  | c :: r => if p c then lstrip_by p r else s
  | [] => []
  end.

(** [s.strip()] *)
Definition py_strip (s : pystr) : pystr :=
  rev (lstrip_by is_py_space (rev (lstrip_by is_py_space s))).

(** Python accepts single underscores between digits ([int("1_000")]). *)
Fixpoint underscores_between (prev_digit : bool) (s : pystr) : bool :=
  match s with
  | [] => prev_digit
  | c :: r =>
    if (c =? 95)%Z then prev_digit && underscores_between false r
    else underscores_between true r
  end.

(** [int(s)] in base 10; [None] is the [ValueError].  Only ASCII digits
    are modelled (Python also accepts the other Unicode decimal digits). *)
Definition py_sign_split (t : pystr) : Z * pystr :=
  match t with
  | c :: r => if (c =? 45)%Z then ((-1)%Z, r)
              else if (c =? 43)%Z then (1%Z, r) else (1%Z, t)
  | [] => (1%Z, t)
  end.

Definition py_int (s : pystr) : option Z :=
  let '(sign, body) := py_sign_split (py_strip s) in
  if underscores_between false body then
    d ← digits_uint (filter (fun c => c ≠ 95%Z) body);
    Some (sign * Z.of_uint d)%Z
  else None.

(** ** Other string methods *)

(** The pieces of [s] between the characters satisfying [p] (never
    empty: [s] without such a character is one piece). *)
Fixpoint split_by (p : Z -> bool) (s : pystr) : list pystr :=
  match s with
  | [] => [[]]
  | c :: r =>
    if p c then [] :: split_by p r
    else match split_by p r with
         | w :: ws => (c :: w) :: ws
         | [] => [[c]]
         end
  end.

(** [s.split(sep)] for a one-character separator. *)
Definition py_split (sep : Z) (s : pystr) : list pystr := split_by (fun c => (c =? sep)%Z) s.

(** [s.split()]: the runs of characters for which [str.isspace()] does
    not hold ([is_py_space]). *)
Definition py_split_ws (s : pystr) : list pystr := filter (fun w => w ≠ []) (split_by is_py_space s).

(** [sep.join(l)] *)
Fixpoint py_join (sep : pystr) (l : list pystr) : pystr :=
  match l with
  | [] => []
  | [w] => w
  | w :: ws => w ++ sep ++ py_join sep ws
  end.

(** [s.startswith(p)] *)
Fixpoint startswith (p s : pystr) : bool :=
  match p, s with
  | [], _ => true
  | c :: p', d :: s' => (c =? d)%Z && startswith p' s'
  | _ :: _, [] => false
  end.

(** [s[i:j]] for [0 <= i <= j] *)
Definition py_slice {A} (i j : nat) (s : list A) : list A := take (j - i) (drop i s).

(** [list(range(start, stop, step))] for a positive step. *)
Fixpoint py_range_fuel (fuel : nat) (start stop step : nat) : list nat :=
  match fuel with
  | O => []
  | S f => if start <? stop then start :: py_range_fuel f (start + step) stop step else []
  end.

(** [stop - start] iterations suffice, since [step >= 1]. *)
Definition py_range (start stop step : nat) : list nat :=
  py_range_fuel (stop - start) start stop step.

(** [c * n] for a string [c] *)
Definition py_repeat (s : pystr) (n : nat) : pystr := mjoin (replicate n s).

(** [repr(s)]: single quotes unless [s] holds a single quote and no
    double quote; backslash, the quote, [\n], [\r], [\t] and the other
    ASCII control characters escaped.  (Python also escapes the
    non-printable characters beyond ASCII; the code only shows
    [repr] of a str inside a list or dict repr.) *)
Definition hex_digit (n : Z) : Z := if (n <? 10)%Z then (48 + n)%Z else (87 + n)%Z.

Definition repr_char (q c : Z) : pystr :=
  if (c =? 92)%Z then [92; 92]%Z
  else if (c =? q)%Z then [92; q]%Z
  else if (c =? 10)%Z then [92; 110]%Z
  else if (c =? 13)%Z then [92; 114]%Z
  else if (c =? 9)%Z then [92; 116]%Z
  else if ((c <? 32) || (c =? 127))%Z then [92; 120; hex_digit (c / 16); hex_digit (c mod 16)]%Z
  else [c].

Definition str_repr (s : pystr) : pystr :=
  let q := if bool_decide (39%Z ∈ s) && negb (bool_decide (34%Z ∈ s)) then 34%Z else 39%Z in
  q :: mjoin (map (repr_char q) s) ++ [q].

(** ** Floats: [f"{m/n:.1f}"] *)

(** [a / b] rounded to the nearest integer, ties to even ([b > 0]). *)
Definition round_half_even (a b : Z) : Z :=
  let q := (a / b)%Z in
  let r := (a mod b)%Z in
  if (b <? 2 * r)%Z then (q + 1)%Z
  else if (2 * r =? b)%Z then (if Z.even q then q else (q + 1)%Z)
  else q.

(** [m * 2^k / n] as a fraction [(numerator, denominator)]. *)
Definition scaled_ratio (m n k : Z) : Z * Z :=
  if (0 <=? k)%Z then ((m * 2 ^ k)%Z, n) else (m, (n * 2 ^ (- k))%Z).

(** The binary64 number nearest to [m / n] (ties to even), for [0 < m] and
    [0 < n] below [2^1023]: [q * 2^(-k)] with a 53-bit [q].  CPython's
    [int / int] is correctly rounded, so this is its value. *)
Definition div_to_double (m n : Z) : Z * Z :=
  let k0 := (52 - Z.log2 m + Z.log2 n)%Z in
  let k := let '(a, b) := scaled_ratio m n k0 in
           if (a / b <? 2 ^ 52)%Z then (k0 + 1)%Z else k0 in
  let '(a, b) := scaled_ratio m n k in
  (round_half_even a b, k).

(** [format(q * 2^(-k), ".1f")] for [q >= 0]: the exact binary value
    rounded to one decimal, ties to even. *)
Definition format_fixed1 (q k : Z) : pystr :=
  let t := if (0 <=? k)%Z then round_half_even (10 * q) (2 ^ k) else (10 * q * 2 ^ (- k))%Z in
  py_str_int (t / 10) ++ [46%Z] ++ py_str_int (t mod 10).

(** [f"{m / n:.1f}"] for [m >= 0] and [n > 0]. *)
Definition format_ratio_1f (m n : Z) : pystr :=
  if (m =? 0)%Z then lit "0.0" else let '(q, k) := div_to_double m n in format_fixed1 q k.

(** ** Lemmas *)

Lemma digits_uint_uint_digits d : digits_uint (uint_digits d) = Some d.
Proof. induction d; simpl; rewrite ?IHd; reflexivity. Qed.

Lemma uint_digits_digit c d : c ∈ uint_digits d -> (48 <= c <= 57)%Z.
Proof.
  induction d; simpl; intros Hc; [by apply not_elem_of_nil in Hc|..];
    apply elem_of_cons in Hc as [->|]; auto; lia.
Qed.

Lemma uint_digits_lstrip p d :
  (∀ c, (48 <= c <= 57)%Z -> p c = false) -> lstrip_by p (uint_digits d) = uint_digits d.
Proof.
  intros Hp. destruct d; simpl; try reflexivity; rewrite Hp; auto; lia.
Qed.

Lemma is_py_space_digit c : (48 <= c <= 57)%Z -> is_py_space c = false.
Proof.
  intros Hc. unfold is_py_space.
  repeat match goal with
  | |- context [(?a <=? ?b)%Z] =>
      first [ rewrite (proj2 (Z.leb_le a b)) by lia
            | rewrite (proj2 (Z.leb_gt a b)) by lia ]
  | |- context [(?a =? ?b)%Z] => rewrite (proj2 (Z.eqb_neq a b)) by lia
  end; reflexivity.
Qed.

Lemma underscores_between_digits b d :
  underscores_between b (uint_digits d) =
    (b || match d with Decimal.Nil => false | _ => true end).
Proof.
  revert b. induction d; intros b; simpl; rewrite ?IHd;
    destruct b; reflexivity.
Qed.

Lemma filter_uint_digits d : filter (fun c => c ≠ 95%Z) (uint_digits d) = uint_digits d.
Proof.
  induction d; cbn [uint_digits]; [done|..]; rewrite filter_cons_True by lia; congruence.
Qed.

Lemma lstrip_by_id p (s : pystr) : Forall (fun c => p c = false) s -> lstrip_by p s = s.
Proof.
  intros Hs. destruct s as [|c s]; [done|].
  apply Forall_cons in Hs as [Hc _]. simpl. rewrite Hc. done.
Qed.

Lemma py_strip_id (s : pystr) : Forall (fun c => is_py_space c = false) s -> py_strip s = s.
Proof.
  intros Hs. unfold py_strip. rewrite (lstrip_by_id _ s) by done.
  rewrite lstrip_by_id; [apply rev_involutive|]. by apply List.Forall_rev.
Qed.

Lemma uint_digits_no_space d : Forall (fun c => is_py_space c = false) (uint_digits d).
Proof.
  apply List.Forall_forall. intros c Hc. apply is_py_space_digit.
  apply (uint_digits_digit c d). by apply list_elem_of_In.
Qed.

(** [Z.to_int] never yields an empty digit string. *)
Lemma to_int_nonempty z :
  Z.to_int z ≠ Decimal.Pos Decimal.Nil ∧ Z.to_int z ≠ Decimal.Neg Decimal.Nil.
Proof.
  pose proof (DecimalZ.of_to z) as Hz.
  split; intros Hd; rewrite Hd in Hz; simpl in Hz; subst z; discriminate Hd.
Qed.

Ltac py_int_digits_tac Hz :=
  rewrite underscores_between_digits, filter_uint_digits, digits_uint_uint_digits;
  rewrite <- Hz; cbn [Z.of_int]; destruct (_ : Decimal.uint); try congruence;
  cbn -[Z.of_uint]; f_equal; lia.

Lemma py_sign_split_digits d : d ≠ Decimal.Nil -> py_sign_split (uint_digits d) = (1%Z, uint_digits d).
Proof. intros Hd. destruct d; [congruence|..]; reflexivity. Qed.

(** [int(str(z)) = z]: the decimal rendering of an integer parses back
    to the same integer. *)
Theorem py_int_str_roundtrip z : py_int (py_str_int z) = Some z.
Proof.
  pose proof (DecimalZ.of_to z) as Hz. pose proof (to_int_nonempty z) as [Hp Hn].
  unfold py_int, py_str_int in *. destruct (Z.to_int z) as [d|d].
  - rewrite py_strip_id, py_sign_split_digits by (apply uint_digits_no_space || congruence).
    cbn beta iota. py_int_digits_tac Hz.
  - rewrite py_strip_id by (constructor; [reflexivity | apply uint_digits_no_space]).
    cbn [py_sign_split Z.eqb Pos.eqb]. py_int_digits_tac Hz.
Qed.

Corollary py_str_int_inj z1 z2 : py_str_int z1 = py_str_int z2 -> z1 = z2.
Proof.
  intros H. apply (f_equal py_int) in H. rewrite !py_int_str_roundtrip in H. congruence.
Qed.

Lemma startswith_app (p s : pystr) : startswith p (p ++ s) = true.
Proof. induction p as [|c p IH]; [done|]. simpl. by rewrite Z.eqb_refl. Qed.

Lemma startswith_inv (p s : pystr) : startswith p s = true -> ∃ s', s = p ++ s'.
Proof.
  revert s. induction p as [|c p IH]; intros [|d s] H; simpl in *; try discriminate; [eauto|eauto|].
  apply andb_prop in H as [->%Z.eqb_eq (s' & ->)%IH]. eauto.
Qed.

(** ** Splitting *)

Section SplitBy.
Context (p : Z -> bool).

Lemma split_by_nonempty s : split_by p s ≠ [].
Proof. destruct s; simpl; [done|]. by repeat case_match. Qed.

Lemma split_by_none s : (∀ c, c ∈ s -> p c = false) -> split_by p s = [s].
Proof.
  induction s as [|c s IH]; intros Hs; [done|]. simpl.
  rewrite Hs by left. rewrite IH; [done|]. intros d Hd. apply Hs. by right.
Qed.

(** A separator ends a piece: splitting distributes over it. *)
Lemma split_by_app a c b : p c = true -> split_by p (a ++ c :: b) = split_by p a ++ split_by p b.
Proof.
  intros Hc. induction a as [|x a IH]; simpl; [by rewrite Hc|].
  destruct (p x); [by rewrite IH|]. rewrite IH.
  destruct (split_by p a) as [|w ws] eqn:Ha; [by apply split_by_nonempty in Ha | done].
Qed.

End SplitBy.

(** The first piece of [(p + sep + s).split(sep)] when [p] holds no [sep]. *)
Lemma py_split_sep sep (p s : pystr) :
  sep ∉ p -> py_split sep (p ++ sep :: s) = p :: py_split sep s.
Proof.
  intros Hp. unfold py_split. rewrite split_by_app by apply Z.eqb_refl.
  rewrite split_by_none; [done|]. intros c Hc. apply Z.eqb_neq. intros ->. by apply Hp.
Qed.

(** [(p + sep + s).split(sep)] when neither part holds [sep]. *)
Lemma py_split_two sep (p s : pystr) :
  sep ∉ p -> sep ∉ s -> py_split sep (p ++ sep :: s) = [p; s].
Proof.
  intros Hp Hs. rewrite py_split_sep by done. unfold py_split. rewrite split_by_none; [done|].
  intros c Hc. apply Z.eqb_neq. intros ->. by apply Hs.
Qed.

Lemma py_split_ws_app a c b :
  is_py_space c = true -> py_split_ws (a ++ c :: b) = py_split_ws a ++ py_split_ws b.
Proof. intros Hc. unfold py_split_ws. by rewrite split_by_app, filter_app. Qed.

(** A word: non-empty, without whitespace. *)
Lemma py_split_ws_word w :
  w ≠ [] -> (∀ c, c ∈ w -> is_py_space c = false) -> py_split_ws w = [w].
Proof.
  intros Hw Hs. unfold py_split_ws. rewrite split_by_none by done.
  by rewrite filter_cons_True, filter_nil.
Qed.

Lemma is_py_space_range c : is_py_space c = true -> (c <= 32 ∨ 133 <= c)%Z.
Proof.
  unfold is_py_space. rewrite !orb_true_iff, !andb_true_iff, !Z.leb_le, !Z.eqb_eq. lia.
Qed.

Lemma py_str_int_nonempty z : 1 <= List.length (py_str_int z).
Proof.
  destruct (py_str_int z) eqn:H; simpl; [|lia].
  pose proof (py_int_str_roundtrip z) as R. rewrite H in R. discriminate R.
Qed.

Lemma py_str_int_no_space z c : c ∈ py_str_int z -> is_py_space c = false.
Proof.
  intros Hc. destruct (is_py_space c) eqn:Hs; [|done]. apply is_py_space_range in Hs.
  unfold py_str_int in Hc. destruct (Z.to_int z) as [d|d]; [|apply elem_of_cons in Hc as [->|Hc]];
    try lia; apply uint_digits_digit in Hc; lia.
Qed.

Lemma py_str_int_no_underscore z : 95%Z ∉ py_str_int z.
Proof.
  unfold py_str_int. destruct (Z.to_int z) as [d|d];
    [|apply not_elem_of_cons; split; [done|]]; intros Hin%uint_digits_digit; lia.
Qed.


(** ** [s[x:x+n] for x in range(start, len(s), n)] *)

Section Chunks.
Context {A : Type} (n : nat) (Hn : 0 < n).

Lemma slices_concat f start (s : list A) :
  List.length s - start <= f ->
  mjoin (map (fun x => py_slice x (x + n) s) (py_range_fuel f start (List.length s) n)) = drop start s.
Proof using Hn.
  revert start. induction f as [|f IH]; intros start Hf; simpl.
  - rewrite drop_ge; [done | lia].
  - destruct (start <? List.length s) eqn:Hlt; simpl.
    + apply Nat.ltb_lt in Hlt. rewrite IH by lia. unfold py_slice.
      replace (start + n - start) with n by lia. by rewrite <- drop_drop, take_drop.
    + apply Nat.ltb_ge in Hlt. rewrite drop_ge; [done | lia].
Qed.

Lemma slices_bounded f start (s : list A) :
  Forall (fun t => List.length t <= n) (map (fun x => py_slice x (x + n) s) (py_range_fuel f start (List.length s) n)).
Proof using Hn.
  revert start. induction f as [|f IH]; intros start; simpl; [done|].
  destruct (start <? List.length s); simpl; [|done].
  constructor; [|apply IH]. unfold py_slice. rewrite length_take. lia.
Qed.

(** One more element: the count of [range] drops by one. *)
Lemma range_count_succ start stop :
  start < stop -> (stop - start + n - 1) / n = S ((stop - (start + n) + n - 1) / n).
Proof using Hn.
  intros Hlt. destruct (decide (stop - start <= n)).
  - replace (stop - start + n - 1) with (1 * n + (stop - start - 1)) by lia.
    replace (stop - (start + n) + n - 1) with (n - 1) by lia.
    rewrite Nat.div_add_l, !Nat.div_small by lia. done.
  - replace (stop - start + n - 1) with (1 * n + (stop - (start + n) + n - 1)) by lia.
    rewrite Nat.div_add_l by lia. done.
Qed.

(** With fuel at least [stop - start], [range] is the arithmetic
    progression from [start] below [stop]. *)
Lemma py_range_fuel_seq f start stop :
  stop - start <= f ->
  py_range_fuel f start stop n = map (fun k => start + k * n) (seq 0 ((stop - start + n - 1) / n)).
Proof using Hn.
  revert start. induction f as [|f IH]; intros start Hf; simpl.
  - replace (stop - start) with 0 by lia. by rewrite Nat.div_small by lia.
  - destruct (start <? stop) eqn:Hlt.
    + apply Nat.ltb_lt in Hlt. rewrite (range_count_succ start stop Hlt), IH by lia.
      cbn [seq map]. f_equal; [lia|]. rewrite <- seq_shift, map_map.
      apply map_ext. intros k. lia.
    + apply Nat.ltb_ge in Hlt. replace (stop - start) with 0 by lia. by rewrite Nat.div_small by lia.
Qed.

Lemma py_range_fuel_length f start stop :
  stop - start <= f ->
  List.length (py_range_fuel f start stop n) = (stop - start + n - 1) / n.
Proof using Hn. intros Hf. by rewrite py_range_fuel_seq, length_map, length_seq. Qed.

End Chunks.

(** [range(start, stop, step)] with [step >= 1] is
    computed completely by the fuel [stop - start] that [py_range] gives
    it: the loop stops by its test [start < stop], never for want of
    fuel, so any larger fuel gives the same list, and that list is the
    progression [start, start + step, ...] below [stop], of
    [ceil((stop - start) / step)] elements. *)
Lemma py_range_complete f start stop step :
  0 < step -> stop - start <= f ->
  py_range_fuel f start stop step = py_range start stop step
  ∧ py_range start stop step = map (fun k => start + k * step) (seq 0 ((stop - start + step - 1) / step)).
Proof.
  intros Hn Hf. unfold py_range. rewrite !py_range_fuel_seq by (done || lia). done.
Qed.

