(* ===== verification/PyM.v ===== *)
(** * Python exceptions and the state-and-exception monad

    The handlers of [bot.py] and the methods of [UserDatabase] mutate shared
    state and can raise: [KeyError] from [d[k]], [AttributeError] from a
    method call on the wrong type, [ValueError] from [int()], and the
    Telegram library's errors from any network request.  [PyM S A] is a
    computation on a state [S] that returns an [A] or raises.  As in
    Python, the mutations made before a [raise] persist: the state is
    returned in both cases.  [try_except] is Python's [try]/[except] with a
    predicate for the exception classes the clause names.  [zoom] runs an
    operation on one part of a larger state, through a lens. *)

From S2P Require Import Prelude PyStr.

(** The exceptions the code can raise.  Each carries the text [str(e)]
    gives. *)
Inductive exn :=
| KeyError (key_repr : pystr)
| TypeError (msg : pystr)
| AttributeError (msg : pystr)
| ValueError (msg : pystr)
| IndexError (msg : pystr)
| UnicodeDecodeError
| TelegramError (msg : pystr).

(** [str(e)] *)
Definition exn_str (e : exn) : pystr :=
  match e with
  | KeyError k => k
  | TypeError m | AttributeError m | ValueError m | IndexError m | TelegramError m => m
  | UnicodeDecodeError => lit "'utf-8' codec can't decode bytes"
  end.

Inductive outcome (A : Type) := Ok (a : A) | Raised (e : exn).
Arguments Ok {A} a.
Arguments Raised {A} e.

Definition PyM (S A : Type) : Type := S -> outcome A * S.

#[export] Instance pym_ret {S} : MRet (PyM S) := fun A a s => (Ok a, s).
#[export] Instance pym_bind {S} : MBind (PyM S) :=
  fun A B k m s =>
    match m s with
    | (Ok a, s') => k a s'
    | (Raised e, s') => (Raised e, s')
    end.

(** [return] with no value (Python's [None]). *)
Definition return_none {S} : PyM S unit := mret tt.

Definition raise {S A} (e : exn) : PyM S A := fun s => (Raised e, s).
Definition get_state {S} : PyM S S := fun s => (Ok s, s).
Definition put_state {S} (s : S) : PyM S unit := fun _ => (Ok tt, s).
Definition modify {S} (f : S -> S) : PyM S unit := fun s => (Ok tt, f s).

(** An outcome of a pure Python expression, as a computation. *)
Definition of_outcome {S A} (o : outcome A) : PyM S A := fun s => (o, s).

(** [try: m except <the classes [catches] accepts> as e: h e] *)
Definition try_except {S A} (m : PyM S A) (catches : exn -> bool) (h : exn -> PyM S A)
  : PyM S A :=
  fun s =>
    match m s with
    | (Raised e, s') => if catches e then h e s' else (Raised e, s')
    | r => r
    end.

(** [except Exception]: every exception the code can raise. *)
Definition any_exception (e : exn) : bool := true.

(** [except ValueError] *)
Definition is_ValueError (e : exn) : bool :=
  match e with ValueError _ => true | _ => false end.

(** A [for] loop whose body updates local accumulators [B]; an exception
    leaves the loop. *)
Fixpoint py_for {S A B} (l : list A) (acc : B) (body : B -> A -> PyM S B) : PyM S B :=
  match l with
  | [] => mret acc
  | x :: xs => acc' ← body acc x; py_for xs acc' body
  end.

(** [[x for x in l if p(x)]] where evaluating [p(x)] may raise. *)
Fixpoint py_filter {S A} (p : A -> PyM S bool) (l : list A) : PyM S (list A) :=
  match l with
  | [] => mret []
  | x :: xs => b ← p x; r ← py_filter p xs; mret (M:=PyM S) (if (b : bool) then x :: r else r)
  end.

(** Unfold the monad's plumbing and reduce, leaving the calls of named
    operations as [match] scrutinees for their run lemmas to rewrite. *)
Ltac py_unfold :=
  cbv [mbind pym_bind of_outcome return_none mret pym_ret get_state put_state modify
       try_except raise any_exception];
  cbn beta iota zeta;
  cbn [fmap option_fmap option_map default from_option id negb andb orb].

(** Rewrite with the run lemma [H] of an operation and continue. *)
Tactic Notation "py_run" constr(H) := rewrite H; py_unfold.
Tactic Notation "py_run" constr(H) "by" tactic3(tac) := rewrite H by tac; py_unfold.

(** ** Lenses *)

Record lens (S T : Type) := Lens { view : S -> T; set_view : T -> S -> S }.
Arguments Lens {S T} view set_view.
Arguments view {S T} l s.
Arguments set_view {S T} l t s.

Class LensLaws {S T} (l : lens S T) := {
  view_set t s : view l (set_view l t s) = t;
  set_view_view s : set_view l (view l s) s = s;
  set_set t t' s : set_view l t (set_view l t' s) = set_view l t s
}.

Definition zoom {S T A} (l : lens S T) (m : PyM T A) : PyM S A :=
  fun s => let '(r, t') := m (view l s) in (r, set_view l t' s).

(** ** Running computations *)

Section Run.
  Context {S : Type}.

Lemma run_ret {A} (a : A) (s : S) : (mret a : PyM S A) s = (Ok a, s).
  Proof. reflexivity. Qed.

Lemma run_bind_ok {A B} (m : PyM S A) (k : A -> PyM S B) s a s' :
    m s = (Ok a, s') -> (x ← m; k x) s = k a s'.
  Proof. intros H. cbv [mbind pym_bind]. by rewrite H. Qed.

Lemma run_bind_raised {A B} (m : PyM S A) (k : A -> PyM S B) s e s' :
    m s = (Raised e, s') -> (x ← m; k x) s = (Raised e, s').
  Proof. intros H. cbv [mbind pym_bind]. by rewrite H. Qed.

Lemma run_try_ok {A} (m : PyM S A) c h s a s' :
    m s = (Ok a, s') -> try_except m c h s = (Ok a, s').
  Proof. intros H. unfold try_except. by rewrite H. Qed.

Lemma run_try_caught {A} (m : PyM S A) c h s e s' :
    m s = (Raised e, s') -> c e = true -> try_except m c h s = h e s'.
  Proof. intros H Hc. unfold try_except. by rewrite H, Hc. Qed.

Lemma run_try_uncaught {A} (m : PyM S A) c h s e s' :
    m s = (Raised e, s') -> c e = false -> try_except m c h s = (Raised e, s').
  Proof. intros H Hc. unfold try_except. by rewrite H, Hc. Qed.

Lemma run_py_filter_pure {A} (p : A -> PyM S bool) (q : A -> bool) l s :
    (∀ x, x ∈ l -> p x s = (Ok (q x), s)) ->
    py_filter p l s = (Ok (List.filter q l), s).
  Proof.
    induction l as [|x l IH]; intros Hp; [done|]. simpl.
    rewrite (run_bind_ok _ _ _ (q x) s) by (apply Hp; left).
    rewrite (run_bind_ok _ _ _ (List.filter q l) s) by (apply IH; intros y Hy; apply Hp; by right).
    by destruct (q x).
  Qed.

(** A loop [for u in l: acc += k(g(u))] over [l = map f l'] whose step
    never raises. *)
Lemma run_py_for_append {A A' B C} (f : A' -> A) (l : list A') (g : A -> outcome B) (j : A' -> B)
    (k : B -> list C) acc s :
    (∀ x, x ∈ l -> g (f x) = Ok (j x)) ->
    py_for (S:=S) (map f l) acc (fun acc u => b ← of_outcome (g u); mret (acc ++ k b)) s
    = (Ok (acc ++ mjoin (map (fun x => k (j x)) l)), s).
  Proof.
    revert acc. induction l as [|x l IH]; intros acc Hg; cbn [py_for map mjoin]; py_unfold.
    - by rewrite app_nil_r.
    - rewrite Hg by left. py_unfold. rewrite IH, <- app_assoc; [done|]. intros y Hy. apply Hg. by right.
  Qed.

End Run.

(** ** Steps within a preorder

    [within R m]: whatever [m] returns, its final state is [R]-related to
    its initial state.  With a preorder [R] this composes through every
    combinator; it gives invariants ([R s s' := P s -> P s']) and
    monotonicity properties such as the append-only ledger. *)

Definition within {S A} (R : relation S) (m : PyM S A) : Prop := ∀ s, R s (snd (m s)).

Section Within.
Context {S : Type} (R : relation S) `{!PreOrder R}.

Lemma within_ret {A} (a : A) : within R (mret a).
Proof using Type*. intros s. simpl. reflexivity. Qed.

Lemma within_raise {A} e : within R (raise (A:=A) e).
Proof using Type*. intros s. simpl. reflexivity. Qed.

Lemma within_of_outcome {A} (o : outcome A) : within R (of_outcome o).
Proof using Type*. intros s. simpl. reflexivity. Qed.

Lemma within_bind {A B} (m : PyM S A) (k : A -> PyM S B) :
  within R m -> (∀ a, within R (k a)) -> within R (x ← m; k x).
Proof using Type*.
  intros Hm Hk s. specialize (Hm s). cbv [mbind pym_bind].
  destruct (m s) as [[a|e] s']; simpl in *; [|done]. etrans; [exact Hm | apply Hk].
Qed.

Lemma within_try {A} (m : PyM S A) c h :
  within R m -> (∀ e, within R (h e)) -> within R (try_except m c h).
Proof using Type*.
  intros Hm Hh s. specialize (Hm s). unfold try_except.
  destruct (m s) as [[a|e] s']; simpl in *; [done|].
  destruct (c e); simpl; [|done]. etrans; [exact Hm | apply Hh].
Qed.

Lemma within_for {A B} (l : list A) (acc : B) body :
  (∀ acc x, within R (body acc x)) -> within R (py_for l acc body).
Proof using Type*.
  intros Hb. revert acc. induction l as [|x l IH]; intros acc; simpl.
  - apply within_ret.
  - apply within_bind; auto.
Qed.

Lemma within_py_filter {A} (p : A -> PyM S bool) l :
  (∀ x, within R (p x)) -> within R (py_filter p l).
Proof using Type*.
  intros Hp. induction l as [|x l IH]; simpl; [apply within_ret|].
  apply within_bind; [done|]. intros b. apply within_bind; [done|]. intros r. apply within_ret.
Qed.

(** A step that raises ends the computation there. *)
Lemma within_bind_raised {A B} e (k : A -> PyM S B) : within R (x ← of_outcome (Raised e); k x).
Proof using Type*. intros s. simpl. reflexivity. Qed.

Lemma within_if {A} (b : bool) (m1 m2 : PyM S A) :
  within R m1 -> within R m2 -> within R (if b then m1 else m2).
Proof. by destruct b. Qed.
End Within.

(** Decompose a computation into its steps and discharge them with
    [step]. *)
Ltac solve_within step :=
  repeat match goal with
  | |- ∀ _, _ => intros
  | |- PreOrder _ => typeclasses eauto
  | |- within _ (mbind _ (of_outcome (Raised _))) => apply within_bind_raised
  | |- within _ (mbind _ _) => apply within_bind
  | |- within _ (try_except _ _ _) => apply within_try
  | |- within _ (py_for _ _ _) => apply within_for
  | |- within _ (py_filter _ _) => apply within_py_filter
  | |- within _ (mret _) => apply within_ret
  | |- within _ return_none => apply within_ret
  | |- within _ (raise _) => apply within_raise
  | |- within _ (of_outcome _) => apply within_of_outcome
  | |- within _ (if _ then _ else _) => progress cbn [negb andb orb]
  | |- within _ (if _ then _ else _) => apply within_if
  | |- within _ (match _ with _ => _ end) => case_match
  | |- _ => step
  end.

(** ** Frames

    [frame l m]: [m] neither reads nor writes the part of the state that
    the lens [l] views. *)

Definition frame {S T A} (l : lens S T) (m : PyM S A) : Prop :=
  ∀ t s, m (set_view l t s) = (fst (m s), set_view l t (snd (m s))).

Section Frame.
Context {S T : Type} (l : lens S T).

Lemma frame_ret {A} (a : A) : frame l (mret a).
Proof. by intros t s. Qed.

Lemma frame_raise {A} e : frame l (raise (A:=A) e).
Proof. by intros t s. Qed.

Lemma frame_of_outcome {A} (o : outcome A) : frame l (of_outcome o).
Proof. by intros t s. Qed.

Lemma frame_bind {A B} (m : PyM S A) (k : A -> PyM S B) :
  frame l m -> (∀ a, frame l (k a)) -> frame l (x ← m; k x).
Proof.
  intros Hm Hk t s. cbv [mbind pym_bind]. rewrite Hm.
  destruct (m s) as [[a|e] s']; simpl; [by rewrite Hk | done].
Qed.

Lemma frame_try {A} (m : PyM S A) c h :
  frame l m -> (∀ e, frame l (h e)) -> frame l (try_except m c h).
Proof.
  intros Hm Hh t s. unfold try_except. rewrite Hm.
  destruct (m s) as [[a|e] s']; simpl; [done|]. destruct (c e); [by rewrite Hh | done].
Qed.

Lemma frame_for {A B} (xs : list A) (acc : B) body :
  (∀ acc x, frame l (body acc x)) -> frame l (py_for xs acc body).
Proof.
  intros Hb. revert acc. induction xs as [|x xs IH]; intros acc; simpl.
  - apply frame_ret.
  - apply frame_bind; auto.
Qed.

Lemma frame_py_filter {A} (p : A -> PyM S bool) xs :
  (∀ x, frame l (p x)) -> frame l (py_filter p xs).
Proof.
  intros Hp. induction xs as [|x xs IH]; simpl; [apply frame_ret|].
  apply frame_bind; [done|]. intros b. apply frame_bind; [done|]. intros r. apply frame_ret.
Qed.

Lemma frame_if {A} (b : bool) (m1 m2 : PyM S A) :
  frame l m1 -> frame l m2 -> frame l (if b then m1 else m2).
Proof. by destruct b. Qed.
End Frame.

Ltac solve_frame step :=
  repeat first
    [ progress intros
    | apply frame_bind | apply frame_try | apply frame_for | apply frame_py_filter
    | apply frame_ret | apply frame_raise | apply frame_of_outcome
    | apply frame_if
    | step
    | case_match ].



#[export] Hint Resolve within_ret within_raise within_of_outcome frame_ret frame_raise
  frame_of_outcome : pyeval.
