(* ===== verification/Logging.v ===== *)
(** * Logging: [logging.basicConfig] and [logger] of [bot.py]

    At import [bot.py] configures the root logger (lines 8-11: level
    [INFO], one stream handler on stderr whose formatter has the format
    [%(asctime)s - %(name)s - %(levelname)s - %(message)s]) and takes
    [logger = logging.getLogger(__name__)] (line 12).  The handlers call
    [logger.error] twice: when a broadcast send fails (line 168) and
    when a forward to the operator fails (line 253).

    A record is the name of its logger, its level and its message.
    [log_emit] is [Logger.error] through [Logger.callHandlers]: a record
    whose level reaches the effective level of the logger (the root's,
    since [logger] sets none) is handed to the root's handler, which
    writes [format_record] of it.  The records written so far are part
    of the handlers' world ([Telegram.w_err]).  [percent_format] is
    the [%]-formatting of [logging.PercentStyle] on the [%(key)s]
    fields and [%%]; its fuel is the length of the format, which
    [percent_format_enough] shows is no restriction. *)

From S2P Require Import Prelude PyStr PyM.

(** ** Levels and records *)

Definition DEBUG : Z := 10.
Definition INFO : Z := 20.
Definition WARNING : Z := 30.
Definition ERROR : Z := 40.
Definition CRITICAL : Z := 50.

(** [logging.getLevelName(level)] *)
Definition level_name (lvl : Z) : pystr :=
  if (lvl =? CRITICAL)%Z then lit "CRITICAL"
  else if (lvl =? ERROR)%Z then lit "ERROR"
  else if (lvl =? WARNING)%Z then lit "WARNING"
  else if (lvl =? INFO)%Z then lit "INFO"
  else if (lvl =? DEBUG)%Z then lit "DEBUG"
  else if (lvl =? 0)%Z then lit "NOTSET"
  else lit "Level " ++ py_str_int lvl.

(** [logging.LogRecord]: the fields the format reads, except the time,
    and the exception of [exc_info] ([logger.exception]). *)
Record log_record := LogRecord { lr_name : pystr; lr_levelno : Z; lr_msg : pystr; lr_exc_info : option exn }.

(** What [logging.basicConfig] installs on the root logger: its level
    and the format of its stream handler. *)
Record log_config := LogConfig { root_level : Z; log_format : pystr }.

(** [logging.basicConfig(format='...', level=logging.INFO)] *)
Definition bot_log_config : log_config :=
  LogConfig INFO (lit "%(asctime)s - %(name)s - %(levelname)s - %(message)s").

(** [logging.getLogger(__name__)], [bot.py] run as a script. *)
Definition logger_name : pystr := lit "__main__".

(** ** The formatter *)

(** The key of a [%(key)s] field, after its ["%("]: up to [")s"]. *)
Fixpoint fmt_key (s : pystr) : option (pystr * pystr) :=
  match s with
  | [] => None
  | c :: rest =>
    if (c =? 41)%Z then
      match rest with d :: rest' => if (d =? 115)%Z then Some ([], rest') else None | [] => None end
    else '(k, r) ← fmt_key rest; Some (c :: k, r)
  end.

(** [fmt % values] for a format of [%(key)s] fields and [%%]; [None]
    where Python raises ([KeyError] for an unknown key, [ValueError] for
    another conversion or a lone [%] at the end). *)
Fixpoint percent_format (fuel : nat) (field : pystr -> option pystr) (s : pystr) : option pystr :=
  match fuel with
  | 0 => None
  | S f =>
    match s with
    | [] => Some []
    | c :: rest =>
      if (c =? 37)%Z then
        match rest with
        | d :: rest' =>
          if (d =? 37)%Z then r ← percent_format f field rest'; Some (37%Z :: r)
          else if (d =? 40)%Z then
            '(k, rest'') ← fmt_key rest'; v ← field k; r ← percent_format f field rest''; Some (v ++ r)
          else None
        | [] => None
        end
      else r ← percent_format f field rest; Some (c :: r)
    end
  end.

(** The attributes of a record the format may name. *)
Definition record_field (asctime : pystr) (r : log_record) (k : pystr) : option pystr :=
  if bool_decide (k = lit "asctime") then Some asctime
  else if bool_decide (k = lit "name") then Some (lr_name r)
  else if bool_decide (k = lit "levelname") then Some (level_name (lr_levelno r))
  else if bool_decide (k = lit "levelno") then Some (py_str_int (lr_levelno r))
  else if bool_decide (k = lit "message") then Some (lr_msg r)
  else None.

(** [Formatter.format(record)], the time already formatted: its first
    line, which a record with [exc_info] follows with the traceback. *)
Definition format_record (cfg : log_config) (asctime : pystr) (r : log_record) : option pystr :=
  percent_format (S (length (log_format cfg))) (record_field asctime r) (log_format cfg).

(** [logger.log(level, msg)] through the root's handler: the records
    written so far, with this one if its level is enabled. *)
Definition log_emit (cfg : log_config) (r : log_record) (out : list log_record) : list log_record :=
  if (root_level cfg <=? lr_levelno r)%Z then out ++ [r] else out.

(** ** Properties *)

Lemma fmt_key_shorter s k r : fmt_key s = Some (k, r) -> length r < length s.
Proof.
  revert k r. induction s as [|c s IH]; intros k r H; cbn in H; [done|].
  destruct (c =? 41)%Z.
  - destruct s as [|d s]; [done|]. destruct (d =? 115)%Z; [|done]. injection H as <- <-. cbn. lia.
  - destruct (fmt_key s) as [[k' r']|] eqn:Hk; [|done]. cbn in H. injection H as <- <-.
    specialize (IH k' r' eq_refl). cbn. lia.
Qed.

(** Enough fuel: any fuel above the length of the format gives the same
    result, so [format_record] formats as Python does. *)
Lemma percent_format_enough f g field s :
  length s < f -> length s < g -> percent_format f field s = percent_format g field s.
Proof.
  revert g s. induction f as [|f IH]; intros [|g] s Hf Hg; try lia. cbn [percent_format].
  destruct s as [|c s]; [done|]. cbn [length] in *.
  destruct (c =? 37)%Z; [|by rewrite (IH g s) by lia].
  destruct s as [|d s]; [done|]. cbn [length] in *.
  destruct (d =? 37)%Z; [by rewrite (IH g s) by lia|]. destruct (d =? 40)%Z; [|done].
  destruct (fmt_key s) as [[k r]|] eqn:Hk; [|done]. apply fmt_key_shorter in Hk. cbn.
  destruct (field k); [|done]. cbn. by rewrite (IH g r) by lia.
Qed.

(** The lines [bot.py]'s handler writes. *)
Lemma bot_log_format asctime r :
  format_record bot_log_config asctime r
  = Some (asctime ++ lit " - " ++ lr_name r ++ lit " - " ++ level_name (lr_levelno r) ++ lit " - " ++ lr_msg r).
Proof. unfold format_record. cbv -[app lr_name lr_levelno lr_msg level_name]. by rewrite app_nil_r. Qed.

Lemma log_emit_error r out :
  (root_level bot_log_config <= lr_levelno r)%Z -> log_emit bot_log_config r out = out ++ [r].
Proof. intros H. unfold log_emit. by rewrite (proj2 (Z.leb_le _ _) H). Qed.
