(* ===== verification/PyObj.v ===== *)
(** * The Python objects of [self.data]

    [UserDatabase.data] is what [json.load] returns, and the code only ever
    puts JSON-shaped values into it.  Such a value is None, a bool, an int,
    a str, a list or a dict with str keys.  Python dicts keep insertion
    order, and [get_all_users] and [users[-5:]] depend on that order, so a
    dict is an association list: assignment to a present key updates the
    value in place, and assignment to a new key appends it.  The object
    operations the code uses are total functions into [outcome], with the
    exception Python raises for each ill-typed case. *)

From S2P Require Import Prelude PyStr PyM.
From Stdlib Require String.

#[local] Set Warnings "-register-all".
Inductive pyobj :=
| PNone
| PBool (b : bool)
| PInt (z : Z)
| PStr (s : pystr)
| PList (l : list pyobj)
| PDict (d : list (pystr * pyobj)).

(** ** Dicts as ordered association lists *)

Section Dict.
  Context {A : Type}.

Fixpoint dict_lookup (k : pystr) (d : list (pystr * A)) : option A :=
    match d with
    | [] => None
    | (k', v) :: r => if decide (k = k') then Some v else dict_lookup k r
    end.

  (** [d[k] = v]: in place if [k] is present, appended otherwise. *)
Fixpoint dict_set (k : pystr) (v : A) (d : list (pystr * A)) : list (pystr * A) :=
    match d with
    | [] => [(k, v)]
    | (k', v') :: r => if decide (k = k') then (k', v) :: r else (k', v') :: dict_set k v r
    end.

Lemma dict_lookup_set_eq k v d : dict_lookup k (dict_set k v d) = Some v.
  Proof.
    induction d as [|[k' v'] d IH]; simpl; [by rewrite decide_True|].
    case_decide; simpl; [by rewrite decide_True|]. by rewrite decide_False.
  Qed.

Lemma dict_set_set k v1 v2 d : dict_set k v2 (dict_set k v1 d) = dict_set k v2 d.
  Proof.
    induction d as [|[k' v'] d IH]; simpl; [by rewrite decide_True|].
    case_decide; simpl; [by rewrite decide_True|]. by rewrite decide_False, IH.
  Qed.

Lemma dict_lookup_set_ne k k' v d :
    k ≠ k' -> dict_lookup k' (dict_set k v d) = dict_lookup k' d.
  Proof.
    intros Hne. induction d as [|[k0 v0] d IH]; simpl.
    - by rewrite decide_False.
    - repeat (case_decide; simplify_eq/=); auto; congruence.
  Qed.

Lemma dict_keys_set_present k v d :
    is_Some (dict_lookup k d) -> map fst (dict_set k v d) = map fst d.
  Proof.
    induction d as [|[k' v'] d IH]; simpl; [by intros []|].
    case_decide; simpl; [done|]. intros Hk. by rewrite IH.
  Qed.

Lemma dict_keys_set_absent k v d :
    dict_lookup k d = None -> map fst (dict_set k v d) = map fst d ++ [k].
  Proof.
    induction d as [|[k' v'] d IH]; simpl; [done|].
    case_decide; simpl; [done|]. intros Hk. by rewrite IH.
  Qed.

Lemma dict_set_absent k v d : dict_lookup k d = None -> dict_set k v d = d ++ [(k, v)].
  Proof.
    induction d as [|[k' v'] d IH]; simpl; [done|].
    case_decide; simpl; [done|]. intros Hk. by rewrite IH.
  Qed.

Lemma dict_lookup_Some_in k v d : dict_lookup k d = Some v -> (k, v) ∈ d.
  Proof.
    induction d as [|[k' v'] d IH]; simpl; [done|].
    case_decide; intros Hk; simplify_eq; [left | right]; auto.
  Qed.

Lemma dict_lookup_None_keys k d : dict_lookup k d = None <-> k ∉ map fst d.
  Proof.
    induction d as [|[k' v'] d IH]; simpl; [set_solver|].
    case_decide; subst; [set_solver|]. rewrite IH. set_solver.
  Qed.

Lemma dict_set_NoDup k v d : NoDup (map fst d) -> NoDup (map fst (dict_set k v d)).
  Proof.
    intros Hd. destruct (dict_lookup k d) eqn:E.
    - by rewrite dict_keys_set_present by eauto.
    - rewrite dict_keys_set_absent by done. apply NoDup_app. split_and!; [done| |].
      + intros x Hx ->%list_elem_of_singleton. by apply dict_lookup_None_keys in E.
      + apply NoDup_singleton.
  Qed.

  (** The values of a dict after [d[k] = v]: in place, or appended. *)
Lemma dict_set_values_present k v d :
    NoDup (map fst d) -> dict_lookup k d = Some v ->
    dict_set k v d = d.
  Proof.
    induction d as [|[k' v'] d IH]; simpl; [done|].
    intros [Hk Hd]%NoDup_cons. case_decide; intros Hl; simplify_eq; [done|].
    by rewrite IH.
  Qed.
End Dict.

(** ** The operations on objects the code uses *)

Definition type_name (o : pyobj) : pystr :=
  match o with
  | PNone => lit "NoneType" | PBool _ => lit "bool" | PInt _ => lit "int"
  | PStr _ => lit "str" | PList _ => lit "list" | PDict _ => lit "dict"
  end.

(** [repr(k)] for the keys the code uses (literals and [str(user_id)]). *)
Definition key_repr (k : pystr) : pystr := lit "'" ++ k ++ lit "'".

Definition no_attribute (o : pyobj) (name : String.string) : exn :=
  AttributeError (lit "'" ++ type_name o ++ lit "' object has no attribute '" ++ lit name
                  ++ lit "'").
Arguments no_attribute o name%_string_scope.

(** [o[k]] for a str key [k]. *)
Definition getitem (o : pyobj) (k : pystr) : outcome pyobj :=
  match o with
  | PDict d => match dict_lookup k d with Some v => Ok v | None => Raised (KeyError (key_repr k)) end
  | PList _ => Raised (TypeError (lit "list indices must be integers or slices, not str"))
  | PStr _ => Raised (TypeError (lit "string indices must be integers, not 'str'"))
  | _ => Raised (TypeError (lit "'" ++ type_name o ++ lit "' object is not subscriptable"))
  end.

(** [o[k] = v] for a str key [k]: the updated object. *)
Definition setitem (o : pyobj) (k : pystr) (v : pyobj) : outcome pyobj :=
  match o with
  | PDict d => Ok (PDict (dict_set k v d))
  | PList _ => Raised (TypeError (lit "list indices must be integers or slices, not str"))
  | _ => Raised (TypeError (lit "'" ++ type_name o ++ lit "' object does not support item assignment"))
  end.

(** [o.get(k, default)] *)
Definition dict_get (o : pyobj) (k : pystr) (default : pyobj) : outcome pyobj :=
  match o with
  | PDict d => Ok (match dict_lookup k d with Some v => v | None => default end)
  | _ => Raised (no_attribute o "get")
  end.

(** [k in o] for a str [k] *)
Definition contains (o : pyobj) (k : pystr) : outcome bool :=
  match o with
  | PDict d => Ok (bool_decide (is_Some (dict_lookup k d)))
  | PList l => Ok (existsb (fun x => match x with PStr s => bool_decide (s = k) | _ => false end) l)
  | PStr s => Ok (existsb (fun i => startswith k (drop i s)) (seq 0 (S (length s))))
  | _ => Raised (TypeError (lit "argument of type '" ++ type_name o ++ lit "' is not iterable"))
  end.

(** [o.append(v)]: the updated list. *)
Definition append (o : pyobj) (v : pyobj) : outcome pyobj :=
  match o with
  | PList l => Ok (PList (l ++ [v]))
  | _ => Raised (no_attribute o "append")
  end.

(** [o.values()] *)
Definition values (o : pyobj) : outcome (list pyobj) :=
  match o with
  | PDict d => Ok (map snd d)
  | _ => Raised (no_attribute o "values")
  end.

(** [len(o)] *)
Definition py_len (o : pyobj) : outcome nat :=
  match o with
  | PStr s => Ok (length s)
  | PList l => Ok (length l)
  | PDict d => Ok (length d)
  | _ => Raised (TypeError (lit "object of type '" ++ type_name o ++ lit "' has no len()"))
  end.

(** [bool(o)] *)
Definition truthy (o : pyobj) : bool :=
  match o with
  | PNone => false
  | PBool b => b
  | PInt z => negb (z =? 0)%Z
  | PStr s => negb (bool_decide (s = []))
  | PList l => negb (bool_decide (l = []))
  | PDict d => negb (bool_decide (d = []))
  end.

(** [o[:n]] *)
Definition slice_prefix (o : pyobj) (n : nat) : outcome pyobj :=
  match o with
  | PStr s => Ok (PStr (take n s))
  | PList l => Ok (PList (take n l))
  | PDict _ => Raised (TypeError (lit "unhashable type: 'slice'"))
  | _ => Raised (TypeError (lit "'" ++ type_name o ++ lit "' object is not subscriptable"))
  end.

(** [repr(o)] *)
Fixpoint py_repr (o : pyobj) : pystr :=
  match o with
  | PNone => lit "None"
  | PBool true => lit "True"
  | PBool false => lit "False"
  | PInt z => py_str_int z
  | PStr s => str_repr s
  | PList l => lit "[" ++ py_join (lit ", ") (map py_repr l) ++ lit "]"
  | PDict d => lit "{" ++ py_join (lit ", ") (map (fun kv => str_repr kv.1 ++ lit ": " ++ py_repr kv.2) d)
               ++ lit "}"
  end.

(** [f"{o}"], that is [format(o, "")]: the str itself, otherwise its repr
    (for the types held here [str] and [repr] agree). *)
Definition py_format (o : pyobj) : pystr :=
  match o with PStr s => s | _ => py_repr o end.

(** [int(s)], raising [ValueError] as Python does. *)
Definition int_of_str (s : pystr) : outcome Z :=
  match py_int s with
  | Some z => Ok z
  | None => Raised (ValueError (lit "invalid literal for int() with base 10: " ++ str_repr s))
  end.

(** [l[i]] on a Python list of str. *)
Definition list_index {A} (l : list A) (i : nat) : outcome A :=
  match l !! i with Some x => Ok x | None => Raised (IndexError (lit "list index out of range")) end.

Lemma int_of_str_ok s z : py_int s = Some z -> int_of_str s = Ok z.
Proof. intros H. unfold int_of_str. by rewrite H. Qed.

Lemma int_of_str_py_str_int z : int_of_str (py_str_int z) = Ok z.
Proof. apply int_of_str_ok, py_int_str_roundtrip. Qed.
