(* ===== verification/Json.v ===== *)
(** * The JSON text of the registry file

    [_save_data] writes [json.dump(self.data, f, ensure_ascii=False,
    indent=2)] to a file opened with [encoding='utf-8'], and [_load_data]
    reads it back with [json.load].  This file models the text and the
    bytes:

    - [json_dump_at]: CPython's [_make_iterencode] with [indent=2] and the
      separators [","] and [": "] that [indent] selects.  Strings are
      escaped as [encode_basestring] does with [ensure_ascii=False]: the
      quote, the backslash and the characters below U+0020 only.
    - [pvalue], [pmembers], [pelems], [pstring], [pnumber]: CPython's
      scanner ([_json.c]: [scan_once_unicode], [_parse_object_unicode],
      [_parse_array_unicode], [scanstring_unicode], [_match_number_unicode])
      with its whitespace, its escapes ([\uXXXX] with surrogate pairs),
      its strict rejection of control characters in strings and its
      treatment of duplicate keys (the last value, at the first key's
      place).  [json_loads] adds [JSONDecoder.decode]'s check that only
      whitespace follows the value.
    - [utf8_encode] and [utf8_decode_strict]: the codec of the file,
      [utf8_decode_strict] rejecting what Python's decoder rejects
      (truncated, overlong and surrogate sequences, continuation bytes
      out of place, code points beyond U+10FFFF).

    The recursive-descent parser takes fuel; [json_loads] gives it twice
    the length of the text.  Every call consumes a character before it
    recurses, except [pelems], which hands the same text to [pvalue]: so
    twice the length is enough for every text that parses with any fuel
    ([json_loads_complete]), and the fuel is no restriction of the
    model.

    The theorems: [json_loads_dump], the round trip, proved through
    [json_wf_reads_back] (the text of a value followed by any text that
    cannot continue a number parses back to the value and that text);
    [json_loads_prefix], that no proper prefix of a dict's text loads,
    through [parse_ext] (text appended after a closed value is never
    read) and determinism; for the bytes, [utf8_roundtrip] and
    [utf8_prefix] (a cut byte string decodes to a prefix of the text or
    not at all); and [dump_text_dump], that [json.dump] writes valid code
    points and no carriage return.

    Approximations.  A number with a fraction or an exponent, [NaN] and
    [Infinity] are floats in Python; [pyobj] has no floats, and the
    parser rejects them.  Neither [_save_data] nor the bot writes a
    float, so this matters only for a file edited by hand.  Integers of
    more than 4300 digits, which CPython refuses to convert, are not
    modelled either. *)

From S2P Require Import Prelude PyStr PyM PyObj.

(** ** Printing *)

(** ["\n" + "  " * level] *)
Definition newline_indent (level : nat) : pystr := 10%Z :: replicate (2 * level) 32%Z.

(** One character of a str, as [encode_basestring] writes it. *)
Definition json_escape_char (c : Z) : pystr :=
  if (c =? 34)%Z then [92; 34]%Z
  else if (c =? 92)%Z then [92; 92]%Z
  else if (c =? 8)%Z then [92; 98]%Z
  else if (c =? 12)%Z then [92; 102]%Z
  else if (c =? 10)%Z then [92; 110]%Z
  else if (c =? 13)%Z then [92; 114]%Z
  else if (c =? 9)%Z then [92; 116]%Z
  else if (c <? 32)%Z then [92; 117; 48; 48; hex_digit (c / 16); hex_digit (c mod 16)]%Z
  else [c].

(** [encode_basestring(s)] *)
Definition json_str (s : pystr) : pystr := 34%Z :: mjoin (map json_escape_char s) ++ [34%Z].

(** The text of [o] at nesting [level]. *)
Fixpoint json_dump_at (level : nat) (o : pyobj) : pystr :=
  match o with
  | PNone => lit "null"
  | PBool true => lit "true"
  | PBool false => lit "false"
  | PInt z => py_str_int z
  | PStr s => json_str s
  | PList [] => lit "[]"
  | PList l =>
    lit "[" ++ newline_indent (S level)
    ++ py_join (lit "," ++ newline_indent (S level)) (map (json_dump_at (S level)) l)
    ++ newline_indent level ++ lit "]"
  | PDict [] => lit "{}"
  | PDict d =>
    lit "{" ++ newline_indent (S level)
    ++ py_join (lit "," ++ newline_indent (S level))
         (map (fun kv => json_str kv.1 ++ lit ": " ++ json_dump_at (S level) kv.2) d)
    ++ newline_indent level ++ lit "}"
  end.

(** [json.dump(o, f, ensure_ascii=False, indent=2)] *)
Definition json_dump (o : pyobj) : pystr := json_dump_at 0 o.

(** ** Parsing *)

(** [' '], ['\t'], ['\n'], ['\r'] *)
Definition is_ws (c : Z) : bool := ((c =? 32) || (c =? 9) || (c =? 10) || (c =? 13))%Z.

Fixpoint skip_ws (s : pystr) : pystr :=
  match s with
  | c :: r => if is_ws c then skip_ws r else s
  | [] => []
  end.

Definition is_digit (c : Z) : bool := ((48 <=? c) && (c <=? 57))%Z.

(** One hexadecimal digit, of either case. *)
Definition hex_val (c : Z) : option Z :=
  if is_digit c then Some (c - 48)%Z
  else if ((97 <=? c) && (c <=? 102))%Z then Some (c - 87)%Z
  else if ((65 <=? c) && (c <=? 70))%Z then Some (c - 55)%Z
  else None.

Definition hex4 (a b c d : Z) : option Z :=
  a' ← hex_val a; b' ← hex_val b; c' ← hex_val c; d' ← hex_val d;
  Some (((a' * 16 + b') * 16 + c') * 16 + d')%Z.

Definition is_high_surrogate (u : Z) : bool := ((55296 <=? u) && (u <=? 56319))%Z.
Definition is_low_surrogate (u : Z) : bool := ((56320 <=? u) && (u <=? 57343))%Z.

Definition cons_fst {A B} (c : A) (o : option (list A * B)) : option (list A * B) :=
  '(t, r) ← o; Some (c :: t, r).

(** The body of a string after its opening quote: its characters and the
    text after the closing quote. *)
Fixpoint pstring (s : pystr) : option (pystr * pystr) :=
  match s with
  | [] => None
  | c :: r =>
    if (c =? 34)%Z then Some ([], r)
    else if (c =? 92)%Z then
      match r with
      | e :: r1 =>
        if (e =? 117)%Z then
          match r1 with
          | a :: b :: c1 :: d :: r2 =>
            u ← hex4 a b c1 d;
            if is_high_surrogate u then
              match r2 with
              | x :: y :: e1 :: f :: g :: h :: r3 =>
                if ((x =? 92) && (y =? 117))%Z then
                  u2 ← hex4 e1 f g h;
                  if is_low_surrogate u2
                  then cons_fst (65536 + (u - 55296) * 1024 + (u2 - 56320))%Z (pstring r3)
                  else cons_fst u (pstring r2)
                else cons_fst u (pstring r2)
              | _ => cons_fst u (pstring r2)
              end
            else cons_fst u (pstring r2)
          | _ => None
          end
        else if (e =? 34)%Z then cons_fst 34%Z (pstring r1)
        else if (e =? 92)%Z then cons_fst 92%Z (pstring r1)
        else if (e =? 47)%Z then cons_fst 47%Z (pstring r1)
        else if (e =? 98)%Z then cons_fst 8%Z (pstring r1)
        else if (e =? 102)%Z then cons_fst 12%Z (pstring r1)
        else if (e =? 110)%Z then cons_fst 10%Z (pstring r1)
        else if (e =? 114)%Z then cons_fst 13%Z (pstring r1)
        else if (e =? 116)%Z then cons_fst 9%Z (pstring r1)
        else None
      | [] => None
      end
    else if (c <? 32)%Z then None
    else cons_fst c (pstring r)
  end.

(** The digits at the head of [s], and the rest. *)
Fixpoint span_digits (s : pystr) : pystr * pystr :=
  match s with
  | c :: r => if is_digit c then let '(ds, r') := span_digits r in (c :: ds, r') else ([], s)
  | [] => ([], [])
  end.

(** [int(ds)] of a run of ASCII digits. *)
Definition digits_value (ds : pystr) : Z := match digits_uint ds with Some d => Z.of_uint d | None => 0%Z end.

(** Whether a fraction or an exponent follows the integer part. *)
Definition float_follows (r : pystr) : bool :=
  match r with
  | c :: d :: r' =>
    if (c =? 46)%Z then is_digit d
    else if ((c =? 101) || (c =? 69))%Z then
      if ((d =? 43) || (d =? 45))%Z then match r' with e :: _ => is_digit e | [] => false end
      else is_digit d
    else false
  | _ => false
  end.

(** [-?(0|[1-9][0-9]* )], an int when no fraction or exponent follows. *)
Definition pnumber (s : pystr) : option (Z * pystr) :=
  let '(sign, s1) := match s with c :: r => if (c =? 45)%Z then ((-1)%Z, r) else (1%Z, s) | [] => (1%Z, s) end in
  '(z, r) ← match s1 with
            | c :: r => if (c =? 48)%Z then Some (0%Z, r)
                        else if is_digit c then let '(ds, r') := span_digits r in Some (digits_value (c :: ds), r')
                        else None
            | [] => None
            end;
  if float_follows r then None else Some ((sign * z)%Z, r).

(** The constants [null], [true], [false] and, failing them, a number. *)
Definition pscalar (s : pystr) : option (pyobj * pystr) :=
  if startswith (lit "null") s then Some (PNone, drop 4 s)
  else if startswith (lit "true") s then Some (PBool true, drop 4 s)
  else if startswith (lit "false") s then Some (PBool false, drop 5 s)
  else '(z, r') ← pnumber s; Some (PInt z, r').

Fixpoint pvalue (f : nat) (s : pystr) : option (pyobj * pystr) :=
  match f with
  | O => None
  | S f =>
    match s with
    | c :: r =>
      if (c =? 34)%Z then '(t, r') ← pstring r; Some (PStr t, r')
      else if (c =? 123)%Z then
        match skip_ws r with
        | c' :: r' => if (c' =? 125)%Z then Some (PDict [], r')
                      else '(d, r'') ← pmembers f [] (c' :: r'); Some (PDict d, r'')
        | [] => None
        end
      else if (c =? 91)%Z then
        match skip_ws r with
        | c' :: r' => if (c' =? 93)%Z then Some (PList [], r')
                      else '(l, r'') ← pelems f [] (c' :: r'); Some (PList l, r'')
        | [] => None
        end
      else pscalar s
    | [] => None
    end
  end
with pmembers (f : nat) (acc : list (pystr * pyobj)) (s : pystr) : option (list (pystr * pyobj) * pystr) :=
  match f with
  | O => None
  | S f =>
    match s with
    | c :: r =>
      if (c =? 34)%Z then
        '(k, r1) ← pstring r;
        match skip_ws r1 with
        | c2 :: r2 =>
          if (c2 =? 58)%Z then
            '(v, r3) ← pvalue f (skip_ws r2);
            match skip_ws r3 with
            | c4 :: r4 =>
              if (c4 =? 125)%Z then Some (dict_set k v acc, r4)
              else if (c4 =? 44)%Z then pmembers f (dict_set k v acc) (skip_ws r4)
              else None
            | [] => None
            end
          else None
        | [] => None
        end
      else None
    | [] => None
    end
  end
with pelems (f : nat) (acc : list pyobj) (s : pystr) : option (list pyobj * pystr) :=
  match f with
  | O => None
  | S f =>
    '(v, r) ← pvalue f s;
    match skip_ws r with
    | c :: r' =>
      if (c =? 93)%Z then Some (acc ++ [v], r')
      else if (c =? 44)%Z then pelems f (acc ++ [v]) (skip_ws r')
      else None
    | [] => None
    end
  end.

(** [json.loads(s)]: [None] is a [JSONDecodeError]. *)
Definition json_loads (s : pystr) : option pyobj :=
  '(v, r) ← pvalue (2 * length s) (skip_ws s);
  match skip_ws r with [] => Some v | _ => None end.

(** ** The file's bytes *)

(** [c.encode('utf-8')] for a code point [0 <= c <= 0x10FFFF].  (Python
    refuses a lone surrogate; the registry's strings hold none.) *)
Definition utf8_encode_char (c : Z) : list Z :=
  if (c <? 128)%Z then [c]
  else if (c <? 2048)%Z then [192 + c / 64; 128 + c mod 64]%Z
  else if (c <? 65536)%Z then [224 + c / 4096; 128 + (c / 64) mod 64; 128 + c mod 64]%Z
  else [240 + c / 262144; 128 + (c / 4096) mod 64; 128 + (c / 64) mod 64; 128 + c mod 64]%Z.

Definition utf8_encode (s : pystr) : list Z := mjoin (map utf8_encode_char s).

Definition in_range (lo hi b : Z) : bool := ((lo <=? b) && (b <=? hi))%Z.

(** [bytes.decode('utf-8')]: [None] is the [UnicodeDecodeError].  The
    well-formed sequences of the Unicode standard (table 3-7). *)
Fixpoint utf8_decode_strict (bs : list Z) : option pystr :=
  match bs with
  | [] => Some []
  | b0 :: r =>
    if in_range 0 127 b0 then t ← utf8_decode_strict r; Some (b0 :: t)
    else if in_range 194 223 b0 then
      match r with
      | b1 :: r1 =>
        if in_range 128 191 b1
        then t ← utf8_decode_strict r1; Some (((b0 - 192) * 64 + (b1 - 128))%Z :: t)
        else None
      | [] => None
      end
    else if in_range 224 239 b0 then
      match r with
      | b1 :: b2 :: r2 =>
        let lo := if (b0 =? 224)%Z then 160%Z else 128%Z in
        let hi := if (b0 =? 237)%Z then 159%Z else 191%Z in
        if in_range lo hi b1 && in_range 128 191 b2
        then t ← utf8_decode_strict r2;
             Some (((b0 - 224) * 4096 + (b1 - 128) * 64 + (b2 - 128))%Z :: t)
        else None
      | _ => None
      end
    else if in_range 240 244 b0 then
      match r with
      | b1 :: b2 :: b3 :: r3 =>
        let lo := if (b0 =? 240)%Z then 144%Z else 128%Z in
        let hi := if (b0 =? 244)%Z then 143%Z else 191%Z in
        if in_range lo hi b1 && in_range 128 191 b2 && in_range 128 191 b3
        then t ← utf8_decode_strict r3;
             Some (((b0 - 240) * 262144 + (b1 - 128) * 4096 + (b2 - 128) * 64 + (b3 - 128))%Z :: t)
        else None
      | _ => None
      end
    else None
  end.

(** Reading in text mode turns ["\r\n"] and ["\r"] into ["\n"]. *)
Fixpoint universal_newlines (s : pystr) : pystr :=
  match s with
  | 13%Z :: 10%Z :: r => 10%Z :: universal_newlines r
  | 13%Z :: r => 10%Z :: universal_newlines r
  | c :: r => c :: universal_newlines r
  | [] => []
  end.

(** ** Induction on JSON values *)

Section NestedInd.
Context (P : pyobj -> Prop) (Hnone : P PNone) (Hbool : ∀ b, P (PBool b)) (Hint : ∀ z, P (PInt z))
  (Hstr : ∀ s, P (PStr s)) (Hlist : ∀ l, Forall P l -> P (PList l))
  (Hdict : ∀ d, Forall (fun kv => P kv.2) d -> P (PDict d)).

(** Induction with a hypothesis for every element of a list or dict. *)
Fixpoint pyobj_nested_ind (o : pyobj) : P o :=
  match o with
  | PNone => Hnone
  | PBool b => Hbool b
  | PInt z => Hint z
  | PStr s => Hstr s
  | PList l =>
    Hlist l ((fix go (l : list pyobj) : Forall P l :=
                match l with
                | [] => Forall_nil_2 _
                | x :: r => Forall_cons_2 _ _ _ (pyobj_nested_ind x) (go r)
                end) l)
  | PDict d =>
    Hdict d ((fix go (d : list (pystr * pyobj)) : Forall (fun kv => P kv.2) d :=
                match d with
                | [] => Forall_nil_2 _
                | (k, v) :: r => Forall_cons_2 (fun kv => P kv.2) (k, v) r (pyobj_nested_ind v) (go r)
                end) d)
  end.

End NestedInd.

(** ** Strings *)

Lemma hex_val_hex_digit n : (0 <= n < 16)%Z -> hex_val (hex_digit n) = Some n.
Proof.
  intros Hn. assert (n = 0 ∨ n = 1 ∨ n = 2 ∨ n = 3 ∨ n = 4 ∨ n = 5 ∨ n = 6 ∨ n = 7 ∨ n = 8
    ∨ n = 9 ∨ n = 10 ∨ n = 11 ∨ n = 12 ∨ n = 13 ∨ n = 14 ∨ n = 15)%Z as Hc by lia.
  repeat destruct Hc as [->|Hc]; [..|subst]; reflexivity.
Qed.

(** The escape of a character reads back as the character. *)
Lemma pstring_escape_char c rest :
  (0 <= c)%Z -> pstring (json_escape_char c ++ rest) = cons_fst c (pstring rest).
Proof.
  intros Hc. unfold json_escape_char.
  repeat match goal with |- context [if (c =? ?k)%Z then _ else _] =>
    destruct (Z.eqb_spec c k) as [->|]; [reflexivity|] end.
  destruct (Z.ltb_spec c 32); cbn [app pstring];
    [|rewrite !(proj2 (Z.eqb_neq _ _)), (proj2 (Z.ltb_ge _ _)) by lia; reflexivity].
  assert (0 <= c / 16 < 16)%Z by (split; [apply Z.div_pos | apply Z.div_lt_upper_bound]; lia).
  assert (0 <= c mod 16 < 16)%Z by (apply Z.mod_pos_bound; lia).
  cbn. rewrite !hex_val_hex_digit by done.
  cbn [mbind option_bind]. unfold is_high_surrogate.
  assert (Hu : ((((48 - 48) * 16 + (48 - 48)) * 16 + c / 16) * 16 + c mod 16 = c)%Z)
    by (pose proof (Z.div_mod c 16); lia).
  rewrite Hu.
  rewrite (proj2 (Z.leb_gt _ _)) by lia. reflexivity.
Qed.

Lemma pstring_json_str s rest :
  Forall (fun c => 0 <= c)%Z s -> pstring (tail (json_str s) ++ rest) = Some (s, rest).
Proof.
  intros Hs. unfold json_str. cbn [tail]. rewrite <- app_assoc.
  induction Hs as [|c s Hc Hs IH]; [reflexivity|].
  cbn [map]. change (mjoin (json_escape_char c :: map json_escape_char s))
    with (json_escape_char c ++ mjoin (map json_escape_char s)).
  rewrite <- app_assoc, pstring_escape_char, IH by done. reflexivity.
Qed.

(** ** Integers *)

(** What may follow the digits of an int without extending it. *)
Definition num_end (r : pystr) : bool :=
  match r with
  | [] => true
  | c :: _ => negb (is_digit c) && negb (c =? 46)%Z && negb (c =? 101)%Z && negb (c =? 69)%Z
  end.

Lemma nzhead_not_D0 d x : Decimal.nzhead d ≠ Decimal.D0 x.
Proof. induction d; simpl; congruence. Qed.

(** [Pos.to_uint] has no leading zero. *)
Lemma to_uint_lead p : ∃ c ds, uint_digits (Pos.to_uint p) = c :: ds ∧ (49 <= c <= 57)%Z.
Proof.
  assert (H : Pos.to_uint p = Decimal.unorm (Pos.to_uint p)).
  { rewrite <- DecimalPos.Unsigned.to_of, DecimalPos.Unsigned.of_to. reflexivity. }
  pose proof (DecimalPos.Unsigned.to_uint_nonnil p). pose proof (DecimalPos.Unsigned.to_uint_nonzero p).
  destruct (Pos.to_uint p) as [|d|d|d|d|d|d|d|d|d|d]; try congruence; try (do 2 eexists; split; [reflexivity|lia]).
  unfold Decimal.unorm in H. cbn [Decimal.nzhead] in H.
  destruct (Decimal.nzhead d) eqn:E; try (rewrite <- H in E; by apply nzhead_not_D0 in E).
  exfalso. congruence.
Qed.

Lemma is_digit_uint_digits c d : c ∈ uint_digits d -> is_digit c = true.
Proof. intros Hc%uint_digits_digit. unfold is_digit. apply andb_true_iff. lia. Qed.

Lemma span_digits_app ds rest :
  (∀ c, c ∈ ds -> is_digit c = true) -> num_end rest = true -> span_digits (ds ++ rest) = (ds, rest).
Proof.
  intros Hds Hr. induction ds as [|c ds IH]; simpl.
  - destruct rest as [|c rest]; [done|]. simpl in *. destruct (is_digit c); [done|]. reflexivity.
  - rewrite Hds by left. rewrite IH; [done|]. intros d Hd. apply Hds. by right.
Qed.

Lemma float_follows_num_end r : num_end r = true -> float_follows r = false.
Proof.
  destruct r as [|c [|d r]]; [done|done|]. simpl.
  intros [[[_ H1]%andb_prop H2]%andb_prop H3]%andb_prop.
  rewrite negb_true_iff in H1, H2, H3. by rewrite H1, H2, H3.
Qed.

Lemma digits_value_to_uint p : digits_value (uint_digits (Pos.to_uint p)) = Zpos p.
Proof.
  unfold digits_value. rewrite digits_uint_uint_digits.
  unfold Z.of_uint. by rewrite DecimalPos.Unsigned.of_to.
Qed.

(** [str(z)] reads back as [z]. *)
Lemma pnumber_py_str_int z rest :
  num_end rest = true -> pnumber (py_str_int z ++ rest) = Some (z, rest).
Proof.
  intros Hr. pose proof (float_follows_num_end _ Hr) as Hf. unfold py_str_int, pnumber.
  destruct z as [|p|p]; cbn [Z.to_int].
  - cbn. by rewrite Hf.
  - destruct (to_uint_lead p) as (c & ds & Hd & Hc). rewrite Hd. cbn [app].
    rewrite (proj2 (Z.eqb_neq c 45)), (proj2 (Z.eqb_neq c 48)) by lia.
    assert (is_digit c = true) as -> by (unfold is_digit; apply andb_true_iff; lia).
    rewrite span_digits_app by (done || (intros d Hdd; apply (is_digit_uint_digits _ (Pos.to_uint p)); rewrite Hd; by right)).
    cbn [mbind option_bind]. rewrite Hf, <- Hd, digits_value_to_uint. done.
  - destruct (to_uint_lead p) as (c & ds & Hd & Hc). rewrite Hd. cbn [app].
    rewrite Z.eqb_refl, (proj2 (Z.eqb_neq c 48)) by lia.
    assert (is_digit c = true) as -> by (unfold is_digit; apply andb_true_iff; lia).
    rewrite span_digits_app by (done || (intros d Hdd; apply (is_digit_uint_digits _ (Pos.to_uint p)); rewrite Hd; by right)).
    cbn [mbind option_bind]. rewrite Hf, <- Hd, digits_value_to_uint. done.
Qed.

(** ** Fuel *)

Ltac fuel_step IHv IHm IHe :=
  match goal with
  | E : pvalue ?f ?s = Some _ |- context [pvalue ?g ?s] =>
    assert_fails (unify f g); rewrite (IHv g _ _ ltac:(lia) E)
  | E : pmembers ?f ?a ?s = Some _ |- context [pmembers ?g ?a ?s] =>
    assert_fails (unify f g); rewrite (IHm g _ _ _ ltac:(lia) E)
  | E : pelems ?f ?a ?s = Some _ |- context [pelems ?g ?a ?s] =>
    assert_fails (unify f g); rewrite (IHe g _ _ _ ltac:(lia) E)
  | H : context [match pvalue ?f ?s with _ => _ end] |- _ => destruct (pvalue f s) as [[? ?]|] eqn:?
  | H : context [match pmembers ?f ?a ?s with _ => _ end] |- _ => destruct (pmembers f a s) as [[? ?]|] eqn:?
  | H : context [match pelems ?f ?a ?s with _ => _ end] |- _ => destruct (pelems f a s) as [[? ?]|] eqn:?
  | H : context [match ?x with _ => _ end] |- _ => case_match
  end.

(** More fuel changes no result. *)
Lemma fuel_mono f :
  (∀ g s x, f <= g -> pvalue f s = Some x -> pvalue g s = Some x) ∧
  (∀ g acc s x, f <= g -> pmembers f acc s = Some x -> pmembers g acc s = Some x) ∧
  (∀ g acc s x, f <= g -> pelems f acc s = Some x -> pelems g acc s = Some x).
Proof.
  induction f as [|f (IHv & IHm & IHe)]; [split_and!; done|].
  split_and!; intros [|g] * Hle H; try lia; cbn [pvalue pmembers pelems] in H |- *; unfold mbind, option_bind in H |- *;
    repeat (fuel_step IHv IHm IHe || congruence).
Qed.

(** ** What [json.dump] writes reads back *)

(** The values [json.dump] writes back faithfully: code points of
    Unicode scalar values, and no key twice in a dict. *)
Definition valid_char (c : Z) : bool :=
  ((0 <=? c) && (c <=? 1114111))%Z && negb (is_high_surrogate c || is_low_surrogate c).

Fixpoint json_wf (o : pyobj) : bool :=
  match o with
  | PStr s => forallb valid_char s
  | PList l => forallb json_wf l
  | PDict d => bool_decide (NoDup (map fst d)) && forallb (fun kv => forallb valid_char kv.1 && json_wf kv.2) d
  | _ => true
  end.

Lemma skip_ws_newline_indent n s : skip_ws (newline_indent n ++ s) = skip_ws s.
Proof. unfold newline_indent. generalize (2 * n) as k. induction k as [|k IH]; [reflexivity | exact IH]. Qed.

Lemma valid_char_nonneg c : valid_char c = true -> (0 <= c)%Z.
Proof. unfold valid_char. intros [[H _]%andb_prop _]%andb_prop. lia. Qed.

(** The first character of a document: never whitespace nor a closing
    bracket nor a comma. *)
Definition doc_head (c : Z) : Prop := is_ws c = false ∧ c ≠ 93%Z ∧ c ≠ 125%Z ∧ c ≠ 44%Z ∧ c ≠ 58%Z.

Lemma py_str_int_head z : ∃ c t, py_str_int z = c :: t ∧ (c = 45%Z ∨ (48 <= c <= 57)%Z).
Proof.
  unfold py_str_int. destruct z as [|p|p]; cbn [Z.to_int]; [do 2 eexists; split; [reflexivity|lia]|..];
    destruct (to_uint_lead p) as (c & ds & -> & Hc); do 2 eexists; (split; [reflexivity|lia]).
Qed.

Lemma dump_head lvl v : ∃ c t, json_dump_at lvl v = c :: t ∧ doc_head c.
Proof.
  unfold doc_head. destruct v as [| [] | z | s | [|x l] | [|kv d]]; cbn [json_dump_at];
    try (do 2 eexists; split; [reflexivity | unfold is_ws; cbn; split_and!; done]).
  destruct (py_str_int_head z) as (c & t & -> & Hc). do 2 eexists. split; [reflexivity|].
  unfold is_ws. split_and!; [|lia..]. apply orb_false_iff; split; [apply orb_false_iff; split;
    [apply orb_false_iff; split|]|]; apply Z.eqb_neq; lia.
Qed.

Lemma skip_ws_dump lvl v s : skip_ws (json_dump_at lvl v ++ s) = json_dump_at lvl v ++ s.
Proof. destruct (dump_head lvl v) as (c & t & -> & Hc & _). simpl. by rewrite Hc. Qed.

Lemma pvalue_mono f g s x : f <= g -> pvalue f s = Some x -> pvalue g s = Some x.
Proof. apply fuel_mono. Qed.
Lemma pmembers_mono f g acc s x : f <= g -> pmembers f acc s = Some x -> pmembers g acc s = Some x.
Proof. apply fuel_mono. Qed.
Lemma pelems_mono f g acc s x : f <= g -> pelems f acc s = Some x -> pelems g acc s = Some x.
Proof. apply fuel_mono. Qed.

(** The separator of the members at nesting [lvl]. *)
Definition item_sep (lvl : nat) : pystr := lit "," ++ newline_indent (S lvl).

Lemma py_join_cons2 (sep w w' : pystr) ws : py_join sep (w :: w' :: ws) = w ++ sep ++ py_join sep (w' :: ws).
Proof. reflexivity. Qed.

(** A document parses back, whatever follows it that cannot extend a
    number. *)
Definition reads_back (v : pyobj) : Prop :=
  ∀ lvl rest, num_end rest = true -> ∃ f, pvalue f (json_dump_at lvl v ++ rest) = Some (v, rest).

Lemma skip_ws_join sep lvl y ys s :
  skip_ws (py_join sep (map (json_dump_at lvl) (y :: ys)) ++ s) = py_join sep (map (json_dump_at lvl) (y :: ys)) ++ s.
Proof.
  destruct ys as [|z zs]; [apply skip_ws_dump|].
  change (py_join sep (map (json_dump_at lvl) (y :: z :: zs)))
    with (json_dump_at lvl y ++ sep ++ py_join sep (map (json_dump_at lvl) (z :: zs))).
  rewrite <- !app_assoc. apply skip_ws_dump.
Qed.

Lemma pelems_dump lvl xs acc rest :
  xs ≠ [] -> Forall reads_back xs ->
  ∃ f, pelems f acc (py_join (item_sep lvl) (map (json_dump_at (S lvl)) xs)
                      ++ newline_indent lvl ++ 93%Z :: rest) = Some (acc ++ xs, rest).
Proof.
  revert acc. induction xs as [|x xs IH]; intros acc Hne Hf; [done|].
  inversion_clear Hf as [|? ? Hx Hxs]. destruct xs as [|y ys].
  - destruct (Hx (S lvl) (newline_indent lvl ++ 93%Z :: rest) eq_refl) as [f Hv].
    exists (S f). cbn [map py_join pelems]. unfold mbind, option_bind. rewrite Hv.
    rewrite skip_ws_newline_indent. reflexivity.
  - set (J := py_join (item_sep lvl) (map (json_dump_at (S lvl)) (y :: ys))).
    change (py_join (item_sep lvl) (map (json_dump_at (S lvl)) (x :: y :: ys)))
      with (json_dump_at (S lvl) x ++ item_sep lvl ++ J).
    unfold item_sep at 1. change (lit ",") with [44%Z]. rewrite <- !app_assoc. cbn [app].
    destruct (Hx (S lvl) (44%Z :: newline_indent (S lvl) ++ J ++ newline_indent lvl ++ 93%Z :: rest) eq_refl)
      as [f1 Hv].
    destruct (IH (acc ++ [x]) ltac:(done) Hxs) as [f2 He].
    exists (S (f1 `max` f2)). cbn [pelems]. unfold mbind, option_bind.
    rewrite (pvalue_mono f1 (f1 `max` f2) _ _ ltac:(lia) Hv). cbn [skip_ws is_ws orb Z.eqb Pos.eqb].
    rewrite skip_ws_newline_indent. unfold J. rewrite skip_ws_join.
    rewrite (pelems_mono f2 (f1 `max` f2) _ _ _ ltac:(lia) He). by rewrite <- app_assoc.
Qed.

Definition dump_item (lvl : nat) (kv : pystr * pyobj) : pystr :=
  json_str kv.1 ++ lit ": " ++ json_dump_at (S lvl) kv.2.

Definition item_reads_back (kv : pystr * pyobj) : Prop :=
  reads_back kv.2 ∧ Forall (fun c => 0 <= c)%Z kv.1.

Lemma dict_set_fresh (acc : list (pystr * pyobj)) k v d :
  NoDup (map fst (acc ++ (k, v) :: d)) -> dict_set k v acc = acc ++ [(k, v)].
Proof.
  intros Hnd. apply dict_set_absent, dict_lookup_None_keys.
  rewrite map_app in Hnd. apply NoDup_app in Hnd as (_ & Hd & _). intros Hk. apply (Hd k Hk). simpl. left.
Qed.

Lemma pmembers_item lvl k v acc X f :
  item_reads_back (k, v) ->
  pvalue f (json_dump_at (S lvl) v ++ X) = Some (v, X) ->
  pmembers (S f) acc (dump_item lvl (k, v) ++ X) =
    match skip_ws X with
    | c4 :: r4 =>
      if (c4 =? 125)%Z then Some (dict_set k v acc, r4)
      else if (c4 =? 44)%Z then pmembers f (dict_set k v acc) (skip_ws r4) else None
    | [] => None
    end.
Proof.
  intros [_ Hk] Hv. unfold dump_item. cbn [fst snd].
  change (json_str k) with (34%Z :: tail (json_str k)). change (lit ": ") with [58%Z; 32%Z].
  cbn [app pmembers]. rewrite Z.eqb_refl. unfold mbind, option_bind.
  rewrite <- app_assoc, pstring_json_str by done. cbn [app skip_ws is_ws orb Z.eqb Pos.eqb].
  rewrite skip_ws_dump, Hv. reflexivity.
Qed.

Lemma skip_ws_items sep lvl kv d s :
  skip_ws (py_join sep (map (dump_item lvl) (kv :: d)) ++ s) = py_join sep (map (dump_item lvl) (kv :: d)) ++ s.
Proof.
  destruct d as [|kv' d]; [|change (py_join sep (map (dump_item lvl) (kv :: kv' :: d)))
    with (dump_item lvl kv ++ sep ++ py_join sep (map (dump_item lvl) (kv' :: d)))];
  unfold dump_item at 1; change (json_str kv.1) with (34%Z :: tail (json_str kv.1)); reflexivity.
Qed.

Lemma pmembers_dump lvl d acc rest :
  d ≠ [] -> Forall item_reads_back d -> NoDup (map fst (acc ++ d)) ->
  ∃ f, pmembers f acc (py_join (item_sep lvl) (map (dump_item lvl) d)
                        ++ newline_indent lvl ++ 125%Z :: rest) = Some (acc ++ d, rest).
Proof.
  revert acc. induction d as [|[k v] d IH]; intros acc Hne Hf Hnd; [done|].
  inversion_clear Hf as [|? ? Hkv Hd]. pose proof (dict_set_fresh acc k v d Hnd) as Hset.
  destruct d as [|kv' d'].
  - destruct (proj1 Hkv (S lvl) (newline_indent lvl ++ 125%Z :: rest) eq_refl) as [f Hv].
    exists (S f). cbn [map py_join]. rewrite <- ?app_assoc, (pmembers_item _ _ _ _ _ _ Hkv Hv).
    rewrite skip_ws_newline_indent. cbn. by rewrite Hset.
  - set (J := py_join (item_sep lvl) (map (dump_item lvl) (kv' :: d'))).
    change (py_join (item_sep lvl) (map (dump_item lvl) ((k, v) :: kv' :: d')))
      with (dump_item lvl (k, v) ++ item_sep lvl ++ J).
    unfold item_sep at 1. change (lit ",") with [44%Z]. rewrite <- !app_assoc. cbn [app].
    destruct (proj1 Hkv (S lvl) (44%Z :: newline_indent (S lvl) ++ J ++ newline_indent lvl ++ 125%Z :: rest) eq_refl)
      as [f1 Hv].
    destruct (IH (acc ++ [(k, v)]) ltac:(done) Hd ltac:(by rewrite <- app_assoc)) as [f2 Hm].
    exists (S (S (f1 `max` f2))).
    rewrite (pmembers_item _ _ _ _ _ _ Hkv (pvalue_mono f1 (S (f1 `max` f2)) _ _ ltac:(lia) Hv)).
    cbn [skip_ws is_ws orb Z.eqb Pos.eqb]. rewrite skip_ws_newline_indent, Hset.
    unfold J. rewrite skip_ws_items. rewrite <- app_assoc in Hm.
    rewrite (pmembers_mono f2 (S (f1 `max` f2)) _ _ _ ltac:(lia) Hm). by rewrite <- ?app_assoc.
Qed.

Lemma join_head sep lvl x xs : ∃ c t, py_join sep (map (json_dump_at lvl) (x :: xs)) = c :: t ∧ doc_head c.
Proof.
  destruct (dump_head lvl x) as (c & t & Hx & Hc).
  destruct xs as [|y ys]; cbn [map py_join]; rewrite Hx; eauto.
Qed.

Lemma valid_chars_nonneg (s : pystr) : forallb valid_char s = true -> Forall (fun c => 0 <= c)%Z s.
Proof. intros Hs. apply Forall_forall. intros c Hc%list_elem_of_In. eapply valid_char_nonneg, forallb_forall; eauto. Qed.

Lemma doc_head_not c : doc_head c -> (c =? 93)%Z = false ∧ (c =? 125)%Z = false.
Proof. intros (_ & H1 & H2 & _). split; by apply Z.eqb_neq. Qed.

Lemma items_head sep lvl kv d : ∃ t, py_join sep (map (dump_item lvl) (kv :: d)) = 34%Z :: t.
Proof. destruct d; eexists; reflexivity. Qed.

(** Every well-formed value reads back from its text. *)
Lemma json_wf_reads_back v : json_wf v = true -> reads_back v.
Proof.
  induction v as [| b | z | s | l IH | d IH] using pyobj_nested_ind; intros Hwf lvl rest Hr.
  - by exists 1.
  - exists 1. by destruct b.
  - exists 1. destruct (py_str_int_head z) as (c & t & Hs & Hc).
    cbn [json_dump_at pvalue]. rewrite Hs. cbn [app]. unfold pscalar.
    change (lit "null") with [110; 117; 108; 108]%Z. change (lit "true") with [116; 114; 117; 101]%Z.
    change (lit "false") with [102; 97; 108; 115; 101]%Z. cbn [startswith].
    rewrite !(proj2 (Z.eqb_neq _ c)), !(proj2 (Z.eqb_neq c _)) by lia. cbn [andb].
    change (c :: t ++ rest) with ((c :: t) ++ rest). rewrite <- Hs, pnumber_py_str_int by done. done.
  - exists 1. cbn in Hwf. change (json_dump_at lvl (PStr s) ++ rest) with (34%Z :: (tail (json_str s) ++ rest)).
    cbn [pvalue]. rewrite Z.eqb_refl. unfold mbind, option_bind.
    rewrite pstring_json_str by (by apply valid_chars_nonneg). done.
  - cbn in Hwf. destruct l as [|x xs]; [by exists 1|].
    assert (Hrb : Forall reads_back (x :: xs)).
    { apply Forall_forall. intros y Hy. eapply Forall_forall in IH; [|done]. apply IH.
      eapply forallb_forall; [exact Hwf | by apply list_elem_of_In]. }
    destruct (pelems_dump lvl (x :: xs) [] rest ltac:(done) Hrb) as [f Hf].
    destruct (join_head (item_sep lvl) (S lvl) x xs) as (c & t & Hj & Hc).
    exists (S f). cbn [json_dump_at]. fold (item_sep lvl).
    change (lit "[") with [91%Z]. change (lit "]") with [93%Z]. rewrite <- !app_assoc. cbn [app pvalue].
    rewrite skip_ws_newline_indent, skip_ws_join, Hj. cbn [app]. rewrite (proj1 (doc_head_not c Hc)).
    unfold mbind, option_bind. rewrite Hj in Hf. cbn [app] in Hf. by rewrite Hf.
  - cbn in Hwf. apply andb_prop in Hwf as [Hnd%bool_decide_eq_true_1 Hwf].
    destruct d as [|[k v] d']; [by exists 1|].
    assert (Hrb : Forall item_reads_back ((k, v) :: d')).
    { apply Forall_forall. intros [k' v'] Hy. eapply Forall_forall in IH; [|done].
      eapply forallb_forall in Hwf; [|by apply list_elem_of_In]. apply andb_prop in Hwf as [Hk Hv].
      split; [by apply IH | by apply valid_chars_nonneg]. }
    destruct (pmembers_dump lvl ((k, v) :: d') [] rest ltac:(done) Hrb Hnd) as [f Hf].
    destruct (items_head (item_sep lvl) lvl (k, v) d') as (t & Hj).
    exists (S f). cbn [json_dump_at]. fold (item_sep lvl). fold (dump_item lvl).
    change (lit "{") with [123%Z]. change (lit "}") with [125%Z]. rewrite <- !app_assoc. cbn [app pvalue].
    rewrite skip_ws_newline_indent, skip_ws_items, Hj. cbn [app Z.eqb Pos.eqb].
    unfold mbind, option_bind. rewrite Hj in Hf. cbn [app] in Hf. by rewrite Hf.
Qed.

(** ** Fuel: each call consumes text *)

Lemma skip_ws_len s : length (skip_ws s) ≤ length s.
Proof. induction s as [|c s IH]; cbn; [done|]. case_match; cbn; lia. Qed.

Lemma skip_ws_len_eq s t : skip_ws s = t -> length t ≤ length s.
Proof. intros <-. apply skip_ws_len. Qed.

Lemma span_digits_len s : length (span_digits s).2 ≤ length s.
Proof. induction s as [|c s IH]; cbn; [done|]. repeat case_match; simplify_eq/=; lia. Qed.

Lemma pnumber_len s z r : pnumber s = Some (z, r) -> length r < length s.
Proof.
  unfold pnumber, mbind, option_bind. intros H.
  destruct s as [|c s]; [done|]. cbn in H.
  repeat (case_match; simplify_eq/=); try lia;
    match goal with E : span_digits ?a = _ |- _ => pose proof (span_digits_len a) as L; rewrite E in L; cbn in L end; lia.
Qed.

Lemma pscalar_len s v r : pscalar s = Some (v, r) -> length r < length s.
Proof.
  unfold pscalar, mbind, option_bind. intros H.
  repeat (case_match; simplify_eq); try (by eapply pnumber_len);
    match goal with E : startswith ?p s = true |- _ => destruct (startswith_inv _ _ E) as [s' ->] end;
    rewrite length_drop, length_app;
    match goal with |- context [length (lit ?x)] =>
      let n := eval vm_compute in (length (lit x)) in change (length (lit x)) with n end; lia.
Qed.

Lemma cons_fst_some {A B} (c : A) (o : option (list A * B)) t r :
  cons_fst c o = Some (t, r) -> ∃ t', o = Some (t', r).
Proof. destruct o as [[]|]; cbn; intros; simplify_eq; eauto. Qed.

Lemma pstring_len s t r : pstring s = Some (t, r) -> length r < length s.
Proof.
  revert t r. induction s as [s IH] using (well_founded_ind (well_founded_ltof _ (@length Z))).
  intros t r H. destruct s as [|c s]; [done|]. cbn [pstring] in H. unfold mbind, option_bind in H.
  repeat (lazymatch type of H with
    | pstring ?a = Some _ => apply IH in H; unfold ltof in *; cbn in *; lia
    | cons_fst _ _ = _ => apply cons_fst_some in H as [? H]
    | Some _ = Some _ => injection H as <- <-; cbn; lia
    | None = _ => discriminate
    | (match ?x with _ => _ end) = _ => destruct x eqn:?
    end; try (cbv beta iota in H)).
Qed.

Ltac len_facts IHv IHm IHe :=
  repeat match goal with
  | E : skip_ws ?a = ?b |- _ => apply skip_ws_len_eq in E
  | E : pstring _ = Some (_, _) |- _ => apply pstring_len in E
  | E : pnumber _ = Some (_, _) |- _ => apply pnumber_len in E
  | E : pscalar _ = Some (_, _) |- _ => apply pscalar_len in E
  | E : pvalue _ (skip_ws ?a) = Some (_, _) |- _ => pose proof (skip_ws_len a); apply IHv in E
  | E : pmembers _ _ (skip_ws ?a) = Some (_, _) |- _ => pose proof (skip_ws_len a); apply IHm in E
  | E : pelems _ _ (skip_ws ?a) = Some (_, _) |- _ => pose proof (skip_ws_len a); apply IHe in E
  | E : pvalue _ _ = Some (_, _) |- _ => apply IHv in E
  | E : pmembers _ _ _ = Some (_, _) |- _ => apply IHm in E
  | E : pelems _ _ _ = Some (_, _) |- _ => apply IHe in E
  end; cbn [length] in *.

(** What remains after a value, the members or the elements is shorter
    than the text. *)
Lemma parse_len f :
  (∀ s v r, pvalue f s = Some (v, r) -> length r < length s) ∧
  (∀ acc s d r, pmembers f acc s = Some (d, r) -> length r < length s) ∧
  (∀ acc s l r, pelems f acc s = Some (l, r) -> length r < length s).
Proof.
  induction f as [|f (IHv & IHm & IHe)]; [split_and!; done|].
  split_and!; intros * H; cbn [pvalue pmembers pelems] in H; unfold mbind, option_bind in H;
    repeat (case_match; cbv beta iota in *; simplify_eq); len_facts IHv IHm IHe;
    repeat match goal with |- context [length (drop ?n ?s)] => rewrite length_drop end; cbn in *; lia.
Qed.

Ltac is_skip_ws a := lazymatch a with skip_ws ?t => pose proof (skip_ws_len t) end.

Ltac len_copy :=
  repeat match goal with
  | E : skip_ws ?a = ?b |- _ => pose proof (skip_ws_len_eq _ _ E); revert E
  | E : pstring _ = Some (_, _) |- _ => pose proof (pstring_len _ _ _ E); revert E
  | E : pnumber _ = Some (_, _) |- _ => pose proof (pnumber_len _ _ _ E); revert E
  | E : pscalar _ = Some (_, _) |- _ => pose proof (pscalar_len _ _ _ E); revert E
  | E : pvalue _ ?a = Some (_, _) |- _ =>
      pose proof (proj1 (parse_len _) _ _ _ E); try (is_skip_ws a); revert E
  | E : pmembers _ _ ?a = Some (_, _) |- _ =>
      pose proof (proj1 (proj2 (parse_len _)) _ _ _ _ E); try (is_skip_ws a); revert E
  | E : pelems _ _ ?a = Some (_, _) |- _ =>
      pose proof (proj2 (proj2 (parse_len _)) _ _ _ _ E); try (is_skip_ws a); revert E
  end; intros; cbn [length] in *.

Ltac enough_step IHv IHm IHe :=
  match goal with
  | E : pvalue ?f ?s = Some _ |- context [pvalue ?g ?s] =>
    assert_fails (unify f g); rewrite (IHv _ _ _ E g ltac:(cbn [length]; lia))
  | E : pmembers ?f ?a ?s = Some _ |- context [pmembers ?g ?a ?s] =>
    assert_fails (unify f g); rewrite (IHm _ _ _ _ E g ltac:(cbn [length]; lia))
  | E : pelems ?f ?a ?s = Some _ |- context [pelems ?g ?a ?s] =>
    assert_fails (unify f g); rewrite (IHe _ _ _ _ E g ltac:(cbn [length]; lia))
  | E : ?a = ?b |- context [?a] => assert_fails (is_var a); rewrite E
  end.

(** Twice the length of the text is fuel enough. *)
Lemma fuel_enough f :
  (∀ s v r, pvalue f s = Some (v, r) -> ∀ g, 2 * length s ≤ g -> pvalue g s = Some (v, r)) ∧
  (∀ acc s d r, pmembers f acc s = Some (d, r) -> ∀ g, 2 * length s ≤ g -> pmembers g acc s = Some (d, r)) ∧
  (∀ acc s l r, pelems f acc s = Some (l, r) -> ∀ g, S (2 * length s) ≤ g -> pelems g acc s = Some (l, r)).
Proof.
  induction f as [|f (IHv & IHm & IHe)]; [split_and!; done|].
  split_and!; intros * H g Hg; cbn [pvalue pmembers pelems] in H; unfold mbind, option_bind in H;
    repeat (case_match; cbv beta iota in *; simplify_eq); len_copy; (destruct g as [|g]; [lia|]);
    cbn [pvalue pmembers pelems]; unfold mbind, option_bind; repeat enough_step IHv IHm IHe; done.
Qed.

Lemma pvalue_enough f s v r g : pvalue f s = Some (v, r) -> 2 * length s ≤ g -> pvalue g s = Some (v, r).
Proof. intros H. by apply (proj1 (fuel_enough f)). Qed.

(** ** [json.loads] *)

(** The fuel of [json_loads] is no restriction: a text
    that the parser reads as one value followed by whitespace with any
    fuel at all, [json_loads] reads as that value. *)
Lemma json_loads_complete f s v r :
  pvalue f (skip_ws s) = Some (v, r) -> skip_ws r = [] -> json_loads s = Some v.
Proof.
  intros H Hr. unfold json_loads, mbind, option_bind.
  rewrite (pvalue_enough f _ v r _ H) by (pose proof (skip_ws_len s); lia). by rewrite Hr.
Qed.

(** [json.loads] reads back what [json.dump(..., indent=2,
    ensure_ascii=False)] writes, for every value of the registry's shape:
    code points that are characters, and keys without duplicates. *)
Lemma json_loads_dump v : json_wf v = true -> json_loads (json_dump v) = Some v.
Proof.
  intros Hwf. destruct (json_wf_reads_back v Hwf 0 [] eq_refl) as [f Hf]. rewrite app_nil_r in Hf.
  assert (H : pvalue f (skip_ws (json_dump v)) = Some (v, [])).
  { unfold json_dump. by rewrite <- (app_nil_r (json_dump_at 0 v)), skip_ws_dump, app_nil_r. }
  unfold json_loads, mbind, option_bind.
  by rewrite (pvalue_enough f _ v [] _ H) by (pose proof (skip_ws_len (json_dump v)); lia).
Qed.

(** ** What follows a closed value does not change how it reads *)

Lemma cons_fst_inv {A B} (c : A) (o : option (list A * B)) t r :
  cons_fst c o = Some (t, r) -> ∃ t', o = Some (t', r) ∧ t = c :: t'.
Proof. destruct o as [[]|]; cbn; intros; simplify_eq; eauto. Qed.

(** Whether [\u] starts the text: the look-ahead for a low surrogate. *)
Definition starts_u (L : pystr) : bool :=
  match L with x :: y :: _ => ((x =? 92) && (y =? 117))%Z | _ => false end.

Lemma lookahead_irrelevant {A} (L : pystr) (F : Z -> Z -> Z -> Z -> Z -> Z -> pystr -> A) (D : A) :
  starts_u L = false ->
  match L with
  | x :: y :: e1 :: f :: g :: h :: r3 => if ((x =? 92) && (y =? 117))%Z then F x y e1 f g h r3 else D
  | _ => D
  end = D.
Proof. destruct L as [|? [|? [|? [|? [|? [|? ?]]]]]]; cbn; try done. by intros ->. Qed.

Lemma starts_u_app L t p : starts_u L = false -> pstring L = Some p -> starts_u (L ++ t) = false.
Proof.
  destruct L as [|a [|b L]]; cbn; [done| |done]. intros _ H.
  destruct (a =? 34)%Z eqn:Ha; [apply Z.eqb_eq in Ha as ->; by destruct t|].
  repeat case_match; simplify_eq.
Qed.

Lemma pstring_ext x t s r : pstring x = Some (s, r) -> pstring (x ++ t) = Some (s, r ++ t).
Proof.
  revert s r. induction x as [x IH] using (well_founded_ind (well_founded_ltof _ (@length Z))).
  assert (Hleaf : ∀ y c s r, length y < length x -> cons_fst c (pstring y) = Some (s, r) ->
                    cons_fst c (pstring (y ++ t)) = Some (s, r ++ t)).
  { intros y c s r Hy (s' & Hs & ->)%cons_fst_inv. by rewrite (IH y Hy _ _ Hs). }
  intros s r H. destruct x as [|c x]; [done|]. cbn [pstring app] in H |- *.
  destruct (c =? 34)%Z; [by simplify_eq|]. destruct (c =? 92)%Z.
  2: { destruct (c <? 32)%Z; [done|]. apply Hleaf; [cbn; lia | done]. }
  destruct x as [|e x1]; [done|]. cbn [app]. destruct (e =? 117)%Z.
  2: { repeat (case_match; [apply Hleaf; [cbn; lia | done]|]); done. }
  destruct x1 as [|a [|b [|c1 [|d r2]]]]; try done. cbn [app]. unfold mbind, option_bind in *.
  destruct (hex4 a b c1 d) as [u|]; [|done]. destruct (is_high_surrogate u); [|apply Hleaf; [cbn; lia | done]].
  destruct (starts_u r2) eqn:Hu.
  - destruct r2 as [|x' [|y' [|e1 [|f [|g [|h r3]]]]]]; cbn in Hu; try done;
      [apply andb_prop in Hu as [->%Z.eqb_eq ->%Z.eqb_eq]; cbn in H; repeat case_match; simplify_eq..|].
    cbn [app]. rewrite Hu in H |- *. destruct (hex4 e1 f g h) as [u2|]; [|done].
    destruct (is_low_surrogate u2);
      (first [apply Hleaf | apply (Hleaf (_ :: _ :: _ :: _ :: _ :: _ :: _))]; [cbn; lia | done]).
  - rewrite lookahead_irrelevant in H by done.
    destruct (pstring r2) as [p|] eqn:Hp; [|done].
    rewrite lookahead_irrelevant by (eapply starts_u_app; eauto). rewrite <- Hp in H. apply Hleaf; [cbn; lia | done].
Qed.

(** A remainder that ends a number: not empty, and no digit, [.], [e]
    or [E] at its head. *)
Definition stops (r : pystr) : bool := match r with [] => false | _ => num_end r end.

Lemma span_digits_ext x t ds r : span_digits x = (ds, r) -> r ≠ [] -> span_digits (x ++ t) = (ds, r ++ t).
Proof.
  revert ds. induction x as [|c x IH]; intros ds; cbn; [by intros [= <- <-]|].
  destruct (is_digit c); [|by intros [= <- <-]].
  destruct (span_digits x) as [ds' r'] eqn:E. intros [= <- ->] Hr. by rewrite (IH ds' eq_refl Hr).
Qed.

Lemma float_follows_stops r t : stops r = true -> float_follows (r ++ t) = false ∧ float_follows r = false.
Proof.
  destruct r as [|c r]; [done|]. cbn. intros H. apply andb_prop in H as [H H4]. apply andb_prop in H as [H H3].
  apply andb_prop in H as [_ H2]. apply negb_true_iff in H2, H3, H4. rewrite H2, H3, H4. cbn.
  destruct r, t; rewrite ?H2, ?H3, ?H4; cbn; try done; destruct r; rewrite ?H2, ?H3, ?H4; done.
Qed.

Lemma pnumber_ext x t z r : pnumber x = Some (z, r) -> stops r = true -> pnumber (x ++ t) = Some (z, r ++ t).
Proof.
  intros H Hs. pose proof (float_follows_stops r t Hs) as [Ht Hr].
  assert (Hne : r ≠ []) by (by destruct r).
  unfold pnumber, mbind, option_bind in *. destruct x as [|c x]; [done|]. cbn [app].
  destruct (c =? 45)%Z; [destruct x as [|c' x]; [done|]; cbn [app]; rename c into c0, c' into c|];
    (destruct (c =? 48)%Z; [cbv beta iota in H |- *; case_match; simplify_eq; by rewrite Ht|]);
    (destruct (is_digit c); [|done]); destruct (span_digits x) as [ds r'] eqn:E; cbv beta iota in H;
    case_match; simplify_eq; by rewrite (span_digits_ext _ _ _ _ E Hne), Ht.
Qed.

Lemma startswith_app_true p a t : startswith p a = true -> startswith p (a ++ t) = true.
Proof. intros (a' & ->)%startswith_inv. rewrite <- app_assoc. apply startswith_app. Qed.

Lemma drop_app_startswith p a t : startswith p a = true -> drop (length p) (a ++ t) = drop (length p) a ++ t.
Proof. intros (a' & ->)%startswith_inv. rewrite <- app_assoc, !drop_app_length. done. Qed.

(** A value other than an int is closed by its last character; an int
    needs a remainder that [stops] it. *)
Definition closed_at (v : pyobj) (r : pystr) : bool :=
  match v with PInt _ => stops r | _ => true end.

Lemma pnumber_head c l p : pnumber (c :: l) = Some p -> (c = 45 ∨ 48 <= c <= 57)%Z.
Proof.
  unfold pnumber, mbind, option_bind, is_digit. destruct (Z.eqb_spec c 45); [by left|]. cbn.
  destruct (Z.eqb_spec c 48); [lia|]. destruct (48 <=? c)%Z eqn:E1, (c <=? 57)%Z eqn:E2; cbn; try done.
  intros _. apply Z.leb_le in E1, E2. lia.
Qed.

Lemma pscalar_ext c l t v r :
  pscalar (c :: l) = Some (v, r) -> closed_at v r = true -> pscalar (c :: l ++ t) = Some (v, r ++ t).
Proof.
  intros H Hc. unfold pscalar, mbind, option_bind in *. change (c :: l ++ t) with ((c :: l) ++ t).
  destruct (startswith (lit "null") (c :: l)) eqn:E1;
    [simplify_eq; destruct (startswith_inv _ _ E1) as [l' ->]; reflexivity|].
  destruct (startswith (lit "true") (c :: l)) eqn:E2;
    [simplify_eq; destruct (startswith_inv _ _ E2) as [l' ->]; reflexivity|].
  destruct (startswith (lit "false") (c :: l)) eqn:E3;
    [simplify_eq; destruct (startswith_inv _ _ E3) as [l' ->]; reflexivity|].
  destruct (pnumber (c :: l)) as [[z r']|] eqn:En; [|done]. simplify_eq.
  rewrite (pnumber_ext _ t _ _ En Hc). apply pnumber_head in En.
  change (lit "null") with [110; 117; 108; 108]%Z. change (lit "true") with [116; 114; 117; 101]%Z.
  change (lit "false") with [102; 97; 108; 115; 101]%Z. cbn [app startswith].
  by rewrite !(proj2 (Z.eqb_neq _ c)) by lia.
Qed.

Lemma skip_ws_app_cons a t c b : skip_ws a = c :: b -> skip_ws (a ++ t) = c :: b ++ t.
Proof. induction a as [|d a IH]; cbn; [done|]. case_match; [done|]. by intros [= -> ->]. Qed.

Lemma skip_ws_app_ne a t : skip_ws a ≠ [] -> skip_ws (a ++ t) = skip_ws a ++ t.
Proof. destruct (skip_ws a) as [|c b] eqn:E; [done|]. intros _. by apply skip_ws_app_cons. Qed.

Lemma skip_ws_stops r c r' : skip_ws r = c :: r' -> (c = 44 ∨ c = 93 ∨ c = 125)%Z -> stops r = true.
Proof.
  destruct r as [|d r]; [done|]. cbn [skip_ws]. intros H Hc.
  assert (Hd : (d = 32 ∨ d = 9 ∨ d = 10 ∨ d = 13 ∨ d = 44 ∨ d = 93 ∨ d = 125)%Z).
  { destruct (is_ws d) eqn:Hw; [|injection H as -> _; lia].
    unfold is_ws in Hw. repeat (apply orb_true_iff in Hw as [Hw|Hw]); apply Z.eqb_eq in Hw; lia. }
  destruct_or! Hd; by subst.
Qed.

Lemma pvalue_ne f s x : pvalue f s = Some x -> s ≠ [].
Proof. destruct f, s; done. Qed.

Lemma pmembers_ne f acc s x : pmembers f acc s = Some x -> s ≠ [].
Proof. destruct f, s; done. Qed.

Lemma pelems_ne f acc s x : pelems f acc s = Some x -> s ≠ [].
Proof. destruct f as [|[|f]], s; done. Qed.

Lemma closed_at_stops v r : stops r = true -> closed_at v r = true.
Proof. by destruct v. Qed.

Ltac closed_tac :=
  match goal with
  | |- closed_at _ ?r = true =>
    match goal with E : skip_ws r = ?c :: _ |- _ =>
      apply closed_at_stops, (skip_ws_stops _ _ _ E);
      repeat match goal with H : (c =? _)%Z = true |- _ => apply Z.eqb_eq in H end; lia
    end
  end.

Ltac ext_step IHv IHm IHe :=
  match goal with
  | E : pstring ?a = Some _ |- context [pstring (?a ++ ?t)] => rewrite (pstring_ext _ t _ _ E)
  | E : pscalar (?c :: ?a) = Some _ |- context [pscalar (?c :: ?a ++ ?t)] =>
    rewrite (pscalar_ext _ _ t _ _ E ltac:(assumption))
  | E : skip_ws ?a = _ :: _ |- context [skip_ws (?a ++ ?t)] => rewrite (skip_ws_app_cons _ t _ _ E)
  | E : pvalue _ (skip_ws ?a) = Some _ |- context [skip_ws (?a ++ ?t)] =>
    rewrite (skip_ws_app_ne a t (pvalue_ne _ _ _ E))
  | E : pmembers _ _ (skip_ws ?a) = Some _ |- context [skip_ws (?a ++ ?t)] =>
    rewrite (skip_ws_app_ne a t (pmembers_ne _ _ _ _ E))
  | E : pelems _ _ (skip_ws ?a) = Some _ |- context [skip_ws (?a ++ ?t)] =>
    rewrite (skip_ws_app_ne a t (pelems_ne _ _ _ _ E))
  | E : _ _ _ (?c :: ?a) = Some _ |- context [?c :: ?a ++ ?t] => change (c :: a ++ t) with ((c :: a) ++ t)
  | E : pvalue ?f ?a = Some _ |- context [pvalue ?f (?a ++ ?t)] => rewrite (IHv _ _ _ E ltac:(closed_tac))
  | E : pmembers ?f ?acc ?a = Some _ |- context [pmembers ?f ?acc (?a ++ ?t)] => rewrite (IHm _ _ _ _ E)
  | E : pelems ?f ?acc ?a = Some _ |- context [pelems ?f ?acc (?a ++ ?t)] => rewrite (IHe _ _ _ _ E)
  | E : ?a = ?b |- context [?a] => assert_fails (is_var a); rewrite E
  end; cbv beta iota.

(** Text appended after a value, the members or the elements is left
    over, untouched: the parser never looks past the end of a closed
    value. *)
Lemma parse_ext f t :
  (∀ x v r, pvalue f x = Some (v, r) -> closed_at v r = true -> pvalue f (x ++ t) = Some (v, r ++ t)) ∧
  (∀ acc x d r, pmembers f acc x = Some (d, r) -> pmembers f acc (x ++ t) = Some (d, r ++ t)) ∧
  (∀ acc x l r, pelems f acc x = Some (l, r) -> pelems f acc (x ++ t) = Some (l, r ++ t)).
Proof.
  induction f as [|f (IHv & IHm & IHe)]; [split_and!; done|].
  split_and!; intros * H; [intros Hc| |]; cbn [pvalue pmembers pelems] in H; unfold mbind, option_bind in H;
    repeat (case_match; cbv beta iota in *; simplify_eq);
    cbn [app pvalue pmembers pelems]; unfold mbind, option_bind; repeat ext_step IHv IHm IHe; done.
Qed.

Lemma pvalue_brace f s v r : pvalue f (123%Z :: s) = Some (v, r) -> closed_at v r = true.
Proof. destruct f; cbn; [done|]. unfold mbind, option_bind. intros H. repeat case_match; by simplify_eq. Qed.

Lemma dump_dict_head lvl d : ∃ s, json_dump_at lvl (PDict d) = 123%Z :: s.
Proof. destruct d; eexists; reflexivity. Qed.

Lemma pvalue_det f g s x y : pvalue f s = Some x -> pvalue g s = Some y -> x = y.
Proof.
  intros Hf%(pvalue_mono f (f `max` g)) Hg%(pvalue_mono g (f `max` g)); [congruence | lia..].
Qed.

(** A proper prefix of what [json.dump] writes for a dict never
    loads: [json.loads] raises on every text cut short of the closing
    brace, whatever its length. *)
Lemma json_loads_prefix d p t :
  json_wf (PDict d) = true -> json_dump (PDict d) = p ++ t -> t ≠ [] -> json_loads p = None.
Proof.
  intros Hwf Hd Ht. destruct (json_loads p) as [w|] eqn:Hl; [exfalso|done].
  unfold json_loads, mbind, option_bind in Hl.
  destruct (pvalue _ (skip_ws p)) as [[w' r]|] eqn:Hp; [|done]. destruct (skip_ws r) eqn:Hr; [|done].
  destruct (dump_dict_head 0 d) as [s Hs]. unfold json_dump in Hd. rewrite Hs in Hd.
  destruct p as [|c p']; [by apply pvalue_ne in Hp|]. injection Hd as <- Hd.
  change (skip_ws (123%Z :: p')) with (123%Z :: p') in Hp.
  apply (proj1 (parse_ext _ t)) in Hp; [|by eapply pvalue_brace].
  destruct (json_wf_reads_back _ Hwf 0 [] eq_refl) as [f Hf]. rewrite app_nil_r, Hs, Hd in Hf.
  pose proof (pvalue_det _ _ _ _ _ Hp Hf) as [= _ Hrt]. by destruct r, t.
Qed.

(** ** The UTF-8 codec *)

Ltac range_cases :=
  repeat match goal with
  | |- context [(?a =? ?b)%Z] => destruct (Z.eqb_spec a b); try lia
  | |- context [(?a <=? ?b)%Z] => destruct (Z.leb_spec a b); try lia; cbn [andb]
  end.

(** The bounds of a valid code point, and its digits in base 64. *)
Ltac utf8_facts c Hc :=
  unfold valid_char, is_high_surrogate, is_low_surrogate, utf8_encode_char in *;
  repeat (apply andb_prop in Hc as [? Hc]);
  let H1 := fresh in let H2 := fresh in
  apply negb_true_iff, orb_false_iff in Hc as [H1 H2];
  apply andb_false_iff in H1, H2; rewrite ?Z.leb_le, ?Z.leb_gt in *;
  pose proof (Z.div_mod c 64 ltac:(lia)); pose proof (Z.mod_pos_bound c 64 ltac:(lia));
  pose proof (Z.div_mod (c / 64) 64 ltac:(lia)); pose proof (Z.mod_pos_bound (c / 64) 64 ltac:(lia));
  pose proof (Z.div_mod (c / 4096) 64 ltac:(lia)); pose proof (Z.mod_pos_bound (c / 4096) 64 ltac:(lia));
  rewrite ?Z.div_div in * by lia; change (64 * 64)%Z with 4096%Z in *;
  rewrite ?Z.div_div in * by lia; change (4096 * 64)%Z with 262144%Z in *.

Lemma utf8_decode_char c r :
  valid_char c = true ->
  utf8_decode_strict (utf8_encode_char c ++ r) = t ← utf8_decode_strict r; Some (c :: t).
Proof.
  intros Hc. utf8_facts c Hc.
  destruct (Z.ltb_spec c 128); [cbn [app utf8_decode_strict]; unfold in_range; range_cases; done|].
  destruct (Z.ltb_spec c 2048); [cbn [app utf8_decode_strict]; unfold in_range; range_cases; (destruct (utf8_decode_strict _); cbn; [do 2 f_equal; lia | done])|].
  destruct (Z.ltb_spec c 65536); [cbn [app utf8_decode_strict]; unfold in_range; range_cases; (destruct (utf8_decode_strict _); cbn; [do 2 f_equal; lia | done])|].
  cbn [app utf8_decode_strict]; unfold in_range; range_cases; (destruct (utf8_decode_strict _); cbn; [do 2 f_equal; lia | done]).
Qed.

Lemma utf8_encode_cons c s : utf8_encode (c :: s) = utf8_encode_char c ++ utf8_encode s.
Proof. done. Qed.

Lemma utf8_roundtrip s : forallb valid_char s = true -> utf8_decode_strict (utf8_encode s) = Some s.
Proof.
  induction s as [|c s IH]; [done|]. cbn [forallb]. intros [Hc Hs]%andb_prop.
  by rewrite utf8_encode_cons, utf8_decode_char, IH.
Qed.

(** ** Carriage returns *)

Definition no_cr (s : pystr) : Prop := Forall (fun c => c ≠ 13%Z) s.

Lemma universal_newlines_cons c r : c ≠ 13%Z -> universal_newlines (c :: r) = c :: universal_newlines r.
Proof. intros Hc. destruct c as [|p|p]; try done. do 4 (destruct p as [p|p|]; try done). Qed.

Lemma universal_newlines_id s : no_cr s -> universal_newlines s = s.
Proof. induction 1 as [|c s Hc _ IH]; [done|]. by rewrite universal_newlines_cons, IH. Qed.

(** A character cut after its first byte and before its last does not
    decode. *)
Lemma utf8_cut c k :
  valid_char c = true -> 0 < k < length (utf8_encode_char c) ->
  utf8_decode_strict (take k (utf8_encode_char c)) = None.
Proof.
  intros Hc Hk. utf8_facts c Hc.
  destruct (Z.ltb_spec c 128); [cbn in Hk; lia|].
  destruct (Z.ltb_spec c 2048); [|destruct (Z.ltb_spec c 65536)]; cbn [length] in Hk;
    (destruct k as [|[|[|[|k]]]]; try lia); cbn [take utf8_decode_strict]; unfold in_range; range_cases; done.
Qed.

Lemma utf8_encode_app s1 s2 : utf8_encode (s1 ++ s2) = utf8_encode s1 ++ utf8_encode s2.
Proof. unfold utf8_encode. by rewrite map_app, join_app. Qed.

(** A file cut at any byte decodes to the characters written before the
    cut, or not at all. *)
Lemma utf8_prefix s bp bt :
  forallb valid_char s = true -> bp ++ bt = utf8_encode s ->
  (∃ s1 s2, s = s1 ++ s2 ∧ bp = utf8_encode s1 ∧ utf8_decode_strict bp = Some s1) ∨
  utf8_decode_strict bp = None.
Proof.
  revert bp. induction s as [|c s IH]; intros bp Hs Hb.
  { apply app_eq_nil in Hb as [-> _]. left. by exists [], []. }
  cbn [forallb] in Hs. apply andb_prop in Hs as [Hc Hs].
  rewrite utf8_encode_cons in Hb.
  apply app_eq_app in Hb as [k [[-> Hk] | [Hk Hbt]]].
  - destruct (IH k Hs (eq_sym Hk)) as [(s1 & s2 & -> & -> & Hd) | Hd].
    + left. exists (c :: s1), s2. split_and!; [done | done | by rewrite utf8_decode_char, Hd].
    + right. by rewrite utf8_decode_char, Hd.
  - destruct bp as [|b bp']; [left; by exists [], (c :: s)|].
    destruct k as [|k0 k].
    { rewrite app_nil_r in Hk. left. exists [c], s. rewrite <- Hk.
      split_and!; [done | by rewrite utf8_encode_cons, app_nil_r
                  | by rewrite <- (app_nil_r (utf8_encode_char c)), utf8_decode_char]. }
    right. replace (b :: bp') with (take (length (b :: bp')) (utf8_encode_char c))
      by (rewrite Hk, take_app_length; done).
    apply utf8_cut; [done|]. rewrite Hk, length_app. cbn. lia.
Qed.

(** A character [json.dump] may write: a valid code point, and no
    carriage return. *)
Definition text_char (c : Z) : Prop := valid_char c = true ∧ c ≠ 13%Z.

Definition dump_text (s : pystr) : Prop := Forall text_char s.

Lemma dump_text_app a b : dump_text a -> dump_text b -> dump_text (a ++ b).
Proof. apply Forall_app_2. Qed.

Lemma dump_text_py_join sep l : dump_text sep -> Forall dump_text l -> dump_text (py_join sep l).
Proof.
  intros Hs. induction l as [|w [|w' l] IH]; intros Hl; cbn [py_join]; [constructor|by inversion Hl|].
  inversion_clear Hl. apply dump_text_app; [done|]. apply dump_text_app; [done|]. by apply IH.
Qed.

Lemma text_char_ascii c : (0 <= c < 128)%Z -> c ≠ 13%Z -> text_char c.
Proof.
  intros Hc Hn. split; [|done]. unfold valid_char, is_high_surrogate, is_low_surrogate.
  repeat (case_match || case_bool_decide); rewrite ?Z.leb_le, ?Z.leb_gt in *; cbn; try done; lia.
Qed.

Lemma dump_text_newline_indent n : dump_text (newline_indent n).
Proof. constructor; [apply text_char_ascii; lia|]. apply Forall_replicate, text_char_ascii; lia. Qed.

Lemma dump_text_escape c : valid_char c = true -> dump_text (json_escape_char c).
Proof.
  intros Hc. pose proof (valid_char_nonneg c Hc).
  unfold json_escape_char, hex_digit.
  pose proof (Z.div_mod c 16 ltac:(lia)). pose proof (Z.mod_pos_bound c 16 ltac:(lia)).
  repeat case_match; rewrite ?Z.eqb_eq, ?Z.eqb_neq, ?Z.ltb_lt, ?Z.ltb_ge in *;
    repeat constructor; try done; apply text_char_ascii; lia.
Qed.

Lemma dump_text_json_str s : forallb valid_char s = true -> dump_text (json_str s).
Proof.
  intros Hs. constructor; [apply text_char_ascii; lia|].
  apply dump_text_app; [|repeat constructor; apply text_char_ascii; lia].
  induction s as [|c s IH]; [constructor|]. apply andb_prop in Hs as [Hc Hs].
  by apply dump_text_app; [apply dump_text_escape | apply IH].
Qed.

Lemma dump_text_py_str_int z : dump_text (py_str_int z).
Proof.
  apply Forall_forall. intros c Hc. apply text_char_ascii.
  - unfold py_str_int in Hc. destruct (Z.to_int z) as [d|d]; [|apply elem_of_cons in Hc as [->|Hc]];
      try lia; apply uint_digits_digit in Hc; lia.
  - intros ->. by apply py_str_int_no_space in Hc.
Qed.

Ltac dump_text_lit :=
  lazymatch goal with
  | |- dump_text (lit ?x) => let l := eval vm_compute in (lit x) in change (dump_text l); repeat constructor; lia
  end.

Ltac dump_text_step :=
  match goal with
  | |- dump_text (_ ++ _) => apply dump_text_app
  | |- dump_text (lit _) => dump_text_lit
  | |- dump_text (newline_indent _) => apply dump_text_newline_indent
  end.

(** Every character [json.dump] writes for a well-formed value is a
    valid code point, and none is a carriage return: the one in a string
    is escaped as [\r]. *)
Lemma dump_text_dump v lvl : json_wf v = true -> dump_text (json_dump_at lvl v).
Proof.
  revert lvl. induction v as [| b | z | s | l IH | d IH] using pyobj_nested_ind; intros lvl Hwf; cbn in Hwf.
  - cbn [json_dump_at]. dump_text_lit.
  - destruct b; cbn [json_dump_at]; dump_text_lit.
  - apply dump_text_py_str_int.
  - by apply dump_text_json_str.
  - destruct l as [|x xs]; [cbn [json_dump_at]; dump_text_lit|]. cbn [json_dump_at].
    repeat dump_text_step. apply dump_text_py_join; [by repeat dump_text_step|].
    apply Forall_fmap, Forall_forall. intros y Hy. eapply Forall_forall in IH; [|done]. apply IH.
    eapply forallb_forall; [exact Hwf | by apply list_elem_of_In].
  - apply andb_prop in Hwf as [_ Hwf]. destruct d as [|kv d']; [cbn [json_dump_at]; dump_text_lit|]. cbn [json_dump_at].
    repeat dump_text_step. apply dump_text_py_join; [by repeat dump_text_step|].
    apply Forall_fmap, Forall_forall. intros [k v] Hy. eapply Forall_forall in IH; [|done].
    eapply forallb_forall in Hwf; [|by apply list_elem_of_In]. apply andb_prop in Hwf as [Hk Hv].
    cbv beta; cbn [fst snd]. apply dump_text_app; [by apply dump_text_json_str|].
    apply dump_text_app; [dump_text_lit | by apply IH].
Qed.

Lemma dump_text_no_cr s : dump_text s -> no_cr s.
Proof. intros H. eapply Forall_impl; [exact H|]. by intros c [_ ?]. Qed.

Lemma dump_text_valid s : dump_text s -> forallb valid_char s = true.
Proof. intros Hs. apply forallb_forall. intros c Hc%list_elem_of_In. by eapply Forall_forall in Hs as [? _]. Qed.

Lemma utf8_decode_app s r :
  forallb valid_char s = true ->
  utf8_decode_strict (utf8_encode s ++ r) = t ← utf8_decode_strict r; Some (s ++ t).
Proof.
  induction s as [|c s IH]; intros Hs; [change (utf8_encode []) with (@nil Z); cbn [app]; by destruct (utf8_decode_strict r)|].
  apply andb_prop in Hs as [Hc Hs]. rewrite utf8_encode_cons, <- app_assoc, utf8_decode_char, IH by done.
  by destruct (utf8_decode_strict r).
Qed.

(** ** Witnesses *)

(** A registry with one user whose first name is ["Пр"]. *)
Definition sample_registry : pyobj :=
  PDict [(lit "users", PDict [(lit "7", PDict [(lit "first_name", PStr [1055; 1088]%Z);
                                               (lit "is_active", PBool true)])]);
         (lit "admin_messages", PDict [])].

