(* ===== verification/Database.v ===== *)
(** * The registry: [UserDatabase] of [src/database.py]

    The state of a [UserDatabase] is [self.data], its file on disk, and the
    clock that [datetime.now()] reads.  Every method is a [PyM DB]
    computation translated line by line.  Python mutates a nested object
    in place, as in [self.data["users"][k] = v] and
    [user["messages"].append(m)].  Here that is a write-back along the path
    to the mutated object.  This is exact because no two places of
    [self.data] share an object: [json.load] builds a fresh tree, and
    [add_user] builds a fresh record.

    The refinement relation [wf_db db rs] relates [self.data] to an
    abstract registry [rs]: a list of typed user records in insertion
    order.  Each method has a lemma that computes its outcome and the
    abstract registry after it.  The abstract operations on the list are
    the registry contract of the spec (§4.1): upsert, lookup, append,
    listing the active users, and set-active.  [db_frame] says what a
    call leaves alone: everything of [self.data] but its ["users"] entry,
    and the file when it held [self.data].

    The file itself is modelled twice.  The state keeps what [json.load]
    makes of it ([file_content]); [encode_file] and [decode_file] give
    the bytes, through [Json], and the section on the file's bytes shows
    that they agree on what [_save_data] writes, and what a crash in the
    middle of [_save_data] leaves; [json_wf_users_only] shows that a
    registry whose records hold characters only is a value [json.dump]
    writes faithfully. *)

From S2P Require Import Prelude PyStr PyM PyObj Json.

(** ** State *)

(** What [json.load] makes of the file on disk. *)
Inductive file_content :=
| FileJson (j : pyobj)  (** a JSON document, decoded *)
| FileMalformed         (** not JSON, e.g. empty or truncated: [JSONDecodeError] *)
| FileNotUtf8.          (** bytes that are not UTF-8: [UnicodeDecodeError] *)

(** The bytes [_save_data] writes: [json.dump(self.data, f,
    ensure_ascii=False, indent=2)] through a file opened with
    [encoding='utf-8'] (on POSIX, where ['\n'] is written as is). *)
Definition encode_file (d : pyobj) : list Z := utf8_encode (json_dump d).

(** What [open(self.db_file, 'r', encoding='utf-8')] and [json.load(f)]
    make of the bytes: the strict UTF-8 decoder, the universal newlines of
    text mode, then the JSON scanner. *)
Definition decode_file (bs : list Z) : file_content :=
  match utf8_decode_strict bs with
  | None => FileNotUtf8
  | Some s => match json_loads (universal_newlines s) with Some j => FileJson j | None => FileMalformed end
  end.

Record DB := mkDB {
  data : pyobj;                   (** [self.data] *)
  disk : option file_content;     (** the file [self.db_file], if it exists *)
  clock : pystr                   (** what [datetime.now().isoformat()] returns *)
}.

Definition set_data (d : pyobj) (db : DB) : DB := mkDB d (disk db) (clock db).

(** ** Loading and saving *)

Definition empty_data : pyobj :=
  PDict [(lit "users", PDict []); (lit "admin_messages", PDict [])].

(** [_load_data]: a missing file and a file that is not JSON both give the
    empty registry; a [UnicodeDecodeError] is not caught. *)
Definition _load_data (f : option file_content) : outcome pyobj :=
  match f with
  | None => Ok empty_data
  | Some (FileJson j) => Ok j
  | Some FileMalformed => Ok empty_data
  | Some FileNotUtf8 => Raised UnicodeDecodeError
  end.

(** [UserDatabase(db_file)] at time [now]. *)
Definition UserDatabase_init (f : option file_content) (now : pystr) : outcome DB :=
  match _load_data f with
  | Ok d => Ok (mkDB d f now)
  | Raised e => Raised e
  end.

(** [_save_data]: the whole of [self.data] replaces the file. *)
Definition _save_data : PyM DB unit :=
  modify (fun db => mkDB (data db) (Some (FileJson (data db))) (clock db)).

(** ** Methods *)

Definition now_isoformat : PyM DB pystr := fun db => (Ok (clock db), db).

Definition user_key (user_id : Z) : pystr := py_str_int user_id.

Definition opt_str (o : option pystr) : pyobj :=
  match o with Some s => PStr s | None => PNone end.

(** [self.data["users"]] *)
Definition users_dict : PyM DB pyobj := fun db => (getitem (data db) (lit "users"), db).

(** [self.data["users"][k] = v] *)
Definition set_users_item (k : pystr) (v : pyobj) : PyM DB unit :=
  users ← users_dict;
  users' ← of_outcome (setitem users k v);
  db ← get_state;
  data' ← of_outcome (setitem (data db) (lit "users") users');
  put_state (set_data data' db).

(** [add_user(user_id, username, first_name)] *)
Definition add_user (user_id : Z) (username first_name : option pystr) : PyM DB unit :=
  users ← users_dict;
  present ← of_outcome (contains users (user_key user_id));
  if (present : bool) then return_none else
  now ← now_isoformat;
  set_users_item (user_key user_id)
    (PDict [(lit "user_id", PInt user_id);
            (lit "username", opt_str username);
            (lit "first_name", opt_str first_name);
            (lit "joined_date", PStr now);
            (lit "messages", PList []);
            (lit "is_active", PBool true)]);;
  _save_data.

(** [get_user(user_id)]: the record, or None. *)
Definition get_user (user_id : Z) : PyM DB pyobj :=
  users ← users_dict;
  of_outcome (dict_get users (user_key user_id) PNone).

(** [add_message(user_id, message_text, is_from_admin)] *)
Definition add_message (user_id : Z) (message_text : pystr) (is_from_admin : bool)
  : PyM DB unit :=
  user ← get_user user_id;
  if truthy user then
    now ← now_isoformat;
    let message := PDict [(lit "text", PStr message_text);
                          (lit "timestamp", PStr now);
                          (lit "is_from_admin", PBool is_from_admin)] in
    msgs ← of_outcome (getitem user (lit "messages"));
    msgs' ← of_outcome (append msgs message);
    (* the list object [user["messages"]] is mutated in place *)
    user' ← of_outcome (setitem user (lit "messages") msgs');
    set_users_item (user_key user_id) user';;
    _save_data
  else return_none.

(** [get_user_messages(user_id)] *)
Definition get_user_messages (user_id : Z) : PyM DB pyobj :=
  user ← get_user user_id;
  if truthy user then of_outcome (getitem user (lit "messages")) else mret (M:=PyM DB) (PList []).

(** [get_all_users()]: the records whose ["is_active"] is truthy (True
    when absent), in the dict's order. *)
Definition get_all_users : PyM DB (list pyobj) :=
  users ← users_dict;
  vs ← of_outcome (values users);
  py_filter (fun user => a ← of_outcome (dict_get user (lit "is_active") (PBool true));
                         mret (truthy a)) vs.

(** The shared body of [deactivate_user] and [activate_user]:
    [if str(user_id) in self.data["users"]:
       self.data["users"][str(user_id)]["is_active"] = value; self._save_data()] *)
Definition write_is_active (user_id : Z) (value : bool) : PyM DB unit :=
  users ← users_dict;
  present ← of_outcome (contains users (user_key user_id));
  if (present : bool) then
    user ← of_outcome (getitem users (user_key user_id));
    user' ← of_outcome (setitem user (lit "is_active") (PBool value));
    set_users_item (user_key user_id) user';;
    _save_data
  else return_none.

Definition deactivate_user (user_id : Z) : PyM DB unit := write_is_active user_id false.
Definition activate_user (user_id : Z) : PyM DB unit := write_is_active user_id true.

(** ** The abstract registry *)

Record message_rec := MessageRec {
  m_text : pystr; m_timestamp : pystr; m_from_admin : bool
}.

Record user_rec := UserRec {
  u_id : Z; u_username : option pystr; u_first_name : option pystr;
  u_joined : pystr; u_messages : list message_rec; u_active : bool
}.

(** The Python objects [add_message] and [add_user] build. *)
Definition message_obj (m : message_rec) : pyobj :=
  PDict [(lit "text", PStr (m_text m)); (lit "timestamp", PStr (m_timestamp m));
         (lit "is_from_admin", PBool (m_from_admin m))].

Definition user_obj (r : user_rec) : pyobj :=
  PDict [(lit "user_id", PInt (u_id r)); (lit "username", opt_str (u_username r));
         (lit "first_name", opt_str (u_first_name r)); (lit "joined_date", PStr (u_joined r));
         (lit "messages", PList (map message_obj (u_messages r)));
         (lit "is_active", PBool (u_active r))].

Definition user_entry (r : user_rec) : pystr * pyobj := (user_key (u_id r), user_obj r).

(** The refinement relation: [self.data] is a dict whose ["users"] entry
    holds exactly the records [rs], in order, each under [str] of its own
    id, with no id twice. *)
Definition wf_db (db : DB) (rs : list user_rec) : Prop :=
  ∃ d, data db = PDict d ∧ dict_lookup (lit "users") d = Some (PDict (map user_entry rs))
       ∧ NoDup (map u_id rs).

(** The registry contract of the spec (§4.1), as an interface. *)
Class Registry (R : Type) := {
  reg_ok : R -> Prop;
  reg_find : Z -> R -> option user_rec;
  reg_upsert : Z -> option pystr -> option pystr -> pystr -> R -> R;
  reg_append : Z -> message_rec -> R -> R;
  reg_set_active : Z -> bool -> R -> R;
  reg_active : R -> list user_rec
}.

Definition fresh_user (uid : Z) (username first_name : option pystr) (now : pystr) : user_rec :=
  UserRec uid username first_name now [] true.

Definition with_message (m : message_rec) (r : user_rec) : user_rec :=
  UserRec (u_id r) (u_username r) (u_first_name r) (u_joined r) (u_messages r ++ [m]) (u_active r).

Definition with_active (b : bool) (r : user_rec) : user_rec :=
  UserRec (u_id r) (u_username r) (u_first_name r) (u_joined r) (u_messages r) b.

(** What a client of the registry may rely on. *)
Class RegistryLaws (R : Type) `{Registry R} := {
  upsert_ok uid un fn now rs : reg_ok rs -> reg_ok (reg_upsert uid un fn now rs);
  append_ok uid m rs : reg_ok rs -> reg_ok (reg_append uid m rs);
  set_active_ok uid b rs : reg_ok rs -> reg_ok (reg_set_active uid b rs);
  find_upsert_absent uid un fn now rs :
    reg_find uid rs = None -> reg_find uid (reg_upsert uid un fn now rs) = Some (fresh_user uid un fn now);
  find_upsert_present uid un fn now rs r :
    reg_find uid rs = Some r -> reg_upsert uid un fn now rs = rs;
  find_upsert_other uid uid' un fn now rs :
    uid ≠ uid' -> reg_find uid' (reg_upsert uid un fn now rs) = reg_find uid' rs;
  find_append uid m rs : reg_find uid (reg_append uid m rs) = with_message m <$> reg_find uid rs;
  find_append_other uid uid' m rs :
    uid ≠ uid' -> reg_find uid' (reg_append uid m rs) = reg_find uid' rs;
  find_set_active uid b rs : reg_find uid (reg_set_active uid b rs) = with_active b <$> reg_find uid rs;
  find_set_active_other uid uid' b rs :
    uid ≠ uid' -> reg_find uid' (reg_set_active uid b rs) = reg_find uid' rs;
  find_id uid rs r : reg_find uid rs = Some r -> u_id r = uid;
  active_spec rs r :
    reg_ok rs -> r ∈ reg_active rs <-> reg_find (u_id r) rs = Some r ∧ u_active r = true
}.

(** The list implementation, in insertion order. *)
Definition list_update (uid : Z) (f : user_rec -> user_rec) (rs : list user_rec) : list user_rec :=
  map (fun r => if (u_id r =? uid)%Z then f r else r) rs.

#[export] Instance list_registry : Registry (list user_rec) := {
  reg_ok rs := NoDup (map u_id rs);
  reg_find uid rs := List.find (fun r => (u_id r =? uid)%Z) rs;
  reg_upsert uid un fn now rs :=
    match List.find (fun r => (u_id r =? uid)%Z) rs with
    | Some _ => rs
    | None => rs ++ [fresh_user uid un fn now]
    end;
  reg_append uid m rs := list_update uid (with_message m) rs;
  reg_set_active uid b rs := list_update uid (with_active b) rs;
  reg_active rs := List.filter u_active rs
}.

(** ** The laws of the list registry *)

Section ListRegistry.
  Implicit Types (rs : list user_rec) (r : user_rec) (uid : Z).

Definition by_id uid : user_rec -> bool := fun r => (u_id r =? uid)%Z.

Lemma elem_of_map_ids r rs : r ∈ rs -> u_id r ∈ map u_id rs.
  Proof. rewrite !list_elem_of_In. apply in_map. Qed.

Lemma find_by_id_Some uid rs r :
    NoDup (map u_id rs) -> List.find (by_id uid) rs = Some r <-> r ∈ rs ∧ u_id r = uid.
  Proof.
    induction rs as [|r0 rs IH]; simpl; [split; [done | intros [Hin _]; inversion Hin]|].
    intros [Hn Hd]%NoDup_cons. unfold by_id at 1. destruct (Z.eqb_spec (u_id r0) uid) as [E|E].
    - split; [intros [= <-]; split; [left | done]|].
      intros [[->|Hin]%elem_of_cons Hid]; [done|].
      exfalso. apply Hn. rewrite E, <- Hid. by apply elem_of_map_ids.
    - rewrite IH by done. split; [intros [??]; split; [by right | done]|].
      intros [[->|Hin]%elem_of_cons Hid]; [congruence | done].
  Qed.

Lemma find_by_id_id uid rs r : List.find (by_id uid) rs = Some r -> u_id r = uid.
  Proof. intros [_ H]%find_some. by apply Z.eqb_eq. Qed.

Lemma find_by_id_app uid rs x :
    List.find (by_id uid) (rs ++ [x]) =
      match List.find (by_id uid) rs with Some r => Some r | None => if by_id uid x then Some x else None end.
  Proof. induction rs as [|r0 rs IH]; simpl; [done|]. by destruct (by_id uid r0). Qed.

  Context (f : user_rec -> user_rec) (Hf : ∀ r, u_id (f r) = u_id r).

Lemma list_update_ids uid rs : map u_id (list_update uid f rs) = map u_id rs.
  Proof using Hf.
    induction rs as [|r rs IH]; simpl; [done|]. rewrite IH. by destruct (u_id r =? uid)%Z; rewrite ?Hf.
  Qed.

Lemma find_list_update uid rs :
    List.find (by_id uid) (list_update uid f rs) = f <$> List.find (by_id uid) rs.
  Proof using Hf.
    induction rs as [|r rs IH]; simpl; [done|]. unfold by_id in *.
    destruct (Z.eqb_spec (u_id r) uid) as [E|E]; simpl; [by rewrite Hf, E, Z.eqb_refl|].
    rewrite (proj2 (Z.eqb_neq _ _) E). exact IH.
  Qed.

Lemma find_list_update_other uid uid' rs :
    uid ≠ uid' -> List.find (by_id uid') (list_update uid f rs) = List.find (by_id uid') rs.
  Proof using Hf.
    intros Hne. induction rs as [|r rs IH]; simpl; [done|]. unfold by_id in *.
    destruct (Z.eqb_spec (u_id r) uid) as [E|E]; simpl; rewrite ?Hf, ?IH; [|done].
    destruct (Z.eqb_spec (u_id r) uid'); congruence.
  Qed.
End ListRegistry.

#[export] Instance list_registry_laws : RegistryLaws (list user_rec).
Proof.
  split; cbn -[list_update].
  - intros uid un fn now rs Hd. fold (by_id uid). destruct (List.find (by_id uid) rs) eqn:E; [done|].
    rewrite map_app. apply NoDup_app. split_and!; [done| |by apply NoDup_singleton].
    intros x Hx ->%list_elem_of_singleton. simpl in Hx.
    apply list_elem_of_In, in_map_iff in Hx as [r [Hr Hin%list_elem_of_In]].
    pose proof (proj2 (find_by_id_Some (u_id r) rs r Hd) (conj Hin eq_refl)). congruence.
  - intros uid m rs. by rewrite list_update_ids.
  - intros uid b rs. by rewrite list_update_ids.
  - intros uid un fn now rs. fold (by_id uid). intros E. rewrite E, find_by_id_app, E.
    unfold by_id. simpl. by rewrite Z.eqb_refl.
  - intros uid un fn now rs r. fold (by_id uid). intros E. by rewrite E.
  - intros uid uid' un fn now rs Hne. fold (by_id uid) (by_id uid').
    destruct (List.find (by_id uid) rs); [done|]. rewrite find_by_id_app.
    destruct (List.find (by_id uid') rs); [done|]. unfold by_id. simpl.
    by destruct (Z.eqb_spec uid uid').
  - intros. by apply find_list_update.
  - intros. by apply find_list_update_other.
  - intros. by apply find_list_update.
  - intros. by apply find_list_update_other.
  - intros uid rs r. apply find_by_id_id.
  - intros rs r Hd. rewrite list_elem_of_In, filter_In, <- list_elem_of_In. fold (by_id (u_id r)).
    rewrite find_by_id_Some by done. naive_solver.
Qed.

(** ** Refinement: each method on a well-formed [self.data] *)

Lemma user_key_inj uid uid' : user_key uid = user_key uid' -> uid = uid'.
Proof. apply py_str_int_inj. Qed.

Lemma lookup_user_entries uid (rs : list user_rec) :
  dict_lookup (user_key uid) (map user_entry rs) = user_obj <$> reg_find uid rs.
Proof.
  induction rs as [|r rs IH]; simpl; [done|]. case_decide as Hk.
  - apply user_key_inj in Hk. by rewrite Hk, Z.eqb_refl.
  - destruct (Z.eqb_spec (u_id r) uid); [subst; congruence | exact IH].
Qed.

Lemma list_update_absent uid f (rs : list user_rec) : uid ∉ map u_id rs -> list_update uid f rs = rs.
Proof.
  induction rs as [|r rs IH]; simpl; [done|]. intros Hn.
  destruct (Z.eqb_spec (u_id r) uid); [set_solver|]. f_equal. set_solver.
Qed.

Lemma set_user_entries_update uid f (rs : list user_rec) r :
  NoDup (map u_id rs) -> (∀ r, u_id (f r) = u_id r) -> reg_find uid rs = Some r ->
  dict_set (user_key uid) (user_obj (f r)) (map user_entry rs) = map user_entry (list_update uid f rs).
Proof.
  intros Hd Hf. induction rs as [|r0 rs IH]; simpl; [done|].
  apply NoDup_cons in Hd as [Hn Hd]. case_decide as Hk.
  - apply user_key_inj in Hk. subst uid. rewrite Z.eqb_refl. intros [= ->].
    rewrite list_update_absent by done. unfold user_entry. by rewrite Hf.
  - destruct (Z.eqb_spec (u_id r0) uid); [subst; congruence|]. intros Hr. by rewrite IH.
Qed.

Lemma set_user_entries_absent uid v (rs : list user_rec) :
  reg_find uid rs = None -> dict_set (user_key uid) v (map user_entry rs) = map user_entry rs ++ [(user_key uid, v)].
Proof. intros H. apply dict_set_absent. by rewrite lookup_user_entries, H. Qed.

Lemma upsert_absent_eq uid un fn now (rs : list user_rec) :
  reg_find uid rs = None -> reg_upsert uid un fn now rs = rs ++ [fresh_user uid un fn now].
Proof. cbn. intros H. by rewrite H. Qed.

Definition saved (db : DB) : Prop := disk db = Some (FileJson (data db)).

Section Refinement.
  Context (db : DB) (rs : list user_rec) (Hwf : wf_db db rs).

Lemma users_dict_run : users_dict db = (Ok (PDict (map user_entry rs)), db).
  Proof using Hwf.
    destruct Hwf as (d & Hd & Hl & _). unfold users_dict. rewrite Hd. cbn [getitem]. by rewrite Hl.
  Qed.

Lemma set_users_item_run k v :
    ∃ d, data db = PDict d ∧
      set_users_item k v db =
        (Ok tt, set_data (PDict (dict_set (lit "users") (PDict (dict_set k v (map user_entry rs))) d)) db).
  Proof using Hwf.
    destruct Hwf as (d & Hd & Hl & _). exists d. split; [done|].
    unfold set_users_item. rewrite (run_bind_ok _ _ _ _ _ users_dict_run).
    cbv [mbind pym_bind of_outcome get_state put_state]. cbn [setitem]. by rewrite Hd.
  Qed.

Lemma wf_set_users_item rs' k v :
    dict_set k v (map user_entry rs) = map user_entry rs' -> NoDup (map u_id rs') ->
    ∃ db', set_users_item k v db = (Ok tt, db') ∧ wf_db db' rs' ∧ disk db' = disk db
           ∧ clock db' = clock db.
  Proof using Hwf.
    intros Hs Hd'. destruct (set_users_item_run k v) as (d & Hd & ->).
    eexists; split_and!; [done| |done|done]. eexists; split_and!; [done| |done].
    rewrite Hs. apply dict_lookup_set_eq.
  Qed.

Lemma get_user_run uid :
    get_user uid db = (Ok (default PNone (user_obj <$> reg_find uid rs)), db).
  Proof using Hwf.
    unfold get_user. rewrite (run_bind_ok _ _ _ _ _ users_dict_run).
    cbv [of_outcome]. cbn [dict_get]. rewrite lookup_user_entries. by destruct (reg_find uid rs).
  Qed.

Lemma contains_user_run uid :
    contains (PDict (map user_entry rs)) (user_key uid)
    = Ok (match reg_find uid rs with Some _ => true | None => false end).
  Proof. cbn [contains]. rewrite lookup_user_entries. by destruct (reg_find uid rs). Qed.
End Refinement.

Lemma save_data_run db : _save_data db = (Ok tt, mkDB (data db) (Some (FileJson (data db))) (clock db)).
Proof. reflexivity. Qed.

Lemma wf_db_save db rs : wf_db db rs -> wf_db (mkDB (data db) (Some (FileJson (data db))) (clock db)) rs.
Proof. done. Qed.

(** The reads change nothing, whatever [self.data] holds. *)
Lemma users_dict_pure : within eq users_dict.
Proof. intros db. reflexivity. Qed.

Lemma get_user_pure uid : within eq (get_user uid).
Proof. unfold get_user. solve_within ltac:(apply users_dict_pure). Qed.

Lemma get_all_users_pure : within eq get_all_users.
Proof. unfold get_all_users. solve_within ltac:(apply users_dict_pure). Qed.

Lemma user_obj_truthy r : truthy (user_obj r) = true.
Proof. reflexivity. Qed.

Lemma user_obj_messages r :
  getitem (user_obj r) (lit "messages") = Ok (PList (map message_obj (u_messages r))).
Proof. reflexivity. Qed.

Lemma user_obj_id r : getitem (user_obj r) (lit "user_id") = Ok (PInt (u_id r)).
Proof. reflexivity. Qed.

Lemma user_obj_first_name r : getitem (user_obj r) (lit "first_name") = Ok (opt_str (u_first_name r)).
Proof. reflexivity. Qed.

Lemma user_obj_get_username r d :
  dict_get (user_obj r) (lit "username") d = Ok (opt_str (u_username r)).
Proof. reflexivity. Qed.

Lemma user_obj_get_first_name r d :
  dict_get (user_obj r) (lit "first_name") d = Ok (opt_str (u_first_name r)).
Proof. reflexivity. Qed.

Lemma user_obj_get_joined r d : dict_get (user_obj r) (lit "joined_date") d = Ok (PStr (u_joined r)).
Proof. reflexivity. Qed.

Lemma user_obj_get_messages r d :
  dict_get (user_obj r) (lit "messages") d = Ok (PList (map message_obj (u_messages r))).
Proof. reflexivity. Qed.

Lemma user_obj_set_messages r m :
  setitem (user_obj r) (lit "messages") (PList (map message_obj (u_messages r) ++ [message_obj m]))
  = Ok (user_obj (with_message m r)).
Proof. unfold user_obj, with_message. cbn [u_messages]. rewrite List.map_app. reflexivity. Qed.

Lemma user_obj_set_active r b :
  setitem (user_obj r) (lit "is_active") (PBool b) = Ok (user_obj (with_active b r)).
Proof. reflexivity. Qed.

Lemma user_obj_is_active r :
  dict_get (user_obj r) (lit "is_active") (PBool true) = Ok (PBool (u_active r)).
Proof. reflexivity. Qed.

#[export] Hint Rewrite user_obj_truthy user_obj_messages user_obj_id user_obj_first_name
  user_obj_get_messages user_obj_get_username user_obj_get_first_name user_obj_get_joined
  user_obj_is_active : pyrw.

Lemma fresh_user_obj uid un fn now :
  PDict [(lit "user_id", PInt uid); (lit "username", opt_str un); (lit "first_name", opt_str fn);
         (lit "joined_date", PStr now); (lit "messages", PList []); (lit "is_active", PBool true)]
  = user_obj (fresh_user uid un fn now).
Proof. reflexivity. Qed.

(** The test of [get_all_users]'s comprehension, on a record that has
    an ["is_active"] key. *)
Definition is_active_flag (o : pyobj) : bool :=
  match dict_get o (lit "is_active") (PBool true) with Ok a => truthy a | Raised _ => false end.

Lemma filter_map_user_obj (rs : list user_rec) :
  List.filter is_active_flag (map user_obj rs) = map user_obj (List.filter u_active rs).
Proof.
  induction rs as [|r rs IH]; [done|]. simpl. unfold is_active_flag at 1.
  rewrite user_obj_is_active. destruct (u_active r); simpl; by rewrite IH.
Qed.

(** Rewrite a [bind] whose first computation has a known run. *)
Ltac run_step H := rewrite (run_bind_ok _ _ _ _ _ H).

Section Methods.
  Context (db : DB) (rs : list user_rec) (Hwf : wf_db db rs).

Lemma add_user_present uid un fn r :
    reg_find uid rs = Some r -> add_user uid un fn db = (Ok tt, db).
  Proof using Hwf.
    intros Hr. unfold add_user. py_unfold. py_run (users_dict_run _ _ Hwf).
    py_run contains_user_run. by rewrite Hr.
  Qed.

Lemma add_user_absent uid un fn :
    reg_find uid rs = None ->
    ∃ db', add_user uid un fn db = (Ok tt, db')
           ∧ wf_db db' (rs ++ [fresh_user uid un fn (clock db)]) ∧ saved db' ∧ clock db' = clock db.
  Proof using Hwf.
    intros Hr. pose proof Hwf as (d & _ & _ & Hd).
    destruct (wf_set_users_item db rs Hwf (rs ++ [fresh_user uid un fn (clock db)]) (user_key uid)
                (user_obj (fresh_user uid un fn (clock db)))) as (db' & Hrun & Hwf' & _ & Hc).
    { rewrite set_user_entries_absent, map_app by done. reflexivity. }
    { pose proof (upsert_ok uid un fn (clock db) rs Hd) as Hok. by rewrite upsert_absent_eq in Hok. }
    unfold add_user, now_isoformat. py_unfold. py_run (users_dict_run _ _ Hwf).
    py_run contains_user_run. rewrite Hr. py_unfold. rewrite fresh_user_obj. py_run Hrun.
    eexists. split_and!; [reflexivity | by apply wf_db_save | done | done].
  Qed.

Lemma add_user_run uid un fn :
    ∃ db', add_user uid un fn db = (Ok tt, db') ∧ wf_db db' (reg_upsert uid un fn (clock db) rs)
           ∧ clock db' = clock db ∧ (data db' = data db ∧ disk db' = disk db ∨ saved db').
  Proof using Hwf.
    destruct (reg_find uid rs) as [r|] eqn:Hr.
    - exists db. rewrite (add_user_present uid un fn r Hr), (find_upsert_present _ _ _ _ _ r Hr).
      naive_solver.
    - destruct (add_user_absent uid un fn Hr) as (db' & ? & ? & ? & ?).
      rewrite upsert_absent_eq by done. naive_solver.
  Qed.

Lemma add_message_present uid text b r :
    reg_find uid rs = Some r ->
    ∃ db', add_message uid text b db = (Ok tt, db')
           ∧ wf_db db' (reg_append uid (MessageRec text (clock db) b) rs) ∧ saved db'
           ∧ clock db' = clock db.
  Proof using Hwf.
    intros Hr. pose proof Hwf as (d & _ & _ & Hd).
    set (m := MessageRec text (clock db) b).
    destruct (wf_set_users_item db rs Hwf (reg_append uid m rs) (user_key uid)
                (user_obj (with_message m r))) as (db' & Hrun & Hwf' & _ & Hc).
    { by apply set_user_entries_update. }
    { exact (append_ok (R := list user_rec) uid m rs Hd). }
    unfold add_message, now_isoformat. py_unfold. py_run (get_user_run _ _ Hwf).
    rewrite Hr. cbn [default fmap option_fmap option_map]. unfold id. rewrite user_obj_truthy. py_unfold.
    py_run user_obj_messages. cbn [append].
    change (PDict _) with (message_obj m). py_run user_obj_set_messages. py_run Hrun.
    eexists. split_and!; [reflexivity | by apply wf_db_save | done | done].
  Qed.

Lemma add_message_absent uid text b :
    reg_find uid rs = None -> add_message uid text b db = (Ok tt, db).
  Proof using Hwf.
    intros Hr. unfold add_message. py_unfold. py_run (get_user_run _ _ Hwf). by rewrite Hr.
  Qed.

Lemma write_is_active_present uid v r :
    reg_find uid rs = Some r ->
    ∃ db', write_is_active uid v db = (Ok tt, db')
           ∧ wf_db db' (reg_set_active uid v rs) ∧ saved db' ∧ clock db' = clock db.
  Proof using Hwf.
    intros Hr. pose proof Hwf as (d & _ & _ & Hd).
    destruct (wf_set_users_item db rs Hwf (reg_set_active uid v rs) (user_key uid)
                (user_obj (with_active v r))) as (db' & Hrun & Hwf' & _ & Hc).
    { by apply set_user_entries_update. }
    { exact (set_active_ok (R := list user_rec) uid v rs Hd). }
    unfold write_is_active. py_unfold. py_run (users_dict_run _ _ Hwf).
    py_run contains_user_run. rewrite Hr. py_unfold. cbn [getitem].
    rewrite lookup_user_entries, Hr. py_unfold.
    py_run user_obj_set_active. py_run Hrun.
    eexists. split_and!; [reflexivity | by apply wf_db_save | done | done].
  Qed.

Lemma write_is_active_absent uid v :
    reg_find uid rs = None -> write_is_active uid v db = (Ok tt, db).
  Proof using Hwf.
    intros Hr. unfold write_is_active. py_unfold. py_run (users_dict_run _ _ Hwf).
    py_run contains_user_run. by rewrite Hr.
  Qed.

Lemma get_all_users_run : get_all_users db = (Ok (map user_obj (reg_active rs)), db).
  Proof using Hwf.
    unfold get_all_users. py_unfold. py_run (users_dict_run _ _ Hwf). cbn [values].
    rewrite List.map_map. change (map (fun x => snd (user_entry x)) rs) with (map user_obj rs).
    rewrite (run_py_filter_pure _ is_active_flag).
    - by rewrite filter_map_user_obj.
    - intros x Hx. apply list_elem_of_In, in_map_iff in Hx as [r [<- _]]. py_unfold.
      by rewrite user_obj_is_active.
  Qed.
End Methods.

(** ** The registry as a whole *)

(** The calls [bot.py] makes to the registry that can change it. *)
Inductive db_call :=
| CallAddUser (user_id : Z) (username first_name : option pystr)
| CallAddMessage (user_id : Z) (text : pystr) (is_from_admin : bool)
| CallDeactivate (user_id : Z)
| CallActivate (user_id : Z).

Definition run_call (c : db_call) : PyM DB unit :=
  match c with
  | CallAddUser uid un fn => add_user uid un fn
  | CallAddMessage uid t b => add_message uid t b
  | CallDeactivate uid => deactivate_user uid
  | CallActivate uid => activate_user uid
  end.

(** The abstract registry operation each call implements, at time [now]. *)
Definition abs_call (now : pystr) (c : db_call) (rs : list user_rec) : list user_rec :=
  match c with
  | CallAddUser uid un fn => reg_upsert uid un fn now rs
  | CallAddMessage uid t b => reg_append uid (MessageRec t now b) rs
  | CallDeactivate uid => reg_set_active uid false rs
  | CallActivate uid => reg_set_active uid true rs
  end.

(** After a call, either [self.data] and the file are as before, or the
    file holds exactly [self.data]. *)
Definition persisted_step (db db' : DB) : Prop :=
  (data db' = data db ∧ disk db' = disk db) ∨ saved db'.

Lemma list_update_none uid f (rs : list user_rec) :
  reg_find uid rs = None -> list_update uid f rs = rs.
Proof.
  intros H. apply list_update_absent. intros Hin.
  apply list_elem_of_In, in_map_iff in Hin as [r [Hid Hin]].
  cbn in H. eapply find_none in H; [|exact Hin]. rewrite Hid, Z.eqb_refl in H. done.
Qed.

Lemma run_call_refines db rs c :
  wf_db db rs ->
  ∃ db', run_call c db = (Ok tt, db') ∧ wf_db db' (abs_call (clock db) c rs)
         ∧ clock db' = clock db ∧ persisted_step db db'.
Proof.
  intros Hwf. unfold persisted_step.
  destruct c as [uid un fn|uid t b|uid|uid]; simpl.
  - destruct (add_user_run db rs Hwf uid un fn) as (db' & ?&?&?&?). naive_solver.
  - destruct (reg_find uid rs) as [r|] eqn:Hr.
    + destruct (add_message_present db rs Hwf uid t b r Hr) as (db' & ?&?&?&?). naive_solver.
    + exists db. rewrite add_message_absent with (rs := rs) by done.
      cbn [reg_append list_registry]. rewrite list_update_none by done. naive_solver.
  - destruct (reg_find uid rs) as [r|] eqn:Hr.
    + destruct (write_is_active_present db rs Hwf uid false r Hr) as (db' & ?&?&?&?). naive_solver.
    + exists db. unfold deactivate_user. rewrite write_is_active_absent with (rs := rs) by done.
      cbn [reg_set_active list_registry]. rewrite list_update_none by done. naive_solver.
  - destruct (reg_find uid rs) as [r|] eqn:Hr.
    + destruct (write_is_active_present db rs Hwf uid true r Hr) as (db' & ?&?&?&?). naive_solver.
    + exists db. unfold activate_user. rewrite write_is_active_absent with (rs := rs) by done.
      cbn [reg_set_active list_registry]. rewrite list_update_none by done. naive_solver.
Qed.

(** ** What a registry call changes of [self.data]

    Only the ["users"] entry: [users_only db db'] says that [self.data]
    is unchanged, or is the dict it was with ["users"] set to a new
    value.  [db_frame] adds that a saved file stays saved. *)
Definition users_only (db db' : DB) : Prop :=
  data db' = data db ∨ ∃ d u, data db = PDict d ∧ data db' = PDict (dict_set (lit "users") u d).

#[export] Instance users_only_preorder : PreOrder users_only.
Proof.
  split; [by left|]. intros db1 db2 db3 [H12|(d & u & H1 & H2)] [H23|(d' & u' & H2' & H3)].
  - left. congruence.
  - right. rewrite H12 in H2'. eauto.
  - right. rewrite H23. eauto.
  - right. rewrite H2' in H2. injection H2 as ->. exists d, u'. by rewrite H3, dict_set_set.
Qed.

Lemma within_users_only_pure {A} (m : PyM DB A) : (∀ db, data (snd (m db)) = data db) -> within users_only m.
Proof. intros H db. left. apply H. Qed.

Lemma within_users_only_set_users_item k v : within users_only (set_users_item k v).
Proof.
  intros db. unfold set_users_item, users_dict. py_unfold.
  destruct (getitem (data db) (lit "users")) as [u|]; [|reflexivity]. cbn.
  destruct (setitem u k v) as [u'|]; [|reflexivity]. cbn.
  destruct (data db) as [| | | | |d] eqn:Hd; try reflexivity. cbn. right. eauto.
Qed.

Lemma within_users_only_save : within users_only _save_data.
Proof. by apply within_users_only_pure. Qed.

Ltac users_only_step := idtac;
  match goal with
  | |- within _ (set_users_item _ _) => apply within_users_only_set_users_item
  | |- within _ _save_data => apply within_users_only_save
  | |- within _ (get_user _) => unfold get_user
  | |- within _ _ => apply within_users_only_pure; intros; reflexivity
  end.

Lemma within_users_only_run_call c : within users_only (run_call c).
Proof.
  destruct c; cbn [run_call]; unfold add_user, add_message, deactivate_user, activate_user, write_is_active;
    cbv zeta; solve_within users_only_step.
Qed.

Definition db_frame (db db' : DB) : Prop := users_only db db' ∧ (saved db -> saved db').

#[export] Instance db_frame_preorder : PreOrder db_frame.
Proof. split; [done|]. intros db1 db2 db3 [? ?] [? ?]. split; [by etrans | auto]. Qed.

Lemma run_call_frame db rs c : wf_db db rs -> db_frame db (snd (run_call c db)).
Proof.
  intros Hwf. split; [apply within_users_only_run_call|].
  destruct (run_call_refines db rs c Hwf) as (db' & -> & _ & _ & [[Hd Hk] | Hs]); [|done].
  unfold saved. cbn. by rewrite Hd, Hk.
Qed.

Lemma wf_db_init_empty now : wf_db (mkDB empty_data None now) [].
Proof. exists [(lit "users", PDict []); (lit "admin_messages", PDict [])]. split_and!; [done|done|constructor]. Qed.

Lemma wf_db_nil_unique db rs : wf_db db [] -> wf_db db rs -> rs = [].
Proof.
  intros (d & Hd & Hl & _) (d' & Hd' & Hl' & _). rewrite Hd in Hd'. injection Hd' as ->.
  rewrite Hl in Hl'. injection Hl' as Hm. by destruct rs.
Qed.

(** A concrete registry for the witnesses: one active user, id 7. *)
Definition sample_user : user_rec :=
  UserRec 7 (Some (lit "ann")) (Some (lit "Ann")) (lit "2024-01-01T00:00:00") [] true.

(** The state [add_user] and friends build from an empty file. *)
Definition registry_db (rs : list user_rec) : DB :=
  mkDB (PDict [(lit "users", PDict (map user_entry rs)); (lit "admin_messages", PDict [])])
       None (lit "2024-01-02T00:00:00").

Definition sample_db : DB := registry_db [sample_user].

(** Prove [wf_db] of a concrete state by computation. *)
Ltac solve_wf_db :=
  eexists; split_and!; [reflexivity | vm_compute; reflexivity | repeat constructor; set_solver].

(** ** Properties of the registry *)

(** C2 (refinement): every call [bot.py] makes to the registry, on a
    well-formed [self.data], returns normally and implements the abstract
    registry operation: upsert, append, or set-active.  It keeps the
    invariant, and either leaves [self.data] and the file as they were or
    writes the file so that it holds exactly [self.data]. *)
Theorem registry_call_refines db rs c :
  wf_db db rs ->
  ∃ db', run_call c db = (Ok tt, db') ∧ wf_db db' (abs_call (clock db) c rs) ∧ persisted_step db db'.
Proof.
  intros Hwf. destruct (run_call_refines db rs c Hwf) as (db' & ? & ? & _ & ?). eauto.
Qed.

Lemma registry_call_refines_witness :
  wf_db sample_db [sample_user] ∧
  ∃ db', run_call (CallAddMessage 7 (lit "hi") false) sample_db = (Ok tt, db')
         ∧ wf_db db' (abs_call (clock sample_db) (CallAddMessage 7 (lit "hi") false) [sample_user])
         ∧ persisted_step sample_db db'.
Proof.
  assert (H : wf_db sample_db [sample_user]) by solve_wf_db.
  split; [exact H | exact (registry_call_refines sample_db [sample_user] _ H)].
Defined.

(** C16 (functional): [add_user] is an idempotent upsert.  Twice with the
    same id gives one record.  The second call changes nothing, neither
    [self.data] nor the file, so [joined_date], [username] and
    [first_name] keep their first values. *)
Theorem upsert_idempotent db rs uid un fn un' fn' :
  wf_db db rs ->
  ∃ db1, add_user uid un fn db = (Ok tt, db1) ∧ add_user uid un' fn' db1 = (Ok tt, db1)
         ∧ wf_db db1 (reg_upsert uid un fn (clock db) rs)
         ∧ reg_find uid (reg_upsert uid un fn (clock db) rs)
           = Some (default (fresh_user uid un fn (clock db)) (reg_find uid rs)).
Proof.
  intros Hwf. pose proof Hwf as (d & _ & _ & Hd).
  destruct (add_user_run db rs Hwf uid un fn) as (db1 & Hrun & Hwf1 & _ & _).
  exists db1. split_and!; [done| |done|].
  - destruct (reg_find uid rs) as [r|] eqn:Hr.
    + eapply add_user_present; [exact Hwf1|]. by rewrite (find_upsert_present _ _ _ _ _ r Hr).
    + eapply add_user_present; [exact Hwf1|]. by rewrite find_upsert_absent.
  - destruct (reg_find uid rs) as [r|] eqn:Hr.
    + by rewrite (find_upsert_present _ _ _ _ _ r Hr), Hr.
    + by rewrite find_upsert_absent.
Qed.

Lemma upsert_idempotent_witness :
  wf_db sample_db [sample_user] ∧
  ∃ db1, add_user 9 None (Some (lit "Bo")) sample_db = (Ok tt, db1)
         ∧ add_user 9 (Some (lit "x")) None db1 = (Ok tt, db1)
         ∧ wf_db db1 (reg_upsert 9 None (Some (lit "Bo")) (clock sample_db) [sample_user])
         ∧ reg_find 9 (reg_upsert 9 None (Some (lit "Bo")) (clock sample_db) [sample_user])
           = Some (default (fresh_user 9 None (Some (lit "Bo")) (clock sample_db))
                           (reg_find 9 [sample_user])).
Proof.
  assert (H : wf_db sample_db [sample_user]) by solve_wf_db.
  split; [exact H | exact (upsert_idempotent sample_db [sample_user] 9 _ _ _ _ H)].
Defined.

(** C15 (functional): [add_message] on a known user appends exactly one
    message with [timestamp = now], keeps the earlier messages in order,
    leaves every other user as it was, and writes the file.  On an
    unknown id it returns normally and changes nothing: the code raises
    no [NotFound]. *)
Theorem add_message_spec db rs uid text b :
  wf_db db rs ->
  match reg_find uid rs with
  | Some r =>
    ∃ db' rs', add_message uid text b db = (Ok tt, db') ∧ wf_db db' rs' ∧ saved db'
      ∧ reg_find uid rs' = Some (with_message (MessageRec text (clock db) b) r)
      ∧ (∀ uid', uid' ≠ uid -> reg_find uid' rs' = reg_find uid' rs)
  | None => add_message uid text b db = (Ok tt, db)
  end.
Proof.
  intros Hwf. destruct (reg_find uid rs) as [r|] eqn:Hr.
  - destruct (add_message_present db rs Hwf uid text b r Hr) as (db' & Hrun & Hwf' & Hs & _).
    exists db', (reg_append uid (MessageRec text (clock db) b) rs). split_and!; [done..| |].
    + by rewrite find_append, Hr.
    + intros uid' Hne. by apply find_append_other.
  - by apply (add_message_absent db rs).
Qed.

Lemma add_message_spec_witness :
  wf_db sample_db [sample_user] ∧
  match reg_find 7 [sample_user] with
  | Some r =>
    ∃ db' rs', add_message 7 (lit "hello") false sample_db = (Ok tt, db') ∧ wf_db db' rs' ∧ saved db'
      ∧ reg_find 7 rs' = Some (with_message (MessageRec (lit "hello") (clock sample_db) false) r)
      ∧ (∀ uid' : Z, uid' ≠ 7%Z -> reg_find uid' rs' = reg_find uid' [sample_user])
  | None => add_message 7 (lit "hello") false sample_db = (Ok tt, sample_db)
  end.
Proof.
  assert (H : wf_db sample_db [sample_user]) by solve_wf_db.
  split; [exact H | exact (add_message_spec sample_db [sample_user] 7 (lit "hello") false H)].
Defined.

(** C17 (functional): [get_all_users] returns the records whose
    ["is_active"] is true, in insertion order (creation order), and
    changes nothing.  A record is listed exactly when it is the
    registered record of its id and is active. *)
Theorem get_all_users_active_in_order db rs :
  wf_db db rs ->
  get_all_users db = (Ok (map user_obj (List.filter u_active rs)), db)
  ∧ ∀ r, r ∈ reg_active rs <-> reg_find (u_id r) rs = Some r ∧ u_active r = true.
Proof.
  intros Hwf. pose proof Hwf as (d & _ & _ & Hd). split.
  - exact (get_all_users_run db rs Hwf).
  - intros r. by apply active_spec.
Qed.

Lemma get_all_users_active_in_order_witness :
  wf_db sample_db [sample_user] ∧
  (get_all_users sample_db = (Ok (map user_obj (List.filter u_active [sample_user])), sample_db)
   ∧ ∀ r, r ∈ reg_active [sample_user] <-> reg_find (u_id r) [sample_user] = Some r ∧ u_active r = true).
Proof.
  assert (H : wf_db sample_db [sample_user]) by solve_wf_db.
  split; [exact H | exact (get_all_users_active_in_order sample_db [sample_user] H)].
Defined.

(** C18 (functional): [deactivate_user] and [activate_user] set the flag
    of a known user, leave the other users as they were, and write the
    file.  Setting the flag to its current value still writes.  On an
    unknown id they return normally and change nothing. *)
Theorem set_active_spec db rs uid (value : bool) :
  wf_db db rs ->
  let call := if value then activate_user uid else deactivate_user uid in
  match reg_find uid rs with
  | Some r =>
    ∃ db' rs', call db = (Ok tt, db') ∧ wf_db db' rs' ∧ saved db'
      ∧ reg_find uid rs' = Some (with_active value r)
      ∧ (∀ uid', uid' ≠ uid -> reg_find uid' rs' = reg_find uid' rs)
  | None => call db = (Ok tt, db)
  end.
Proof.
  intros Hwf call.
  assert (Hc : call = write_is_active uid value) by (subst call; by destruct value).
  rewrite Hc. destruct (reg_find uid rs) as [r|] eqn:Hr.
  - destruct (write_is_active_present db rs Hwf uid value r Hr) as (db' & Hrun & Hwf' & Hs & _).
    exists db', (reg_set_active uid value rs). split_and!; [done..| |].
    + by rewrite find_set_active, Hr.
    + intros uid' Hne. by apply find_set_active_other.
  - by apply (write_is_active_absent db rs).
Qed.

Lemma set_active_spec_witness :
  wf_db sample_db [sample_user] ∧
  match reg_find 7 [sample_user] with
  | Some r =>
    ∃ db' rs', deactivate_user 7 sample_db = (Ok tt, db') ∧ wf_db db' rs' ∧ saved db'
      ∧ reg_find 7 rs' = Some (with_active false r)
      ∧ (∀ uid' : Z, uid' ≠ 7%Z -> reg_find uid' rs' = reg_find uid' [sample_user])
  | None => deactivate_user 7 sample_db = (Ok tt, sample_db)
  end.
Proof.
  assert (H : wf_db sample_db [sample_user]) by solve_wf_db.
  split; [exact H | exact (set_active_spec sample_db [sample_user] 7 false H)].
Defined.

(** If the file holds [self.data] before a registry call,
    it holds [self.data] after it too.  Restarting the bot then
    ([UserDatabase(db_file)]) loads exactly the registry the call
    produced. *)
Theorem restart_reproduces_registry db rs c now :
  wf_db db rs -> saved db ->
  ∃ db', run_call c db = (Ok tt, db') ∧ saved db'
    ∧ ∃ db0, UserDatabase_init (disk db') now = Ok db0 ∧ wf_db db0 (abs_call (clock db) c rs).
Proof.
  intros Hwf Hs. destruct (run_call_refines db rs c Hwf) as (db' & Hrun & Hwf' & _ & Hp).
  assert (Hs' : saved db').
  { destruct Hp as [[Hd Hk] | Hs']; [|done]. unfold saved in *. by rewrite Hk, Hs, Hd. }
  exists db'. split_and!; [done | done |]. rewrite Hs'. eexists; split; [reflexivity|].
  destruct Hwf' as (d & ? & ? & ?). by exists d.
Qed.

(** [_load_data] at start-up.  A missing file and a file that
    is not JSON (for instance a truncated one) both give the empty
    registry.  A JSON document is taken as it is, whatever its shape.  A
    file that is not UTF-8 raises [UnicodeDecodeError], which
    [_load_data] does not catch, so [UserDatabase(db_file)] fails. *)
Lemma load_policy f now :
  match f with
  | None | Some FileMalformed => ∃ db0, UserDatabase_init f now = Ok db0 ∧ wf_db db0 []
  | Some (FileJson j) => UserDatabase_init f now = Ok (mkDB j f now)
  | Some FileNotUtf8 => UserDatabase_init f now = Raised UnicodeDecodeError
  end.
Proof.
  destruct f as [[j| |]|]; try reflexivity;
    (eexists; split; [reflexivity | eexists; split_and!; [reflexivity|reflexivity|constructor]]).
Qed.

(** ** The file's bytes *)

Lemma utf8_encode_char_length c : (128 <= c)%Z -> 2 <= length (utf8_encode_char c).
Proof. intros Hc. unfold utf8_encode_char. repeat case_match; rewrite ?Z.ltb_lt, ?Z.ltb_ge in *; cbn; lia. Qed.

Lemma decode_file_text bs s :
  utf8_decode_strict bs = Some s -> no_cr s -> decode_file bs = match json_loads s with Some j => FileJson j | None => FileMalformed end.
Proof. intros Hd Hs. unfold decode_file. by rewrite Hd, universal_newlines_id. Qed.

(** The bytes of [encode_file d] decode to [d]. *)
Lemma decode_encode_file d : json_wf d = true -> decode_file (encode_file d) = FileJson d.
Proof.
  intros Hwf. pose proof (dump_text_dump d 0 Hwf) as Ht. unfold encode_file, json_dump.
  rewrite (decode_file_text _ (json_dump_at 0 d)); [|by apply utf8_roundtrip, dump_text_valid | by apply dump_text_no_cr].
  by rewrite (json_loads_dump d Hwf : json_loads (json_dump_at 0 d) = Some d).
Qed.

(** C32 (roundtrip): the file [_save_data] writes loads back as the
    registry it saved: [json.load] after [json.dump] and the UTF-8 codec
    gives [self.data] again, for every value of the registry's shape. *)
Theorem save_load_roundtrip d : json_wf d = true -> decode_file (encode_file d) = FileJson d.
Proof. apply decode_encode_file. Qed.

(** ** Which registries [json.dump] writes faithfully

    [json.dump] writes a lone surrogate as it is, and the UTF-8 file then
    refuses it: the round trip holds for strings of valid characters.
    [rec_valid] says that every string of a record is one. *)
Definition opt_valid (o : option pystr) : bool := match o with Some s => forallb valid_char s | None => true end.

Definition msg_valid (m : message_rec) : bool := forallb valid_char (m_text m) && forallb valid_char (m_timestamp m).

Definition rec_valid (r : user_rec) : bool :=
  opt_valid (u_username r) && opt_valid (u_first_name r) && forallb valid_char (u_joined r)
  && forallb msg_valid (u_messages r).

Lemma json_wf_dict_intro d :
  NoDup (map fst d) -> Forall (fun kv => forallb valid_char kv.1 = true ∧ json_wf kv.2 = true) d ->
  json_wf (PDict d) = true.
Proof.
  intros Hnd Hd. cbn [json_wf]. apply andb_true_intro. split; [by apply bool_decide_eq_true_2|].
  apply forallb_forall. intros kv Hkv%list_elem_of_In. eapply Forall_forall in Hd as [H1 H2]; [|done].
  by rewrite H1, H2.
Qed.

Ltac json_wf_keys := apply (bool_decide_unpack _); vm_compute; exact I.

Lemma json_wf_message_obj m : msg_valid m = true -> json_wf (message_obj m) = true.
Proof.
  destruct m as [t ts b]. unfold msg_valid. cbn [m_text m_timestamp]. intros [Ht Hts]%andb_prop.
  apply json_wf_dict_intro; [json_wf_keys|]. repeat constructor; done.
Qed.

Lemma json_wf_opt_str o : json_wf (opt_str o) = opt_valid o.
Proof. by destruct o. Qed.

Lemma json_wf_user_obj r : rec_valid r = true -> json_wf (user_obj r) = true.
Proof.
  unfold rec_valid. intros H. repeat (apply andb_prop in H as [H ?]).
  apply json_wf_dict_intro; [json_wf_keys|]. repeat constructor; cbn [fst snd]; rewrite ?json_wf_opt_str; try done.
  cbn [json_wf]. apply forallb_forall. intros x (m & <- & Hm)%in_map_iff.
  apply json_wf_message_obj. eapply forallb_forall; eassumption.
Qed.

Lemma json_wf_users rs :
  NoDup (map u_id rs) -> forallb rec_valid rs = true -> json_wf (PDict (map user_entry rs)) = true.
Proof.
  intros Hnd Hv. apply json_wf_dict_intro.
  - rewrite map_map. cbn. rewrite <- (map_map u_id user_key). revert Hnd. generalize (map u_id rs).
    induction 1 as [|x l Hx _ IH]; constructor; [|done].
    intros Hin%list_elem_of_In. apply in_map_iff in Hin as (y & Hy%user_key_inj & Hin). subst.
    by apply Hx, list_elem_of_In.
  - apply Forall_fmap, Forall_forall. intros r Hr. split; [apply dump_text_valid, dump_text_py_str_int|].
    apply json_wf_user_obj. eapply forallb_forall; [exact Hv | by apply list_elem_of_In].
Qed.

Lemma json_wf_dict_set k v d :
  json_wf (PDict d) = true -> forallb valid_char k = true -> json_wf v = true ->
  json_wf (PDict (dict_set k v d)) = true.
Proof.
  cbn [json_wf]. intros [Hnd Hd]%andb_prop Hk Hv. apply andb_true_intro. split.
  { apply bool_decide_eq_true_2. apply dict_set_NoDup. by apply bool_decide_eq_true_1 in Hnd. }
  clear Hnd. induction d as [|[k' v'] d IH]; cbn; [by rewrite Hk, Hv|].
  cbn in Hd. apply andb_prop in Hd as [H1 H2]. case_decide; cbn; rewrite ?Hv, ?H1, ?IH; try done.
  subst. apply andb_prop in H1 as [-> _]. done.
Qed.

(** A registry call keeps [self.data] a value [json.dump] writes
    faithfully, as long as the records it leaves are valid. *)
Lemma json_wf_users_only db db' rs' :
  users_only db db' -> json_wf (data db) = true -> wf_db db' rs' -> forallb rec_valid rs' = true ->
  json_wf (data db') = true.
Proof.
  intros [-> | (d & u & Hd & Hd')] Hj (d' & Hd'' & Hl & Hnd) Hv; [done|].
  rewrite Hd'' in Hd'. injection Hd' as ->. rewrite dict_lookup_set_eq in Hl. injection Hl as ->.
  rewrite Hd''. rewrite Hd in Hj. apply json_wf_dict_set; [done | reflexivity | by apply json_wf_users].
Qed.

(** No crash point of [_save_data] leaves a file that loads: every
    proper prefix of the bytes of a registry is either not UTF-8 or not
    JSON. *)
Lemma crash_never_loads d k j :
  json_wf (PDict d) = true -> k < length (encode_file (PDict d)) ->
  decode_file (take k (encode_file (PDict d))) ≠ FileJson j.
Proof.
  intros Hwf Hk. pose proof (dump_text_dump (PDict d) 0 Hwf) as Ht.
  destruct (utf8_prefix (json_dump (PDict d)) (take k (encode_file (PDict d))) (drop k (encode_file (PDict d))))
    as [(s1 & s2 & Hs & Hb & Hd) | Hd]; [by apply dump_text_valid | by rewrite take_drop | |by unfold decode_file; rewrite Hd].
  assert (Hs2 : s2 ≠ []).
  { intros ->. rewrite app_nil_r in Hs. pose proof (f_equal length Hb) as Hl.
    unfold encode_file in Hk, Hl. rewrite <- Hs, length_take in Hl. lia. }
  unfold json_dump in Hs. rewrite Hs in Ht. apply Forall_app in Ht as [Ht1 _].
  rewrite (decode_file_text _ s1 Hd (dump_text_no_cr _ Ht1)), (json_loads_prefix d s1 s2); done.
Qed.

(** C33 (error): a crash in the middle of a character that UTF-8 writes
    in several bytes leaves a file that [_load_data] does not catch:
    [UserDatabase] raises [UnicodeDecodeError], and the bot cannot start
    until the file is removed by hand. *)
Theorem crash_mid_char_raises d c now :
  json_wf d = true -> c ∈ json_dump d -> (128 <= c)%Z ->
  ∃ k, k < length (encode_file d) ∧
       UserDatabase_init (Some (decode_file (take k (encode_file d)))) now = Raised UnicodeDecodeError.
Proof.
  intros Hwf Hc Hbig. pose proof (dump_text_dump d 0 Hwf) as Ht.
  apply list_elem_of_split in Hc as (s1 & s2 & Hs). unfold json_dump in Hs. rewrite Hs in Ht.
  apply Forall_app in Ht as [Ht1 [[Hcv _] Ht2]%Forall_cons].
  pose proof (utf8_encode_char_length c Hbig) as Hlen.
  exists (length (utf8_encode s1) + 1).
  unfold encode_file, json_dump. rewrite Hs, utf8_encode_app, utf8_encode_cons, length_app, length_app.
  split; [lia|]. rewrite take_app_add, take_app_le by lia.
  unfold decode_file. rewrite utf8_decode_app, utf8_cut; [done | done | lia | by apply dump_text_valid].
Qed.

(** ** Witnesses of the file's bytes *)

Lemma save_load_roundtrip_witness :
  json_wf sample_registry = true ∧ decode_file (encode_file sample_registry) = FileJson sample_registry.
Proof.
  assert (H : json_wf sample_registry = true) by reflexivity.
  split; [exact H | exact (save_load_roundtrip _ H)].
Defined.

Lemma crash_mid_char_raises_witness :
  json_wf sample_registry = true ∧ 1055%Z ∈ json_dump sample_registry ∧ (128 <= 1055)%Z ∧
  ∃ k, k < length (encode_file sample_registry) ∧
       UserDatabase_init (Some (decode_file (take k (encode_file sample_registry)))) (lit "2024-01-01")
       = Raised UnicodeDecodeError.
Proof.
  assert (H1 : json_wf sample_registry = true) by reflexivity.
  assert (H2 : 1055%Z ∈ json_dump sample_registry) by (apply (bool_decide_unpack _); vm_compute; exact I).
  assert (H3 : (128 <= 1055)%Z) by lia.
  split_and!; [exact H1 | exact H2 | exact H3 | exact (crash_mid_char_raises _ _ _ H1 H2 H3)].
Defined.
