(* ===== verification/Telegram.v ===== *)
(** * The transport collaborator: python-telegram-bot

    The Telegram library is not part of the repository, so this file
    models it from the spec (§6): the updates the handlers receive, the
    API requests they make, and a delivery oracle.  The oracle says, for
    the n-th request of the bot's lifetime, whether Telegram accepts it
    or raises a [TelegramError] with a given text.  It is a parameter of
    every theorem, so the theorems hold whichever requests fail.

    The state the handlers share is a [world].  It holds the registry
    [db], the global [admin_current_chat] of [bot.py], and the log of
    every request the bot attempted, each with whether it was
    delivered; [log_grows] orders worlds by that log.  It also holds the
    records the logging handler has written ([w_err]), to which
    [logger_error] appends what [logger.error] emits.  [command_args]
    is the library's [context.args]: [message.text.split()[1:]]. *)

From S2P Require Import Prelude PyStr PyM PyObj Database Logging.

(** [update.effective_user] *)
Record tg_user := TgUser {
  tu_id : Z; tu_username : option pystr; tu_first_name : pystr
}.

(** [update.message]: its chat, and its text or caption (None when
    absent, for instance a photo without caption). *)
Record tg_message := TgMessage {
  tm_chat : Z; tm_text : option pystr; tm_caption : option pystr
}.

(** An update as [Application] routes it: a command message ([/name args],
    [context.args] being the words after the command), another message,
    or a button press ([update.callback_query] with its [data]). *)
Inductive update :=
| UCommand (from : tg_user) (msg : tg_message) (name : pystr) (args : list pystr)
| UMessage (from : tg_user) (msg : tg_message)
| UCallback (from : tg_user) (chat : Z) (data : pystr).

(** The Bot API requests the handlers make. *)
Inductive request :=
| SendMessage (chat_id : pyobj) (text : pystr)
| ReplyText (chat_id : Z) (text : pystr)
| ReplyKeyboard (chat_id : Z) (text : pystr) (buttons : list (pystr * pystr))
| AnswerCallback (chat_id : Z)
| EditMessageText (chat_id : Z) (text : pystr).

Record world := World {
  w_db : DB;
  admin_current_chat : option Z;
  w_log : list (request * bool);
  w_net : nat -> option pystr;
  w_err : list log_record
}.


(** Whether the n-th request is delivered. *)
Definition delivered (net : nat -> option pystr) (n : nat) : bool :=
  match net n with None => true | Some _ => false end.

(** The text of the [TelegramError] the n-th request raises. *)
Definition net_error (net : nat -> option pystr) (n : nat) : pystr := default [] (net n).

Definition set_db (d : DB) (w : world) : world :=
  World d (admin_current_chat w) (w_log w) (w_net w) (w_err w).

Definition db_lens : lens world DB := Lens w_db set_db.

(** A call of a [UserDatabase] method from a handler. *)
Definition db_op {A} (m : PyM DB A) : PyM world A := zoom db_lens m.

(** [await bot.<request>]: logged; raises [TelegramError] when the oracle
    says so. *)
Definition api_call (r : request) : PyM world unit :=
  fun w =>
    let n := length (w_log w) in
    let w' := World (w_db w) (admin_current_chat w) (w_log w ++ [(r, delivered (w_net w) n)]) (w_net w) (w_err w) in
    match w_net w n with
    | None => (Ok tt, w')
    | Some msg => (Raised (TelegramError msg), w')
    end.

(** [logger.error(msg)] of [bot.py]'s [logger]: the record goes to the
    root's handler when [ERROR] is enabled, which [basicConfig] makes it. *)
Definition logger_error (msg : pystr) : PyM world unit :=
  modify (fun w => World (w_db w) (admin_current_chat w) (w_log w) (w_net w)
                     (log_emit bot_log_config (LogRecord logger_name ERROR msg None) (w_err w))).

(** A newline, which Rocq string literals cannot write. *)
Definition nl : pystr := [10%Z].

(** Python's [a or b] on an optional str: the first truthy one. *)
Definition str_or (a : option pystr) (b : pystr) : pystr :=
  match a with Some s => if bool_decide (s = []) then b else s | None => b end.

#[export] Instance db_lens_laws : LensLaws db_lens.
Proof. split; by intros [] *. Qed.

Lemma set_db_id w : set_db (w_db w) w = w.
Proof. by destruct w. Qed.

Lemma db_op_run {A} (m : PyM DB A) w r d' :
  m (w_db w) = (r, d') -> db_op m w = (r, set_db d' w).
Proof. intros H. unfold db_op, zoom. simpl. by rewrite H. Qed.

Lemma api_call_run r w :
  api_call r w =
    ((if delivered (w_net w) (length (w_log w)) then Ok tt
      else Raised (TelegramError (net_error (w_net w) (length (w_log w))))),
     World (w_db w) (admin_current_chat w)
       (w_log w ++ [(r, delivered (w_net w) (length (w_log w)))]) (w_net w) (w_err w)).
Proof. unfold api_call, delivered, net_error. by destruct (w_net w (length (w_log w))). Qed.

Lemma logger_error_run msg w :
  logger_error msg w =
    (Ok tt, World (w_db w) (admin_current_chat w) (w_log w) (w_net w)
              (w_err w ++ [LogRecord logger_name ERROR msg None])).
Proof. reflexivity. Qed.

Lemma length_app_single {A} (l : list A) x : length (l ++ [x]) = S (length l).
Proof. rewrite length_app. simpl. lia. Qed.

(** Reduce the projections of a world built by a step. *)
Ltac world_simpl :=
  cbn [w_db w_log w_net w_err admin_current_chat set_db] in *;
  rewrite <- ?app_assoc; cbn [app];
  rewrite ?length_app; cbn [length]; rewrite ?Nat.add_succ_r, ?Nat.add_0_r.

(** [same_db w w']: the registry and its file are those of [w]. *)
Definition same_db (w w' : world) : Prop := w_db w' = w_db w.

#[export] Instance same_db_preorder : PreOrder same_db.
Proof. split; [done|]. intros w1 w2 w3 H12 H23. unfold same_db in *. congruence. Qed.

Lemma same_db_api_call r : within same_db (api_call r).
Proof. intros w. rewrite api_call_run. by destruct (delivered _ _). Qed.

Lemma same_db_logger_error msg : within same_db (logger_error msg).
Proof. intros w. reflexivity. Qed.

Lemma same_db_db_op {A} (m : PyM DB A) : within eq m -> within same_db (db_op m).
Proof. intros Hm w. unfold db_op, zoom, same_db. simpl. specialize (Hm (w_db w)). by destruct (m (w_db w)). Qed.

(** A computation that keeps the registry keeps its abstraction. *)
Lemma same_db_wf {A} (m : PyM world A) w rs :
  within same_db m -> wf_db (w_db w) rs ->
  wf_db (w_db (snd (m w))) rs ∧ clock (w_db (snd (m w))) = clock (w_db w).
Proof. intros Hm Hwf. by rewrite (Hm w). Qed.

(** [log_grows w w']: the requests of [w] begin the requests of [w']. *)
Definition log_grows (w w' : world) : Prop := w_log w `prefix_of` w_log w'.

#[export] Instance log_grows_preorder : PreOrder log_grows.
Proof. unfold log_grows. split; [intros ?; done | intros ??? ??; by etrans]. Qed.

Lemma log_grows_api_call r : within log_grows (api_call r).
Proof. intros w. rewrite api_call_run. unfold log_grows. simpl. by eexists. Qed.

Lemma log_grows_logger_error msg : within log_grows (logger_error msg).
Proof. intros w. unfold log_grows. by rewrite logger_error_run. Qed.

Lemma log_grows_db_op {A} (m : PyM DB A) : within log_grows (db_op m).
Proof. intros w. unfold db_op, zoom, log_grows. simpl. by destruct (m (w_db w)). Qed.

(** What runs after [m] only adds requests to those [m] made. *)
Lemma log_grows_bind_after {A B} w0 (m : PyM world A) (k : A -> PyM world B) w :
  log_grows w0 (snd (m w)) -> (∀ a, within log_grows (k a)) -> log_grows w0 (snd ((x ← m; k x) w)).
Proof.
  intros H0 Hk. cbv [mbind pym_bind]. destruct (m w) as [[a|e] w1]; [|done].
  etrans; [exact H0 | apply Hk].
Qed.

Lemma log_grows_try_after {A} w0 (m : PyM world A) c h w :
  log_grows w0 (snd (m w)) -> (∀ e, within log_grows (h e)) -> log_grows w0 (snd (try_except m c h w)).
Proof.
  intros H0 Hh. unfold try_except. destruct (m w) as [[a|e] w1]; [done|].
  destruct (c e); [etrans; [exact H0 | apply Hh] | done].
Qed.

(** python-telegram-bot's [context.args] for a command message:
    [message.text.split()[1:]]. *)
Definition command_args (text : pystr) : list pystr := tail (py_split_ws text).

(** The global [admin_current_chat], as a lens. *)
Definition chat_lens : lens world (option Z) :=
  Lens admin_current_chat (fun c w => World (w_db w) c (w_log w) (w_net w) (w_err w)).

Lemma frame_api_call r : frame chat_lens (api_call r).
Proof. intros c w. rewrite !api_call_run. simpl. by destruct (delivered _ _). Qed.

Lemma frame_logger_error msg : frame chat_lens (logger_error msg).
Proof. intros c w. reflexivity. Qed.

Lemma frame_db_op {A} (m : PyM DB A) : frame chat_lens (db_op m).
Proof. intros c w. unfold db_op, zoom. simpl. by destruct (m (w_db w)). Qed.

(** A world for the witnesses: the registry [[sample_user]], no reply
    target, an empty log, and a network that delivers everything. *)
Definition sample_world : world := World (registry_db [sample_user]) None [] (fun _ => None) [].

Definition client_of (uid : Z) : tg_user := TgUser uid None (lit "C").

(** A loop of requests on a network that delivers from now on. *)
Lemma api_loop_delivered {B} (f : B -> request) (l : list B) w :
  (∀ i, length (w_log w) <= i -> delivered (w_net w) i = true) ->
  py_for l tt (fun _ x => api_call (f x)) w =
    (Ok tt, World (w_db w) (admin_current_chat w) (w_log w ++ map (fun x => (f x, true)) l) (w_net w) (w_err w)).
Proof.
  revert w. induction l as [|x l IH]; intros w Hd; simpl.
  - rewrite app_nil_r. by destruct w.
  - cbv [mbind pym_bind]. rewrite api_call_run, Hd by lia. simpl.
    rewrite IH; simpl; [by rewrite <- app_assoc|].
    intros i Hi. apply Hd. rewrite length_app in Hi. simpl in Hi. lia.
Qed.
