(* ===== verification/Relay.v ===== *)
(** * The client-facing handlers of [src/bot.py]

    [start], [help_command] and [handle_client_message], in the section
    [Relay] whose variable [ADMIN_USER_ID] is the operator's id from
    [config.py].  Each handler is a [PyM world] computation: it reads and
    writes the registry through [db_op] and talks to Telegram through
    [api_call].  A handler that raises leaves its earlier effects in
    place; python-telegram-bot logs the exception and goes on with the
    next update.

    The theorems cover every branch of [handle_client_message]: a client
    with no record, a blocked client, and an active client, whether the
    forward to the operator is delivered or not; and the length of the
    forward, against Telegram's limit of 4096 characters.  A failed
    forward is logged with [logger_error]. *)

From S2P Require Import Prelude PyStr PyM PyObj Database Logging Telegram.

Section Relay.
Context (ADMIN_USER_ID : Z).

(** ** Texts *)

Definition admin_panel_text : pystr :=
  lit "🛡️ Admin Panel" ++ nl ++ nl ++ lit "Available commands:" ++ nl ++ lit "/users - View all users" ++ nl ++ lit "/stats - View statistics" ++ nl ++ lit "/help - Show help".

Definition welcome_text (first_name : pystr) : pystr :=
  lit "👋 Hello " ++ first_name ++ lit "!" ++ nl ++ nl ++ lit "Welcome to our service. You can send me any message and I'll forward it to our team." ++ nl ++
  lit "We'll get back to you as soon as possible." ++ nl ++ nl ++ lit "Just type your message below 👇".

Definition admin_help_text : pystr :=
  lit "🛡️ Admin Help" ++ nl ++ nl ++ lit "Commands:" ++ nl ++ lit "/users - View all users" ++ nl ++ lit "/stats - View statistics" ++ nl ++ lit "/reply <user_id> <message> - Reply to a specific user" ++ nl ++ lit "/broadcast <message> - Send message to all users" ++ nl ++ lit "/block <user_id> - Block a user" ++ nl ++ lit "/unblock <user_id> - Unblock a user".

Definition client_help_text : pystr :=
  lit "💬 Help" ++ nl ++ nl ++ lit "Simply send me any message and I'll forward it to our team." ++ nl ++ lit "We'll respond to you as soon as possible." ++ nl ++ nl ++ lit "You can send text, photos, documents, or any other type of message.".

Definition blocked_text : pystr := lit "❌ You have been blocked from using this bot.".

Definition confirm_text : pystr :=
  lit "✅ Your message has been sent to our team. We'll get back to you soon!".

Definition forward_error_text : pystr :=
  lit "❌ Sorry, there was an error sending your message. Please try again later.".

(** [f"Failed to forward message to admin: {e}"] *)
Definition forward_failed_log (e : exn) : pystr := lit "Failed to forward message to admin: " ++ exn_str e.

(** The envelope forwarded to the operator. *)
Definition forward_text (user : tg_user) (message_text : pystr) : pystr :=
  lit "📨 New message from user:" ++ nl ++ nl
  ++ lit "👤 User: " ++ tu_first_name user ++ lit " (@" ++ str_or (tu_username user) (lit "No username")
  ++ lit ")" ++ nl
  ++ lit "🆔 ID: " ++ py_str_int (tu_id user) ++ nl
  ++ lit "💬 Message: " ++ message_text ++ nl ++ nl
  ++ lit "Reply with: /reply " ++ py_str_int (tu_id user) ++ lit " <your message>".

(** [message.text or message.caption or "Media message"] *)
Definition message_text_of (message : tg_message) : pystr :=
  str_or (tm_text message) (str_or (tm_caption message) (lit "Media message")).

(** ** Handlers *)

(** [start] *)
Definition start (user : tg_user) (message : tg_message) : PyM world unit :=
  if bool_decide (tu_id user = ADMIN_USER_ID) then
    api_call (ReplyText (tm_chat message) admin_panel_text)
  else
    db_op (add_user (tu_id user) (tu_username user) (Some (tu_first_name user)));;
    api_call (ReplyText (tm_chat message) (welcome_text (tu_first_name user))).

(** [help_command] *)
Definition help_command (user : tg_user) (message : tg_message) : PyM world unit :=
  if bool_decide (tu_id user = ADMIN_USER_ID) then
    api_call (ReplyText (tm_chat message) admin_help_text)
  else
    api_call (ReplyText (tm_chat message) client_help_text).

(** [not user_data or not user_data.get('is_active', True)] *)
Definition is_blocked (user_data : pyobj) : PyM world bool :=
  if truthy user_data then
    a ← of_outcome (dict_get user_data (lit "is_active") (PBool true));
    mret (negb (truthy a))
  else mret true.

(** [handle_client_message] *)
Definition handle_client_message (user : tg_user) (message : tg_message) : PyM world unit :=
  user_data ← db_op (get_user (tu_id user));
  blocked ← is_blocked user_data;
  if (blocked : bool) then api_call (ReplyText (tm_chat message) blocked_text)
  else
    db_op (add_user (tu_id user) (tu_username user) (Some (tu_first_name user)));;
    let message_text := message_text_of message in
    db_op (add_message (tu_id user) message_text false);;
    try_except
      (api_call (SendMessage (PInt ADMIN_USER_ID) (forward_text user message_text));;
       api_call (ReplyText (tm_chat message) confirm_text))
      any_exception
      (fun e => logger_error (forward_failed_log e);;
                api_call (ReplyText (tm_chat message) forward_error_text)).

(** ** Properties *)

Lemma is_blocked_user r w : is_blocked (user_obj r) w = (Ok (negb (u_active r)), w).
Proof. unfold is_blocked. rewrite user_obj_truthy. py_unfold. by rewrite user_obj_is_active. Qed.

Lemma is_blocked_none w : is_blocked PNone w = (Ok true, w).
Proof. reflexivity. Qed.

(** The rejection branch of [handle_client_message]. *)
Lemma client_message_rejected_run user msg w rs :
  wf_db (w_db w) rs ->
  match reg_find (tu_id user) rs with Some r => u_active r = false | None => True end ->
  handle_client_message user msg w = api_call (ReplyText (tm_chat msg) blocked_text) w.
Proof.
  intros Hwf Hr. unfold handle_client_message. py_unfold.
  rewrite (db_op_run _ _ _ _ (get_user_run _ _ Hwf _)), set_db_id. py_unfold.
  destruct (reg_find (tu_id user) rs) as [r|]; py_unfold.
  - rewrite is_blocked_user, Hr. py_unfold. reflexivity.
  - rewrite is_blocked_none. py_unfold. reflexivity.
Qed.

(** C11 (safety): [handle_client_message] gives a client with no record
    the blocked reply and does nothing else.  Its check
    [if not user_data or ...] comes before the [add_user] that was meant
    to register the client, so a client who never sent [/start] is never
    registered: nothing is recorded and nothing is forwarded.  The spec
    says the user is upserted first and starts active. *)
Theorem client_message_unregistered_rejected user msg w rs :
  wf_db (w_db w) rs -> reg_find (tu_id user) rs = None ->
  handle_client_message user msg w = api_call (ReplyText (tm_chat msg) blocked_text) w.
Proof. intros Hwf Hr. apply (client_message_rejected_run _ _ _ rs); [done|]. by rewrite Hr. Qed.

(** C12 (safety): block gating.  A client whose record has
    [is_active = False] gets the blocked reply and nothing else: the
    ledger is unchanged and nothing is forwarded to the operator. *)
Theorem client_message_blocked_rejected user msg w rs r :
  wf_db (w_db w) rs -> reg_find (tu_id user) rs = Some r -> u_active r = false ->
  handle_client_message user msg w = api_call (ReplyText (tm_chat msg) blocked_text) w.
Proof. intros Hwf Hr Ha. apply (client_message_rejected_run _ _ _ rs); [done|]. by rewrite Hr. Qed.

(** The acceptance branch of [handle_client_message], up to the [try]. *)
Lemma client_message_accepted_run user msg w rs r :
  wf_db (w_db w) rs -> reg_find (tu_id user) rs = Some r -> u_active r = true ->
  ∃ db', wf_db db' (reg_append (tu_id user) (MessageRec (message_text_of msg) (clock (w_db w)) false) rs)
    ∧ saved db' ∧ clock db' = clock (w_db w)
    ∧ handle_client_message user msg w =
      try_except
        (api_call (SendMessage (PInt ADMIN_USER_ID) (forward_text user (message_text_of msg)));;
         api_call (ReplyText (tm_chat msg) confirm_text))
        any_exception (fun e => logger_error (forward_failed_log e);;
                                api_call (ReplyText (tm_chat msg) forward_error_text))
        (set_db db' w).
Proof.
  intros Hwf Hr Ha.
  destruct (add_message_present (w_db w) rs Hwf (tu_id user) (message_text_of msg) false r Hr)
    as (db' & Hrun & Hwf' & Hs & Hc).
  exists db'. split_and!; [done|done|done|].
  unfold handle_client_message.
  erewrite run_bind_ok by (apply db_op_run; apply (get_user_run _ _ Hwf)).
  rewrite set_db_id, Hr. cbn [default fmap option_fmap option_map].
  erewrite run_bind_ok by apply is_blocked_user. rewrite Ha. cbn [negb].
  erewrite run_bind_ok by (apply db_op_run; apply (add_user_present _ _ Hwf _ _ _ r Hr)).
  rewrite set_db_id. cbv zeta. by erewrite run_bind_ok by (apply db_op_run; exact Hrun).
Qed.

(** C1 (functional): an active registered client's message is appended
    to its ledger with [is_from_admin = False] before the forward is
    attempted, so it is recorded even when the forward fails.  The
    envelope goes to [ADMIN_USER_ID].  If the forward is delivered, the
    client gets the confirmation.  If the forward fails, the client gets
    the error notice.  If the forward is delivered but the confirmation
    fails, the same [except] sends the error notice too, so the client is
    told the message was not sent although the operator received it. *)
Theorem client_message_forwarded user msg w rs r :
  wf_db (w_db w) rs -> reg_find (tu_id user) rs = Some r -> u_active r = true ->
  let n := length (w_log w) in
  let d := delivered (w_net w) in
  let text := message_text_of msg in
  let fwd := SendMessage (PInt ADMIN_USER_ID) (forward_text user text) in
  let ok := ReplyText (tm_chat msg) confirm_text in
  let err := ReplyText (tm_chat msg) forward_error_text in
  let logged k := LogRecord logger_name ERROR (forward_failed_log (TelegramError (net_error (w_net w) k))) None in
  ∃ db', wf_db db' (reg_append (tu_id user) (MessageRec text (clock (w_db w)) false) rs)
    ∧ saved db'
    ∧ snd (handle_client_message user msg w) =
      World db' (admin_current_chat w)
        (w_log w ++ (fwd, d n) ::
           if d n then (ok, d (S n)) :: (if d (S n) then [] else [(err, d (S (S n)))])
           else [(err, d (S n))])
        (w_net w)
        (w_err w ++ if d n then (if d (S n) then [] else [logged (S n)]) else [logged n]).
Proof.
  intros Hwf Hr Ha n d text fwd ok err logged.
  destruct (client_message_accepted_run user msg w rs r Hwf Hr Ha) as (db' & Hwf' & Hs & _ & ->).
  exists db'. split_and!; [done|done|]. unfold try_except. py_unfold.
  rewrite api_call_run. world_simpl. fold n d.
  destruct (d n); py_unfold.
  - rewrite api_call_run; world_simpl; fold n d.
    destruct (d (S n)); py_unfold; [by rewrite app_nil_r|].
    rewrite logger_error_run; py_unfold. rewrite api_call_run. world_simpl. by fold n d.
  - rewrite logger_error_run; py_unfold. rewrite api_call_run. world_simpl. by fold n d.
Qed.

(** The length of the forward: the client's text, the sender's name,
    handle and id (twice), and 93 code points of envelope. *)
Lemma forward_text_length user t :
  length (forward_text user t) =
    length t + length (tu_first_name user) + length (str_or (tu_username user) (lit "No username"))
    + 2 * length (py_str_int (tu_id user)) + 93.
Proof.
  unfold forward_text. rewrite !length_app.
  repeat match goal with |- context [length (lit ?s)] =>
    let k := eval vm_compute in (length (lit s)) in change (length (lit s)) with k end.
  cbn [length nl]. lia.
Qed.

Lemma str_or_nonempty a b : 1 <= length b -> 1 <= length (str_or a b).
Proof. intros Hb. destruct a as [s|]; simpl; [case_bool_decide; [done|destruct s; simpl; [done|lia]]|done]. Qed.

(** C35 (bounds): the forward [handle_client_message] sends to the
    operator adds at least 96 code points to the client's text, so the
    text of a client message longer than 4000 code points gives a forward
    longer than the 4096 characters Telegram accepts.  [users_command]
    splits its reply at 4096; the forward is not split, and such a
    message is recorded but never reaches the operator. *)
Theorem forward_exceeds_telegram_limit user t :
  4000 < length t -> 4096 < length (forward_text user t).
Proof.
  intros Ht. rewrite forward_text_length.
  pose proof (py_str_int_nonempty (tu_id user)).
  assert (1 <= length (str_or (tu_username user) (lit "No username"))) by (apply str_or_nonempty; vm_compute; lia).
  lia.
Qed.

End Relay.

(** ** Witnesses *)

(** A blocked client, id 8, beside [sample_user] (id 7, active). *)
Definition blocked_user : user_rec :=
  UserRec 8 None (Some (lit "Bo")) (lit "2024-01-01T00:00:00") [] false.

Definition relay_world (rs : list user_rec) : world :=
  World (registry_db rs) None [] (fun _ => None) [].

Definition client (uid : Z) : tg_user := TgUser uid None (lit "C").
Definition text_message (chat : Z) : tg_message := TgMessage chat (Some (lit "hi")) None.

Lemma client_message_unregistered_rejected_witness :
  wf_db (registry_db [sample_user]) [sample_user] ∧ reg_find 9 [sample_user] = None ∧
  handle_client_message 1 (client 9) (text_message 9) (relay_world [sample_user])
  = api_call (ReplyText 9 blocked_text) (relay_world [sample_user]).
Proof.
  assert (H : wf_db (registry_db [sample_user]) [sample_user]) by solve_wf_db.
  split_and!; [exact H | reflexivity |].
  exact (client_message_unregistered_rejected 1 (client 9) (text_message 9)
           (relay_world [sample_user]) [sample_user] H eq_refl).
Defined.

Lemma client_message_blocked_rejected_witness :
  wf_db (registry_db [sample_user; blocked_user]) [sample_user; blocked_user]
  ∧ reg_find 8 [sample_user; blocked_user] = Some blocked_user ∧ u_active blocked_user = false ∧
  handle_client_message 1 (client 8) (text_message 8) (relay_world [sample_user; blocked_user])
  = api_call (ReplyText 8 blocked_text) (relay_world [sample_user; blocked_user]).
Proof.
  assert (H : wf_db (registry_db [sample_user; blocked_user]) [sample_user; blocked_user])
    by solve_wf_db.
  split_and!; [exact H | reflexivity | reflexivity |].
  exact (client_message_blocked_rejected 1 (client 8) (text_message 8)
           (relay_world [sample_user; blocked_user]) [sample_user; blocked_user] blocked_user H
           eq_refl eq_refl).
Defined.

Lemma client_message_forwarded_witness :
  wf_db (registry_db [sample_user]) [sample_user] ∧ reg_find 7 [sample_user] = Some sample_user
  ∧ u_active sample_user = true ∧
  ∃ db', wf_db db' (reg_append 7 (MessageRec (lit "hi") (clock (registry_db [sample_user])) false)
                      [sample_user])
    ∧ saved db'
    ∧ snd (handle_client_message 1 (client 7) (text_message 7) (relay_world [sample_user])) =
      World db' None
        ([] ++ (SendMessage (PInt 1) (forward_text (client 7) (lit "hi")), true) ::
           (ReplyText 7 confirm_text, true) :: [])
        (fun _ => None) [].
Proof.
  assert (H : wf_db (registry_db [sample_user]) [sample_user]) by solve_wf_db.
  split_and!; [exact H | reflexivity | reflexivity |].
  exact (client_message_forwarded 1 (client 7) (text_message 7) (relay_world [sample_user])
           [sample_user] sample_user H eq_refl eq_refl).
Defined.

Lemma forward_exceeds_telegram_limit_witness :
  4000 < length (replicate 4001 97%Z)
  ∧ 4096 < length (forward_text (client 9) (replicate 4001 97%Z)).
Proof.
  assert (H : 4000 < length (replicate 4001 97%Z)) by (rewrite length_replicate; lia).
  split; [exact H | exact (forward_exceeds_telegram_limit (client 9) _ H)].
Defined.
