(* ===== verification/Admin.v ===== *)
(** * The operator's handlers of [src/bot.py]

    [users_command], [stats_command], [reply_command], [broadcast_command],
    [block_command], [unblock_command], [handle_admin_message] and
    [button_callback], in the section [Admin] whose variable
    [ADMIN_USER_ID] is the operator's id.  Every command first checks that
    the sender is the operator and otherwise returns without a word.
    [context.args] is the list of words after the command
    ([command_args]): [/reply] and [/broadcast] re-join them with single
    spaces, which [reply_text_rebuilt_from_words] makes precise.  The
    loop of [/broadcast] logs each failed send ([broadcast_log]).

    [button_callback] writes the global [admin_current_chat], the
    "reply session" of the spec.  No handler reads it: a bare operator
    message always gets the selection keyboard of the last five active
    users. *)

From S2P Require Import Prelude PyStr PyM PyObj Database Logging Telegram.

Section Admin.
Context (ADMIN_USER_ID : Z).

Definition is_admin (user : tg_user) : bool := bool_decide (tu_id user = ADMIN_USER_ID).

(** ** [/users] *)

(** One user's block of the listing (lines 78-88). *)
Definition user_listing (user : pyobj) : outcome pystr :=
  match dict_get user (lit "username") (PStr (lit "No username")),
        dict_get user (lit "first_name") (PStr (lit "Unknown")),
        getitem user (lit "user_id"),
        dict_get user (lit "joined_date") (PStr (lit "Unknown")) with
  | Ok username, Ok first_name, Ok user_id, Ok joined_date =>
    match slice_prefix joined_date 10 with
    | Raised e => Raised e
    | Ok joined =>
      match dict_get user (lit "messages") (PList []) with
      | Raised e => Raised e
      | Ok msgs =>
        match py_len msgs with
        | Raised e => Raised e
        | Ok count =>
          Ok (lit "🆔 ID: " ++ py_format user_id ++ nl
              ++ lit "👤 Name: " ++ py_format first_name ++ nl
              ++ lit "📝 Username: @" ++ py_format username ++ nl
              ++ lit "📅 Joined: " ++ py_format joined ++ nl
              ++ lit "💬 Messages: " ++ py_str_int (Z.of_nat count) ++ nl
              ++ py_repeat (lit "─") 30 ++ nl)
        end
      end
    end
  | Raised e, _, _, _ | _, Raised e, _, _ | _, _, Raised e, _ | _, _, _, Raised e => Raised e
  end.

(** The message split into pieces of 4096 code points (lines 91-95). *)
Definition send_chunked (chat : Z) (message : pystr) : PyM world unit :=
  if 4096 <? length message then
    py_for (py_range 0 (length message) 4096) tt
      (fun _ x => api_call (ReplyText chat (py_slice x (x + 4096) message)))
  else api_call (ReplyText chat message).

Definition users_command (user : tg_user) (message : tg_message) : PyM world unit :=
  if negb (is_admin user) then return_none else
  users ← db_op get_all_users;
  if bool_decide (users = []) then api_call (ReplyText (tm_chat message) (lit "No users found."))
  else
    text ← py_for users (lit "👥 Active Users:" ++ nl ++ nl)
             (fun acc u => block ← of_outcome (user_listing u); mret (acc ++ block));
    send_chunked (tm_chat message) text.

(** ** [/stats] *)

(** [sum(len(user.get('messages', [])) for user in users)] *)
Definition total_messages_of (users : list pyobj) : PyM world Z :=
  py_for users 0%Z (fun acc u =>
    msgs ← of_outcome (dict_get u (lit "messages") (PList []));
    n ← of_outcome (py_len msgs);
    mret (acc + Z.of_nat n)%Z).

Definition stats_text (total_users total_messages : Z) : pystr :=
  lit "📊 Statistics" ++ nl ++ nl
  ++ lit "👥 Total Users: " ++ py_str_int total_users ++ nl
  ++ lit "💬 Total Messages: " ++ py_str_int total_messages ++ nl
  ++ lit "📈 Average Messages per User: "
  ++ (if (0 <? total_users)%Z then format_ratio_1f total_messages total_users else lit "0.0").

Definition stats_command (user : tg_user) (message : tg_message) : PyM world unit :=
  if negb (is_admin user) then return_none else
  users ← db_op get_all_users;
  let total_users := Z.of_nat (length users) in
  total_messages ← total_messages_of users;
  api_call (ReplyText (tm_chat message) (stats_text total_users total_messages)).

(** ** [/reply <user_id> <message>] *)

Definition invalid_id_text : pystr := lit "Invalid user ID. Please provide a valid number.".

Definition reply_command (user : tg_user) (message : tg_message) (args : list pystr)
  : PyM world unit :=
  if negb (is_admin user) then return_none else
  if length args <? 2 then
    api_call (ReplyText (tm_chat message) (lit "Usage: /reply <user_id> <message>"))
  else
    try_except
      (target_user_id ← of_outcome (int_of_str (default [] (head args)));
       let reply_message := py_join (lit " ") (tail args) in
       try_except
         (api_call (SendMessage (PInt target_user_id)
                      (lit "💬 Reply from our team:" ++ nl ++ nl ++ reply_message));;
          db_op (add_message target_user_id reply_message true);;
          api_call (ReplyText (tm_chat message)
                      (lit "✅ Reply sent to user " ++ py_str_int target_user_id)))
         any_exception
         (fun e => api_call (ReplyText (tm_chat message)
                      (lit "❌ Failed to send message to user " ++ py_str_int target_user_id
                       ++ lit ": " ++ exn_str e))))
      is_ValueError
      (fun _ => api_call (ReplyText (tm_chat message) invalid_id_text)).

(** ** [/broadcast <message>] *)

Definition announcement (text : pystr) : pystr := lit "📢 Announcement:" ++ nl ++ nl ++ text.

(** [f"Failed to send broadcast to user {user['user_id']}: {e}"] *)
Definition broadcast_failed_log (chat_id : pyobj) (e : exn) : pystr :=
  lit "Failed to send broadcast to user " ++ py_format chat_id ++ lit ": " ++ exn_str e.

(** One iteration of the loop (lines 160-168), on the counters
    [(success_count, failed_count)]. *)
Definition broadcast_one (text : pystr) (counts : nat * nat) (u : pyobj) : PyM world (nat * nat) :=
  try_except
    (chat_id ← of_outcome (getitem u (lit "user_id"));
     api_call (SendMessage chat_id (announcement text));;
     mret (S counts.1, counts.2))
    any_exception
    (fun e => chat_id ← of_outcome (getitem u (lit "user_id"));
              logger_error (broadcast_failed_log chat_id e);;
              mret (counts.1, S counts.2)).

Definition broadcast_report (success failed : nat) : pystr :=
  lit "📢 Broadcast completed!" ++ nl
  ++ lit "✅ Successfully sent: " ++ py_str_int (Z.of_nat success) ++ nl
  ++ lit "❌ Failed: " ++ py_str_int (Z.of_nat failed).

Definition broadcast_command (user : tg_user) (message : tg_message) (args : list pystr)
  : PyM world unit :=
  if negb (is_admin user) then return_none else
  if length args <? 1 then
    api_call (ReplyText (tm_chat message) (lit "Usage: /broadcast <message>"))
  else
    let broadcast_message := py_join (lit " ") args in
    users ← db_op get_all_users;
    counts ← py_for users (0, 0) (broadcast_one broadcast_message);
    api_call (ReplyText (tm_chat message) (broadcast_report counts.1 counts.2)).

(** ** [/block <user_id>] and [/unblock <user_id>] *)

Definition block_command (user : tg_user) (message : tg_message) (args : list pystr)
  : PyM world unit :=
  if negb (is_admin user) then return_none else
  if negb (length args =? 1) then
    api_call (ReplyText (tm_chat message) (lit "Usage: /block <user_id>"))
  else
    try_except
      (target_user_id ← of_outcome (int_of_str (default [] (head args)));
       db_op (deactivate_user target_user_id);;
       api_call (ReplyText (tm_chat message)
                   (lit "✅ User " ++ py_str_int target_user_id ++ lit " has been blocked.")))
      is_ValueError
      (fun _ => api_call (ReplyText (tm_chat message) invalid_id_text)).

Definition unblock_command (user : tg_user) (message : tg_message) (args : list pystr)
  : PyM world unit :=
  if negb (is_admin user) then return_none else
  if negb (length args =? 1) then
    api_call (ReplyText (tm_chat message) (lit "Usage: /unblock <user_id>"))
  else
    try_except
      (target_user_id ← of_outcome (int_of_str (default [] (head args)));
       db_op (activate_user target_user_id);;
       api_call (ReplyText (tm_chat message)
                   (lit "✅ User " ++ py_str_int target_user_id ++ lit " has been unblocked.")))
      is_ValueError
      (fun _ => api_call (ReplyText (tm_chat message) invalid_id_text)).

(** ** The operator's bare messages and the selection buttons *)

(** One button of the keyboard: its label and its [callback_data]. *)
Definition reply_button (u : pyobj) : outcome (pystr * pystr) :=
  match getitem u (lit "first_name"), getitem u (lit "user_id") with
  | Ok first_name, Ok user_id =>
    Ok (py_format first_name ++ lit " (" ++ py_format user_id ++ lit ")",
        lit "reply_" ++ py_format user_id)
  | Raised e, _ | _, Raised e => Raised e
  end.

Definition handle_admin_message (message : tg_message) : PyM world unit :=
  match tm_text message with
  | None => raise (no_attribute PNone "startswith")
  | Some text =>
    if negb (startswith (lit "/") text) then
      users ← db_op get_all_users;
      if bool_decide (users = []) then
        api_call (ReplyText (tm_chat message) (lit "No active users to reply to."))
      else
        keyboard ← py_for (last_n 5 users) [] (fun kb u => b ← of_outcome (reply_button u); mret (kb ++ [b]));
        api_call (ReplyKeyboard (tm_chat message) (lit "Select a user to reply to:") keyboard)
    else return_none
  end.

(** [admin_current_chat = user_id] *)
Definition set_current_chat (user_id : Z) : PyM world unit :=
  modify (fun w => World (w_db w) (Some user_id) (w_log w) (w_net w) (w_err w)).

(** [button_callback], from the chat of the pressed button.  It checks
    nothing about the sender. *)
Definition button_callback (chat : Z) (data : pystr) : PyM world unit :=
  api_call (AnswerCallback chat);;
  if startswith (lit "reply_") data then
    part ← of_outcome (list_index (py_split 95%Z data) 1);
    user_id ← of_outcome (int_of_str part);
    set_current_chat user_id;;
    user_data ← db_op (get_user user_id);
    if truthy user_data then
      first_name ← of_outcome (getitem user_data (lit "first_name"));
      username ← of_outcome (dict_get user_data (lit "username") (PStr (lit "No username")));
      api_call (EditMessageText chat
        (lit "💬 Replying to: " ++ py_format first_name ++ lit " (@" ++ py_format username ++ lit ")" ++ nl
         ++ lit "🆔 ID: " ++ py_str_int user_id ++ nl ++ nl
         ++ lit "Type your reply message now, or use /reply " ++ py_str_int user_id ++ lit " <message>"))
    else api_call (EditMessageText chat (lit "User not found."))
  else return_none.

(** ** Properties *)

Lemma is_admin_true user : tu_id user = ADMIN_USER_ID -> is_admin user = true.
Proof. intros H. unfold is_admin. by apply bool_decide_eq_true_2. Qed.

(** C20 (safety): every operator command ignores a sender other than
    [ADMIN_USER_ID]: it returns at once, with no request and no change to
    the registry or to [admin_current_chat]. *)
Theorem commands_ignore_non_admin user msg args w :
  tu_id user ≠ ADMIN_USER_ID ->
  users_command user msg w = (Ok tt, w) ∧ stats_command user msg w = (Ok tt, w)
  ∧ reply_command user msg args w = (Ok tt, w) ∧ broadcast_command user msg args w = (Ok tt, w)
  ∧ block_command user msg args w = (Ok tt, w) ∧ unblock_command user msg args w = (Ok tt, w).
Proof.
  intros Hne. assert (H : is_admin user = false) by (unfold is_admin; by apply bool_decide_eq_false_2).
  unfold users_command, stats_command, reply_command, broadcast_command, block_command,
    unblock_command. by rewrite H.
Qed.

Definition reply_sent_text (uid : Z) : pystr := lit "✅ Reply sent to user " ++ py_str_int uid.
Definition reply_failed_text (uid : Z) (err : pystr) : pystr :=
  lit "❌ Failed to send message to user " ++ py_str_int uid ++ lit ": " ++ err.
Definition reply_request (uid : Z) (text : pystr) : request :=
  SendMessage (PInt uid) (lit "💬 Reply from our team:" ++ nl ++ nl ++ text).

(** [reply_command] once the arguments parse, up to the first request. *)
Lemma reply_command_unfold user msg a uid words w :
  tu_id user = ADMIN_USER_ID -> words ≠ [] -> py_int a = Some uid ->
  reply_command user msg (a :: words) w =
  try_except
    (try_except
       (api_call (reply_request uid (py_join (lit " ") words));;
        db_op (add_message uid (py_join (lit " ") words) true);;
        api_call (ReplyText (tm_chat msg) (reply_sent_text uid)))
       any_exception
       (fun e => api_call (ReplyText (tm_chat msg) (reply_failed_text uid (exn_str e)))))
    is_ValueError (fun _ => api_call (ReplyText (tm_chat msg) invalid_id_text)) w.
Proof.
  intros Ha Hw Hi. unfold reply_command. rewrite is_admin_true by done. cbn [negb].
  destruct words as [|w0 words]; [congruence|].
  cbn [length Nat.ltb Nat.leb head tail default from_option id].
  rewrite (int_of_str_ok _ _ Hi). unfold reply_request, reply_sent_text, reply_failed_text.
  cbv [mbind pym_bind of_outcome]. cbn beta iota zeta. reflexivity.
Qed.

(** C4 (functional): reply atomicity.  [/reply <id> <words>] to a
    registered user first sends the reply.  If the send fails, the ledger
    is unchanged and the operator gets the failure notice.  If the send
    is delivered, exactly one message (the words joined by spaces, with
    [is_from_admin = True]) is appended to the user's ledger, and the
    operator gets the confirmation.  If that confirmation fails, the
    [except] also sends the failure notice. *)
Theorem reply_atomic user msg uid words w rs r :
  tu_id user = ADMIN_USER_ID -> words ≠ [] ->
  wf_db (w_db w) rs -> reg_find uid rs = Some r ->
  let n := length (w_log w) in
  let d := delivered (w_net w) in
  let text := py_join (lit " ") words in
  let failed k := ReplyText (tm_chat msg) (reply_failed_text uid (net_error (w_net w) k)) in
  if d n then
    ∃ db', wf_db db' (reg_append uid (MessageRec text (clock (w_db w)) true) rs) ∧ saved db'
      ∧ snd (reply_command user msg (py_str_int uid :: words) w) =
        World db' (admin_current_chat w)
          (w_log w ++ (reply_request uid text, true)
             :: (ReplyText (tm_chat msg) (reply_sent_text uid), d (S n))
             :: (if d (S n) then [] else [(failed (S n), d (S (S n)))]))
          (w_net w) (w_err w)
  else
    snd (reply_command user msg (py_str_int uid :: words) w) =
      World (w_db w) (admin_current_chat w)
        (w_log w ++ [(reply_request uid text, false); (failed n, d (S n))]) (w_net w) (w_err w).
Proof.
  intros Ha Hw Hwf Hr n d text failed. rewrite (reply_command_unfold _ _ (py_str_int uid) uid) by (done || apply py_int_str_roundtrip).
  unfold try_except. py_unfold. rewrite api_call_run. world_simpl. fold n d.
  destruct (d n) eqn:Hd; py_unfold.
  - destruct (add_message_present (w_db w) rs Hwf uid text true r Hr) as (db' & Hrun & ? & ? & _).
    exists db'. split_and!; [done|done|].
    erewrite db_op_run by exact Hrun. py_unfold. rewrite api_call_run. world_simpl. fold n d.
    destruct (d (S n)); py_unfold; [reflexivity|].
    rewrite api_call_run. world_simpl. fold n d. by destruct (d (S (S n))).
  - rewrite api_call_run. world_simpl. fold n d. by destruct (d (S n)).
Qed.

(** [context.args] of [/reply <id> <body>]: the id and the words of
    [body]. *)
Lemma reply_command_args uid body :
  command_args (lit "/reply " ++ py_str_int uid ++ lit " " ++ body) = py_str_int uid :: py_split_ws body.
Proof.
  unfold command_args. change (lit "/reply ") with (lit "/reply" ++ [32%Z]). change (lit " ") with [32%Z].
  rewrite <- app_assoc. cbn [app].
  rewrite !py_split_ws_app by reflexivity.
  rewrite (py_split_ws_word (lit "/reply")) by (done || (intros c Hc; vm_compute in Hc; set_solver)).
  rewrite (py_split_ws_word (py_str_int uid)); [done| |apply py_str_int_no_space].
  pose proof (py_str_int_nonempty uid). intros Hn. rewrite Hn in *. simpl in *. lia.
Qed.

(** C21 (functional): [/reply] sends the words of the operator's text,
    not the text.  [context.args] is [message.text.split()], and
    [reply_command] joins [args[1:]] with single spaces: the line
    breaks, tabs and runs of spaces of the operator's reply are gone
    from the message the user receives (and from the ledger). *)
Theorem reply_text_rebuilt_from_words user msg uid body w :
  tu_id user = ADMIN_USER_ID -> py_split_ws body ≠ [] ->
  ∃ rest, w_log (snd (reply_command user msg (command_args (lit "/reply " ++ py_str_int uid ++ lit " " ++ body)) w))
          = w_log w ++ (reply_request uid (py_join (lit " ") (py_split_ws body)),
                        delivered (w_net w) (length (w_log w))) :: rest.
Proof.
  intros Ha Hb. rewrite reply_command_args.
  rewrite (reply_command_unfold _ _ (py_str_int uid) uid) by (done || apply py_int_str_roundtrip).
  set (r := reply_request uid _).
  match goal with |- ∃ _, w_log (snd (?M w)) = _ =>
    assert (H : log_grows (snd (api_call r w)) (snd (M w))) end.
  { repeat first [reflexivity | apply log_grows_try_after | apply log_grows_bind_after];
      solve_within ltac:(first [apply log_grows_api_call | apply log_grows_db_op]). }
  rewrite api_call_run in H. destruct H as [rest Hrest]. exists rest. rewrite Hrest. simpl.
  by rewrite <- app_assoc.
Qed.

(** C22 (error): [/reply] to an id with no record raises no
    [InvalidTarget].  The reply is sent, and if Telegram delivers it the
    operator is told it was sent, but [add_message] silently records
    nothing: the ledger does not show a reply that was delivered. *)
Theorem reply_unknown_target_unrecorded user msg uid words w rs :
  tu_id user = ADMIN_USER_ID -> words ≠ [] ->
  wf_db (w_db w) rs -> reg_find uid rs = None ->
  let n := length (w_log w) in
  delivered (w_net w) n = true -> delivered (w_net w) (S n) = true ->
  reply_command user msg (py_str_int uid :: words) w =
    (Ok tt, World (w_db w) (admin_current_chat w)
              (w_log w ++ [(reply_request uid (py_join (lit " ") words), true);
                           (ReplyText (tm_chat msg) (reply_sent_text uid), true)])
              (w_net w) (w_err w)).
Proof.
  intros Ha Hw Hwf Hr n Hd0 Hd1. rewrite (reply_command_unfold _ _ (py_str_int uid) uid) by (done || apply py_int_str_roundtrip).
  unfold try_except. py_unfold. rewrite api_call_run. world_simpl. fold n. rewrite Hd0. py_unfold.
  erewrite db_op_run by exact (add_message_absent _ _ Hwf _ _ _ Hr). world_simpl.
  py_unfold. rewrite api_call_run. world_simpl. fold n. rewrite Hd1. reflexivity.
Qed.

Definition count_true (l : list bool) : nat := length (List.filter id l).

Lemma count_true_le l : count_true l <= length l.
Proof. unfold count_true. induction l as [|[] l IH]; simpl; lia. Qed.

Lemma count_true_cons b l : count_true (b :: l) = (if b then 1 else 0) + count_true l.
Proof. unfold count_true. by destruct b. Qed.

(** [send_chunked] on a network that delivers: the pieces concatenate
    to the message, each has at most 4096 code points, and there are
    [max 1 (ceil (len / 4096))] of them. *)
Lemma send_chunked_delivered chat message w :
  (∀ i, length (w_log w) <= i -> delivered (w_net w) i = true) ->
  ∃ texts, snd (send_chunked chat message w)
             = World (w_db w) (admin_current_chat w)
                 (w_log w ++ map (fun t => (ReplyText chat t, true)) texts) (w_net w) (w_err w)
         ∧ mjoin texts = message ∧ Forall (fun t => length t <= 4096) texts
         ∧ length texts = Nat.max 1 ((length message + 4095) / 4096).
Proof.
  intros Hd. unfold send_chunked. destruct (4096 <? length message) eqn:Hlt.
  - apply Nat.ltb_lt in Hlt.
    exists (map (fun x => py_slice x (x + 4096) message) (py_range 0 (length message) 4096)).
    rewrite (api_loop_delivered (fun x => ReplyText chat (py_slice x (x + 4096) message))) by done.
    split_and!.
    + by rewrite map_map.
    + unfold py_range. rewrite slices_concat by lia. done.
    + apply slices_bounded. lia.
    + rewrite length_map. unfold py_range. rewrite py_range_fuel_length by lia.
      rewrite Nat.sub_0_r. replace (length message + 4096 - 1) with (length message + 4095) by lia.
      symmetry. apply Nat.max_r. apply (Nat.div_le_lower_bound _ 4096); lia.
  - apply Nat.ltb_ge in Hlt. exists [message]. rewrite api_call_run, Hd by lia.
    split_and!; [done | simpl; by rewrite app_nil_r | by constructor | ].
    cbn [length]. symmetry. apply Nat.max_l, Nat.lt_succ_r, Nat.div_lt_upper_bound; lia.
Qed.

(** One user's block of the [/users] listing, on the abstract record.
    [user.get('username', 'No username')] finds the key that [add_user]
    always writes, so a missing username shows as [None]. *)
Definition user_block (r : user_rec) : pystr :=
  lit "🆔 ID: " ++ py_str_int (u_id r) ++ nl
  ++ lit "👤 Name: " ++ py_format (opt_str (u_first_name r)) ++ nl
  ++ lit "📝 Username: @" ++ py_format (opt_str (u_username r)) ++ nl
  ++ lit "📅 Joined: " ++ take 10 (u_joined r) ++ nl
  ++ lit "💬 Messages: " ++ py_str_int (Z.of_nat (length (u_messages r))) ++ nl
  ++ py_repeat (lit "─") 30 ++ nl.

Lemma user_listing_user_obj r : user_listing (user_obj r) = Ok (user_block r).
Proof.
  unfold user_listing. autorewrite with pyrw. cbn [slice_prefix py_len]. by rewrite length_map.
Qed.

Lemma listing_loop (act : list user_rec) acc (w : world) :
  py_for (map user_obj act) acc
    (fun acc u => block ← of_outcome (user_listing u); mret (acc ++ block)) w
  = (Ok (acc ++ mjoin (map user_block act)), w).
Proof.
  rewrite (run_py_for_append _ _ _ user_block id); [done|]. intros r _. apply user_listing_user_obj.
Qed.

(** C24 (functional): [/users] lists the active users.  From the
    operator, with active users and a network that delivers, it sends
    the header and one block per active user, in registry order, split
    into pieces of at most 4096 code points whose concatenation is the
    listing; there are [max 1 (ceil (len / 4096))] pieces.  The registry
    is not changed. *)
Theorem users_command_lists_active user msg w rs :
  tu_id user = ADMIN_USER_ID -> wf_db (w_db w) rs -> reg_active rs ≠ [] ->
  (∀ i, length (w_log w) <= i -> delivered (w_net w) i = true) ->
  let listing := lit "👥 Active Users:" ++ nl ++ nl ++ mjoin (map user_block (reg_active rs)) in
  ∃ texts, snd (users_command user msg w)
             = World (w_db w) (admin_current_chat w)
                 (w_log w ++ map (fun t => (ReplyText (tm_chat msg) t, true)) texts) (w_net w) (w_err w)
         ∧ mjoin texts = listing ∧ Forall (fun t => length t <= 4096) texts
         ∧ length texts = Nat.max 1 ((length listing + 4095) / 4096).
Proof.
  intros Ha Hwf Hne Hd listing. unfold users_command. rewrite is_admin_true by done. cbn [negb].
  erewrite run_bind_ok by (apply db_op_run; exact (get_all_users_run _ _ Hwf)). rewrite set_db_id.
  rewrite bool_decide_eq_false_2 by (intros Hm; apply Hne; by apply map_eq_nil in Hm).
  erewrite run_bind_ok by apply listing_loop.
  rewrite <- !app_assoc. by apply send_chunked_delivered.
Qed.


(** The records the loop logs: one for each recipient whose request
    fails, with the [TelegramError] the oracle gives, in order. *)
Definition broadcast_failure (net : nat -> option pystr) (r : user_rec) (i : nat) : log_record :=
  LogRecord logger_name ERROR (broadcast_failed_log (PInt (u_id r)) (TelegramError (net_error net i))) None.

Definition broadcast_log (net : nat -> option pystr) (act : list user_rec) (n : nat) : list log_record :=
  mjoin (zip_with (fun r i => if delivered net i then [] else [broadcast_failure net r i])
                  act (seq n (length act))).

Lemma broadcast_log_cons net r act n :
  broadcast_log net (r :: act) n
  = (if delivered net n then [] else [broadcast_failure net r n]) ++ broadcast_log net act (S n).
Proof. reflexivity. Qed.

(** One iteration on the record of a user: one [send_message], counted
    by whether it was delivered. *)
Lemma broadcast_one_run text s f r w :
  let b := delivered (w_net w) (length (w_log w)) in
  broadcast_one text (s, f) (user_obj r) w =
    (Ok (if b then (S s, f) else (s, S f)),
     World (w_db w) (admin_current_chat w)
       (w_log w ++ [(SendMessage (PInt (u_id r)) (announcement text), b)]) (w_net w)
       (w_err w ++ if b then [] else [broadcast_failure (w_net w) r (length (w_log w))])).
Proof.
  intros b. unfold broadcast_one, try_except. rewrite !user_obj_id. py_unfold.
  rewrite api_call_run. fold b. destruct b; py_unfold; [by rewrite app_nil_r|]. by rewrite logger_error_run.
Qed.

(** The loop of [broadcast_command] over the records of active users:
    one [send_message] per user, in order, each counted as a success or
    a failure by the oracle. *)
Lemma broadcast_loop text (act : list user_rec) (s f : nat) w :
  let ds := map (delivered (w_net w)) (seq (length (w_log w)) (length act)) in
  py_for (map user_obj act) (s, f) (broadcast_one text) w =
    (Ok (s + count_true ds, f + (length act - count_true ds)),
     World (w_db w) (admin_current_chat w)
       (w_log w ++ combine (map (fun r => SendMessage (PInt (u_id r)) (announcement text)) act) ds)
       (w_net w) (w_err w ++ broadcast_log (w_net w) act (length (w_log w)))).
Proof.
  revert s f w. induction act as [|r act IH]; intros s f w ds.
  - simpl. change (broadcast_log _ [] _) with (@nil log_record). rewrite !app_nil_r, !Nat.add_0_r. by destruct w.
  - cbn [map py_for]. erewrite run_bind_ok by apply broadcast_one_run. rewrite broadcast_log_cons.
    subst ds. cbn [length seq map combine]. rewrite count_true_cons.
    pose proof (count_true_le (map (delivered (w_net w)) (seq (S (length (w_log w))) (length act))))
      as Hle.
    rewrite length_map, length_seq in Hle.
    destruct (delivered (w_net w) (length (w_log w))); rewrite IH; world_simpl;
      f_equal; do 2 f_equal; lia.
Qed.

(** C14 (functional): broadcast accounting.  [/broadcast <words>] sends
    the announcement once to every active user, in registry order, and a
    failure for one recipient does not stop the others.  The report
    counts the delivered requests and the failed ones, and their sum is
    the number of active users.  No ledger changes: broadcasts are not
    recorded. *)
Theorem broadcast_accounting user msg words w rs :
  tu_id user = ADMIN_USER_ID -> words ≠ [] -> wf_db (w_db w) rs ->
  let n := length (w_log w) in
  let act := reg_active rs in
  let k := length act in
  let ds := map (delivered (w_net w)) (seq n k) in
  let text := py_join (lit " ") words in
  snd (broadcast_command user msg words w) =
    World (w_db w) (admin_current_chat w)
      (w_log w ++ combine (map (fun r => SendMessage (PInt (u_id r)) (announcement text)) act) ds
         ++ [(ReplyText (tm_chat msg) (broadcast_report (count_true ds) (k - count_true ds)),
              delivered (w_net w) (n + k))])
      (w_net w) (w_err w ++ broadcast_log (w_net w) act n).
Proof.
  intros Ha Hw Hwf n act k ds text. unfold broadcast_command. rewrite is_admin_true by done.
  destruct words as [|w0 words']; [congruence|]. cbn [negb length Nat.ltb Nat.leb].
  py_unfold. erewrite db_op_run by exact (get_all_users_run _ _ Hwf). rewrite set_db_id. py_unfold.
  rewrite broadcast_loop. py_unfold. rewrite api_call_run. world_simpl.
  rewrite length_combine, length_map, length_map, length_seq, Nat.min_id. fold n k text.
  cbn [fst snd]. rewrite ?Nat.add_0_l. reflexivity.
Qed.


Lemma total_messages_run (act : list user_rec) (acc : Z) (w : world) :
  py_for (map user_obj act) acc (fun acc u =>
    msgs ← of_outcome (dict_get u (lit "messages") (PList []));
    n ← of_outcome (py_len msgs);
    mret (acc + Z.of_nat n)%Z) w
  = (Ok (acc + Z.of_nat (sum_list_with (fun r => length (u_messages r)) act))%Z, w).
Proof.
  revert acc. induction act as [|r act IH]; intros acc; cbn [map py_for sum_list_with]; py_unfold.
  - do 2 f_equal. lia.
  - rewrite user_obj_get_messages. cbn [py_len]. rewrite length_map, IH. do 2 f_equal. lia.
Qed.

(** C23 (functional): [/stats] reports the number of active users, the
    total number of their messages, and the average as Python's
    [f"{total_messages/total_users:.1f}"] renders it ("0.0" without users). *)
Theorem stats_reports_counts user msg w rs :
  tu_id user = ADMIN_USER_ID -> wf_db (w_db w) rs ->
  let act := reg_active rs in
  stats_command user msg w =
    api_call (ReplyText (tm_chat msg)
                (stats_text (Z.of_nat (length act))
                   (Z.of_nat (sum_list_with (fun r => length (u_messages r)) act)))) w.
Proof.
  intros Ha Hwf act. unfold stats_command. rewrite is_admin_true by done. cbn [negb].
  py_unfold. erewrite db_op_run by exact (get_all_users_run _ _ Hwf). rewrite set_db_id. py_unfold.
  unfold total_messages_of. rewrite total_messages_run. py_unfold. by rewrite length_map.
Qed.

Definition block_reply_text (value : bool) (uid : Z) : pystr :=
  lit "✅ User " ++ py_str_int uid
  ++ (if value then lit " has been unblocked." else lit " has been blocked.").

(** [/block] and [/unblock] once their one argument parses. *)
Lemma set_active_command_unfold user msg a uid (value : bool) w :
  tu_id user = ADMIN_USER_ID -> py_int a = Some uid ->
  (if value then unblock_command else block_command) user msg [a] w =
  try_except (db_op (write_is_active uid value);;
              api_call (ReplyText (tm_chat msg) (block_reply_text value uid)))
    is_ValueError (fun _ => api_call (ReplyText (tm_chat msg) invalid_id_text)) w.
Proof.
  intros Ha Hi. unfold block_reply_text.
  destruct value; unfold unblock_command, block_command; rewrite is_admin_true by done;
    cbn [negb length Nat.eqb head default from_option id]; rewrite (int_of_str_ok _ _ Hi);
    cbv [mbind pym_bind of_outcome]; cbn beta iota zeta; reflexivity.
Qed.

(** C19 (functional): [/block <id>] and [/unblock <id>] set the flag of a
    registered user and report it.  For an id with no record they change
    nothing but report success all the same: the spec's [NotFound] is
    never surfaced. *)
Theorem block_command_spec user msg uid (value : bool) w rs :
  tu_id user = ADMIN_USER_ID -> wf_db (w_db w) rs ->
  let cmd := if value then unblock_command else block_command in
  let reply := ReplyText (tm_chat msg) (block_reply_text value uid) in
  match reg_find uid rs with
  | Some r => ∃ db', wf_db db' (reg_set_active uid value rs) ∧ saved db'
                ∧ reg_find uid (reg_set_active uid value rs) = Some (with_active value r)
                ∧ cmd user msg [py_str_int uid] w = api_call reply (set_db db' w)
  | None => cmd user msg [py_str_int uid] w = api_call reply w
  end.
Proof.
  intros Ha Hwf cmd reply. subst cmd reply. rewrite (set_active_command_unfold _ _ (py_str_int uid) uid) by (done || apply py_int_str_roundtrip).
  unfold try_except. py_unfold. destruct (reg_find uid rs) as [r|] eqn:Hr.
  - destruct (write_is_active_present _ _ Hwf uid value r Hr) as (db' & Hrun & ? & ? & _).
    exists db'. split_and!; [done | done | by rewrite find_set_active, Hr |].
    erewrite db_op_run by exact Hrun. py_unfold. rewrite !api_call_run. by destruct (delivered _ _).
  - erewrite db_op_run by exact (write_is_active_absent _ _ Hwf uid value Hr).
    rewrite set_db_id. py_unfold. rewrite !api_call_run. by destruct (delivered _ _).
Qed.

(** C27 (safety): the reply target is never used.  A bare operator message
    neither reads nor writes [admin_current_chat]: whatever the target
    set by the last button press, the handler behaves the same, and it
    always answers with the selection keyboard.  The spec's
    [handleBareOperatorMessage] would deliver the message to the
    target. *)
Theorem admin_message_ignores_reply_target msg (c : option Z) w :
  handle_admin_message msg (World (w_db w) c (w_log w) (w_net w) (w_err w)) =
    (fst (handle_admin_message msg w),
     World (w_db (snd (handle_admin_message msg w))) c (w_log (snd (handle_admin_message msg w)))
           (w_net (snd (handle_admin_message msg w))) (w_err (snd (handle_admin_message msg w)))).
Proof.
  assert (Hf : frame chat_lens (handle_admin_message msg)).
  { unfold handle_admin_message. solve_frame ltac:(first [apply frame_api_call | apply frame_db_op]). }
  exact (Hf c w).
Qed.

Lemma reply_button_user_obj r :
  reply_button (user_obj r) =
    Ok (py_format (opt_str (u_first_name r)) ++ lit " (" ++ py_str_int (u_id r) ++ lit ")",
        lit "reply_" ++ py_str_int (u_id r)).
Proof. unfold reply_button. by rewrite user_obj_first_name, user_obj_id. Qed.

(** C26 (functional): a bare operator message (text not starting with
    [/]) answers with a keyboard of the last five active users in
    registration order ([users[-5:]]), one button [first_name (id)] with
    data [reply_<id>] each, or with "No active users to reply to." when
    there are none.  Nothing else is sent and the registry is not
    changed. *)
Theorem admin_message_keyboard msg text w rs :
  wf_db (w_db w) rs -> tm_text msg = Some text -> startswith (lit "/") text = false ->
  handle_admin_message msg w =
    api_call
      (if bool_decide (reg_active rs = []) then ReplyText (tm_chat msg) (lit "No active users to reply to.")
       else ReplyKeyboard (tm_chat msg) (lit "Select a user to reply to:")
              (map (fun r => (py_format (opt_str (u_first_name r)) ++ lit " (" ++ py_str_int (u_id r) ++ lit ")",
                              lit "reply_" ++ py_str_int (u_id r)))
                   (last_n 5 (reg_active rs)))) w.
Proof.
  intros Hwf Ht Hs. unfold handle_admin_message. rewrite Ht, Hs. cbn [negb].
  erewrite run_bind_ok by (apply db_op_run; exact (get_all_users_run _ _ Hwf)). rewrite set_db_id.
  destruct (decide (reg_active rs = [])) as [He|Hne].
  - rewrite He. cbn [map]. by rewrite !bool_decide_eq_true_2.
  - rewrite !bool_decide_eq_false_2 by (done || (intros Hm; apply Hne; by apply map_eq_nil in Hm)).
    rewrite last_n_map. erewrite run_bind_ok; [done|].
    erewrite (run_py_for_append _ _ _ _ (fun b => [b])) by (intros r _; apply reply_button_user_obj).
    by rewrite mjoin_map_singleton.
Qed.

(** C25 (roundtrip): a selection button built by [handle_admin_message]
    for an active user carries [callback_data = "reply_<user_id>"], and
    pressing it makes [button_callback] parse the id back
    ([int(data.split("_")[1])]) and set [admin_current_chat] to that
    user.  The registry is unchanged. *)
Theorem selection_button_roundtrip chat w rs r label data :
  wf_db (w_db w) rs -> r ∈ reg_active rs -> reply_button (user_obj r) = Ok (label, data) ->
  delivered (w_net w) (length (w_log w)) = true ->
  admin_current_chat (snd (button_callback chat data w)) = Some (u_id r)
  ∧ w_db (snd (button_callback chat data w)) = w_db w.
Proof.
  intros Hwf Hact Hb Hd. pose proof Hwf as (d0 & _ & _ & Hnd).
  assert (Hr : reg_find (u_id r) rs = Some r) by (by apply active_spec).
  rewrite reply_button_user_obj in Hb.
  assert (data = lit "reply_" ++ py_str_int (u_id r)) as -> by congruence. clear Hb.
  unfold button_callback. py_unfold. rewrite api_call_run, Hd. py_unfold.
  rewrite startswith_app.
  change (lit "reply_" ++ py_str_int (u_id r)) with (lit "reply" ++ 95%Z :: py_str_int (u_id r)).
  rewrite py_split_two by
    (apply py_str_int_no_underscore || (apply (bool_decide_unpack _); vm_compute; reflexivity)).
  change (list_index [lit "reply"; py_str_int (u_id r)] 1) with (Ok (py_str_int (u_id r))).
  py_unfold. rewrite int_of_str_py_str_int. unfold set_current_chat. py_unfold. world_simpl.
  erewrite db_op_run by exact (get_user_run _ _ Hwf _). world_simpl. rewrite Hr. py_unfold.
  rewrite user_obj_truthy, user_obj_first_name, user_obj_get_username. py_unfold.
  rewrite api_call_run. world_simpl. by destruct (delivered _ _).
Qed.

End Admin.

(** ** Witnesses *)

Definition operator : tg_user := TgUser 100 None (lit "Op").
Definition operator_chat : tg_message := TgMessage 100 (Some (lit "/cmd")) None.

Definition active_user (uid : Z) : user_rec :=
  UserRec uid None (Some (lit "U")) (lit "2024-01-01T00:00:00") [] true.

Definition five_users : list user_rec := map active_user [1; 2; 3; 4; 5]%Z.

(** Telegram rejects the second and the fourth request. *)
Definition flaky_net (i : nat) : option pystr :=
  if (i =? 1) || (i =? 3) then Some (lit "Forbidden: bot was blocked by the user") else None.

Lemma commands_ignore_non_admin_witness :
  (7 ≠ 100)%Z ∧
  users_command 100 (client_of 7) operator_chat sample_world = (Ok tt, sample_world)
  ∧ stats_command 100 (client_of 7) operator_chat sample_world = (Ok tt, sample_world)
  ∧ reply_command 100 (client_of 7) operator_chat [] sample_world = (Ok tt, sample_world)
  ∧ broadcast_command 100 (client_of 7) operator_chat [] sample_world = (Ok tt, sample_world)
  ∧ block_command 100 (client_of 7) operator_chat [] sample_world = (Ok tt, sample_world)
  ∧ unblock_command 100 (client_of 7) operator_chat [] sample_world = (Ok tt, sample_world).
Proof.
  split; [lia|]. exact (commands_ignore_non_admin 100 (client_of 7) operator_chat [] sample_world
                          ltac:(simpl; lia)).
Defined.

Lemma broadcast_accounting_witness :
  wf_db (registry_db five_users) five_users ∧
  snd (broadcast_command 100 operator operator_chat [lit "hi"]
         (World (registry_db five_users) None [] flaky_net [])) =
    World (registry_db five_users) None
      (combine (map (fun r => SendMessage (PInt (u_id r)) (announcement (lit "hi"))) five_users)
               [true; false; true; false; true]
       ++ [(ReplyText 100 (broadcast_report 3 2), true)])
      flaky_net
      [LogRecord logger_name ERROR (lit "Failed to send broadcast to user 2: Forbidden: bot was blocked by the user") None;
       LogRecord logger_name ERROR (lit "Failed to send broadcast to user 4: Forbidden: bot was blocked by the user") None].
Proof.
  assert (H : wf_db (registry_db five_users) five_users) by solve_wf_db.
  split; [exact H|].
  rewrite (broadcast_accounting 100 operator operator_chat [lit "hi"]
             (World (registry_db five_users) None [] flaky_net []) five_users eq_refl ltac:(done) H).
  vm_compute. reflexivity.
Defined.

Lemma reply_atomic_witness :
  wf_db (registry_db [sample_user]) [sample_user] ∧ reg_find 7 [sample_user] = Some sample_user ∧
  ∃ db', wf_db db' (reg_append 7 (MessageRec (lit "hello") (clock (registry_db [sample_user])) true)
                      [sample_user])
    ∧ saved db'
    ∧ snd (reply_command 100 operator operator_chat (py_str_int 7 :: [lit "hello"]) sample_world) =
      World db' None
        ([] ++ (reply_request 7 (lit "hello"), true)
            :: (ReplyText 100 (reply_sent_text 7), true) :: [])
        (fun _ => None) [].
Proof.
  assert (H : wf_db (registry_db [sample_user]) [sample_user]) by solve_wf_db.
  split_and!; [exact H | reflexivity |].
  exact (reply_atomic 100 operator operator_chat 7 [lit "hello"] sample_world [sample_user]
           sample_user eq_refl ltac:(done) H eq_refl).
Defined.

Lemma reply_unknown_target_unrecorded_witness :
  wf_db (registry_db [sample_user]) [sample_user] ∧ reg_find 9 [sample_user] = None ∧
  reply_command 100 operator operator_chat (py_str_int 9 :: [lit "hello"]) sample_world =
    (Ok tt, World (registry_db [sample_user]) None
              ([] ++ [(reply_request 9 (py_join (lit " ") [lit "hello"]), true);
                      (ReplyText 100 (reply_sent_text 9), true)])
              (fun _ => None) []).
Proof.
  assert (H : wf_db (registry_db [sample_user]) [sample_user]) by solve_wf_db.
  split_and!; [exact H | reflexivity |].
  exact (reply_unknown_target_unrecorded 100 operator operator_chat 9 [lit "hello"] sample_world
           [sample_user] eq_refl ltac:(done) H eq_refl eq_refl eq_refl).
Defined.

Definition note : message_rec := MessageRec (lit "hi") (lit "2024-01-01T00:00:00") false.

(** The spec's example: three active users with 2, 0 and 4 messages. *)
Definition stats_users : list user_rec :=
  [UserRec 1 None (Some (lit "A")) (lit "2024-01-01T00:00:00") (repeat note 2) true;
   UserRec 2 None (Some (lit "B")) (lit "2024-01-01T00:00:00") [] true;
   UserRec 3 None (Some (lit "C")) (lit "2024-01-01T00:00:00") (repeat note 4) true].

Definition stats_world : world := World (registry_db stats_users) None [] (fun _ => None) [].

Lemma stats_reports_counts_witness :
  wf_db (registry_db stats_users) stats_users ∧
  stats_command 100 operator operator_chat stats_world =
    api_call (ReplyText 100 (stats_text 3 6)) stats_world
  ∧ stats_text 3 6 =
    lit "📊 Statistics" ++ nl ++ nl ++ lit "👥 Total Users: 3" ++ nl
    ++ lit "💬 Total Messages: 6" ++ nl ++ lit "📈 Average Messages per User: 2.0".
Proof.
  assert (H : wf_db (registry_db stats_users) stats_users) by solve_wf_db.
  split_and!; [exact H | | vm_compute; reflexivity].
  exact (stats_reports_counts 100 operator operator_chat stats_world stats_users eq_refl H).
Defined.

Lemma block_command_spec_witness :
  wf_db sample_db [sample_user] ∧
  ∃ db', wf_db db' (reg_set_active 7 false [sample_user]) ∧ saved db'
    ∧ reg_find 7 (reg_set_active 7 false [sample_user]) = Some (with_active false sample_user)
    ∧ block_command 100 operator operator_chat [py_str_int 7] sample_world =
      api_call (ReplyText 100 (block_reply_text false 7)) (set_db db' sample_world).
Proof.
  assert (H : wf_db sample_db [sample_user]) by solve_wf_db.
  split; [exact H|].
  exact (block_command_spec 100 operator operator_chat 7 false sample_world [sample_user] eq_refl H).
Defined.

Lemma selection_button_roundtrip_witness :
  wf_db sample_db [sample_user] ∧ sample_user ∈ reg_active [sample_user]
  ∧ reply_button (user_obj sample_user) = Ok (lit "Ann (7)", lit "reply_7")
  ∧ admin_current_chat (snd (button_callback 100 (lit "reply_7") sample_world)) = Some 7%Z
  ∧ w_db (snd (button_callback 100 (lit "reply_7") sample_world)) = w_db sample_world.
Proof.
  assert (H : wf_db sample_db [sample_user]) by solve_wf_db.
  assert (Ha : sample_user ∈ reg_active [sample_user]) by (simpl; left).
  assert (Hb : reply_button (user_obj sample_user) = Ok (lit "Ann (7)", lit "reply_7"))
    by (vm_compute; reflexivity).
  pose proof (selection_button_roundtrip 100 sample_world [sample_user] sample_user _ _ H Ha Hb eq_refl)
    as R.
  split_and!; [exact H | exact Ha | exact Hb | apply R | apply R].
Defined.


(** A user who has neither a username nor a first name. *)
Definition anonymous_user : user_rec :=
  UserRec 9 None None (lit "2024-01-01T10:20:30.123456") [] true.

Definition listing_world : world :=
  World (registry_db [sample_user; anonymous_user]) None [] (fun _ => None) [].

Lemma users_command_lists_active_witness :
  wf_db (w_db listing_world) [sample_user; anonymous_user]
  ∧ reg_active [sample_user; anonymous_user] ≠ []
  ∧ (∀ i, length (w_log listing_world) <= i -> delivered (w_net listing_world) i = true)
  ∧ user_block anonymous_user =
      lit "🆔 ID: 9" ++ nl ++ lit "👤 Name: None" ++ nl ++ lit "📝 Username: @None" ++ nl
      ++ lit "📅 Joined: 2024-01-01" ++ nl ++ lit "💬 Messages: 0" ++ nl
      ++ py_repeat (lit "─") 30 ++ nl
  ∧ let listing := lit "👥 Active Users:" ++ nl ++ nl
                   ++ mjoin (map user_block (reg_active [sample_user; anonymous_user])) in
    ∃ texts, snd (users_command 100 operator operator_chat listing_world)
               = World (w_db listing_world) (admin_current_chat listing_world)
                   (w_log listing_world ++ map (fun t => (ReplyText (tm_chat operator_chat) t, true)) texts)
                   (w_net listing_world) (w_err listing_world)
           ∧ mjoin texts = listing ∧ Forall (fun t => length t <= 4096) texts
           ∧ length texts = Nat.max 1 ((length listing + 4095) / 4096).
Proof.
  assert (H : wf_db (w_db listing_world) [sample_user; anonymous_user]) by solve_wf_db.
  assert (Hne : reg_active [sample_user; anonymous_user] ≠ []) by discriminate.
  assert (Hd : ∀ i, length (w_log listing_world) <= i -> delivered (w_net listing_world) i = true)
    by (intros; reflexivity).
  split_and!; [exact H | exact Hne | exact Hd | vm_compute; reflexivity |].
  exact (users_command_lists_active 100 operator operator_chat listing_world
           [sample_user; anonymous_user] eq_refl H Hne Hd).
Defined.

(** Six active users: the keyboard offers the last five registered. *)
Definition six_users_world : world :=
  World (registry_db (sample_user :: five_users)) None [] (fun _ => None) [].

Definition operator_text : tg_message := TgMessage 100 (Some (lit "hello")) None.

Lemma admin_message_keyboard_witness :
  wf_db (w_db six_users_world) (sample_user :: five_users)
  ∧ tm_text operator_text = Some (lit "hello") ∧ startswith (lit "/") (lit "hello") = false
  ∧ last_n 5 (reg_active (sample_user :: five_users)) = five_users
  ∧ handle_admin_message operator_text six_users_world =
      api_call
        (if bool_decide (reg_active (sample_user :: five_users) = [])
         then ReplyText (tm_chat operator_text) (lit "No active users to reply to.")
         else ReplyKeyboard (tm_chat operator_text) (lit "Select a user to reply to:")
                (map (fun r => (py_format (opt_str (u_first_name r)) ++ lit " (" ++ py_str_int (u_id r) ++ lit ")",
                                lit "reply_" ++ py_str_int (u_id r)))
                     (last_n 5 (reg_active (sample_user :: five_users))))) six_users_world.
Proof.
  assert (H : wf_db (w_db six_users_world) (sample_user :: five_users)) by solve_wf_db.
  split_and!; [exact H | reflexivity | reflexivity | vm_compute; reflexivity |].
  exact (admin_message_keyboard operator_text (lit "hello") six_users_world _ H eq_refl eq_refl).
Defined.

(** A two-line reply arrives as one line. *)
Definition two_line_body : pystr := lit "line one" ++ nl ++ lit "line  two".

Lemma reply_text_rebuilt_from_words_witness :
  tu_id operator = 100%Z ∧ py_split_ws two_line_body ≠ []
  ∧ py_join (lit " ") (py_split_ws two_line_body) = lit "line one line two"
  ∧ ∃ rest, w_log (snd (reply_command 100 operator operator_chat
                          (command_args (lit "/reply " ++ py_str_int 7 ++ lit " " ++ two_line_body))
                          sample_world))
            = w_log sample_world
              ++ (reply_request 7 (py_join (lit " ") (py_split_ws two_line_body)),
                  delivered (w_net sample_world) (length (w_log sample_world))) :: rest.
Proof.
  assert (Hb : py_split_ws two_line_body ≠ []) by (vm_compute; discriminate).
  split_and!; [reflexivity | exact Hb | vm_compute; reflexivity |].
  exact (reply_text_rebuilt_from_words 100 operator operator_chat 7 two_line_body sample_world eq_refl Hb).
Defined.
