(* ===== verification/Bot.v ===== *)
(** * The bot: [main]'s handler table and runs over sequences of updates

    [main] registers eight [CommandHandler]s, one [CallbackQueryHandler]
    and one [MessageHandler(filters.ALL & ~filters.COMMAND)].  [dispatch]
    routes an update the same way: a command to the handler of its name
    (nothing for an unknown name, since the message filter excludes
    commands), a button press to [button_callback], any other message to
    [handle_message].  python-telegram-bot handles the updates one at a
    time.  An exception a handler raises ends that update, and the
    [Application] logs it ([log_handler_error]): the effects made before
    it remain.  So [process_update] keeps the final world whatever the
    outcome, adding the log record of an escaping exception, and [run]
    folds it over a list.

    The invariants are stated with [within] and the preorder [evolves Q]
    on worlds: every well-formed registry stays well formed, it moves
    along [Q] within [db_frame] (only the ["users"] entry of
    [self.data] changes, and a registry on disk stays on disk), and the
    log of requests only grows.  Each handler is
    decomposed by [solve_within] into registry calls, requests and pure
    steps.  The hypotheses of the section [Evolves] say which registry
    operations keep [Q].  Induction over the list of updates then gives
    the theorems about runs. *)

From S2P Require Import Prelude PyStr PyM PyObj Logging Database Telegram Relay Admin.

(** ** Runs *)

(** python-telegram-bot's [Application.process_error] when no error
    handler is registered, as in [main]:
    [_LOGGER.exception("No error handlers are registered, logging
    exception.", exc_info=error)], on the library's logger, which the
    root's handler writes. *)
Definition app_error_record (e : exn) : log_record :=
  LogRecord (lit "telegram.ext.Application") ERROR
    (lit "No error handlers are registered, logging exception.") (Some e).

Definition log_handler_error (e : exn) (w : world) : world :=
  World (w_db w) (admin_current_chat w) (w_log w) (w_net w)
    (log_emit bot_log_config (app_error_record e) (w_err w)).

Section Bot.
Context (ADMIN_USER_ID : Z).

(** [handle_message] *)
Definition handle_message (user : tg_user) (message : tg_message) : PyM world unit :=
  if bool_decide (tu_id user = ADMIN_USER_ID) then handle_admin_message message
  else handle_client_message ADMIN_USER_ID user message.

(** [main]'s handlers, tried in registration order: the eight
    [CommandHandler]s by command name, then the [CallbackQueryHandler],
    then the [MessageHandler], whose filter [~filters.COMMAND] leaves an
    unknown command unhandled.  A command's name is compared after
    python-telegram-bot has lowered its case and dropped any [@botname]
    suffix. *)
Definition dispatch (u : update) : PyM world unit :=
  match u with
  | UCommand from msg name args =>
    if bool_decide (name = lit "start") then start ADMIN_USER_ID from msg
    else if bool_decide (name = lit "help") then help_command ADMIN_USER_ID from msg
    else if bool_decide (name = lit "users") then users_command ADMIN_USER_ID from msg
    else if bool_decide (name = lit "stats") then stats_command ADMIN_USER_ID from msg
    else if bool_decide (name = lit "reply") then reply_command ADMIN_USER_ID from msg args
    else if bool_decide (name = lit "broadcast") then broadcast_command ADMIN_USER_ID from msg args
    else if bool_decide (name = lit "block") then block_command ADMIN_USER_ID from msg args
    else if bool_decide (name = lit "unblock") then unblock_command ADMIN_USER_ID from msg args
    else return_none
  | UCallback from chat data => button_callback chat data
  | UMessage from msg => handle_message from msg
  end.

(** One update: the handler's effects stay, and an exception that
    escapes it is logged. *)
Definition process_update (u : update) (w : world) : world :=
  match dispatch u w with
  | (Ok _, w') => w'
  | (Raised e, w') => log_handler_error e w'
  end.

Fixpoint run (us : list update) (w : world) : world :=
  match us with
  | [] => w
  | u :: us' => run us' (process_update u w)
  end.

End Bot.

(** What [process_update] adds to the handler's run: a log record for an
    escaping exception, nothing else. *)
Lemma process_update_run ADMIN_USER_ID u w :
  let w' := snd (dispatch ADMIN_USER_ID u w) in
  process_update ADMIN_USER_ID u w =
    World (w_db w') (admin_current_chat w') (w_log w') (w_net w')
      (w_err w' ++ match fst (dispatch ADMIN_USER_ID u w) with Ok _ => [] | Raised e => [app_error_record e] end).
Proof.
  unfold process_update. destruct (dispatch ADMIN_USER_ID u w) as [[a|e] w']; cbn; [|done].
  rewrite app_nil_r. by destruct w'.
Qed.

(** ** The preorder [evolves] *)

Definition evolves (Q : relation (list user_rec)) (w w' : world) : Prop :=
  (∀ rs, wf_db (w_db w) rs -> ∃ rs', wf_db (w_db w') rs' ∧ Q rs rs' ∧ db_frame (w_db w) (w_db w'))
  ∧ w_log w `prefix_of` w_log w'.

#[export] Instance evolves_preorder Q `{!PreOrder Q} : PreOrder (evolves Q).
Proof.
  split.
  - intros w. split; [|done]. intros rs Hwf. by exists rs.
  - intros w1 w2 w3 [H12 P12] [H23 P23]. split; [|by etrans].
    intros rs Hwf. destruct (H12 rs Hwf) as (rs2 & Hwf2 & Q12 & F12).
    destruct (H23 rs2 Hwf2) as (rs3 & Hwf3 & Q23 & F23). exists rs3. split_and!; [done|by etrans|by etrans].
Qed.

Section Evolves.
Context (Q : relation (list user_rec)) `{!PreOrder Q}.

Lemma within_api_call r : within (evolves Q) (api_call r).
Proof using Type*.
  intros w. rewrite api_call_run. split; simpl; [|by eexists].
  intros rs Hwf. by exists rs.
Qed.

Lemma within_logger_error msg : within (evolves Q) (logger_error msg).
Proof using Type*. intros w. split; [|done]. intros rs Hwf. by exists rs. Qed.

Lemma within_set_current_chat uid : within (evolves Q) (set_current_chat uid).
Proof using Type*. intros w. split; simpl; [|done]. intros rs Hwf. by exists rs. Qed.

(** A registry call that moves every well-formed registry along [Q]. *)
Lemma within_db_op {A} (m : PyM DB A) :
  (∀ db rs, wf_db db rs -> ∃ rs', wf_db (snd (m db)) rs' ∧ Q rs rs' ∧ db_frame db (snd (m db))) ->
  within (evolves Q) (db_op m).
Proof using Type*.
  intros Hm w. unfold db_op, zoom. cbn [view db_lens].
  destruct (m (w_db w)) as [o d'] eqn:E. split; simpl; [|done].
  intros rs Hwf. destruct (Hm _ _ Hwf) as (rs' & ? & ? & ?). rewrite E in *. eauto.
Qed.

Lemma within_get_user uid : within (evolves Q) (db_op (get_user uid)).
Proof using Type*.
  apply within_db_op. intros db rs Hwf. rewrite (get_user_run _ _ Hwf). by exists rs.
Qed.

Lemma within_get_all_users : within (evolves Q) (db_op get_all_users).
Proof using Type*.
  apply within_db_op. intros db rs Hwf. rewrite (get_all_users_run _ _ Hwf). by exists rs.
Qed.

Lemma within_run_call c :
  (∀ now rs, reg_ok rs -> Q rs (abs_call now c rs)) -> within (evolves Q) (db_op (run_call c)).
Proof using Type*.
  intros Hc. apply within_db_op. intros db rs Hwf.
  pose proof (run_call_frame db rs c Hwf) as Hf.
  destruct (run_call_refines db rs c Hwf) as (db' & E & ? & _). rewrite E in Hf |- *.
  eexists; split_and!; [done| |done]. apply Hc. by destruct Hwf as (? & _ & _ & ?).
Qed.

End Evolves.

(** ** Every handler moves the registry along [Q] *)

Section Handlers.
Context (ADMIN_USER_ID : Z) (Q : relation (list user_rec)) `{!PreOrder Q}.
Hypothesis Q_upsert : ∀ uid un fn now rs, reg_ok rs -> Q rs (reg_upsert uid un fn now rs).
Hypothesis Q_reply : ∀ uid t now rs, reg_ok rs -> Q rs (reg_append uid (MessageRec t now true) rs).
Hypothesis Q_block : ∀ uid rs, reg_ok rs -> Q rs (reg_set_active uid false rs).

Lemma within_add_user uid un fn : within (evolves Q) (db_op (add_user uid un fn)).
Proof using Q_upsert Type*. apply (within_run_call Q (CallAddUser uid un fn)). intros. by apply Q_upsert. Qed.

Lemma within_add_reply uid t : within (evolves Q) (db_op (add_message uid t true)).
Proof using Q_reply Type*. apply (within_run_call Q (CallAddMessage uid t true)). intros. by apply Q_reply. Qed.

Lemma within_deactivate uid : within (evolves Q) (db_op (deactivate_user uid)).
Proof using Q_block Type*. apply (within_run_call Q (CallDeactivate uid)). intros. by apply Q_block. Qed.

Ltac within_step := idtac;
  match goal with
  | |- within _ (api_call _) => apply within_api_call
  | |- within _ (logger_error _) => apply within_logger_error
  | |- within _ (set_current_chat _) => apply within_set_current_chat
  | |- within _ (db_op (get_user _)) => apply within_get_user
  | |- within _ (db_op get_all_users) => apply within_get_all_users
  | |- within _ (db_op (add_user _ _ _)) => apply within_add_user
  | |- within _ (db_op (add_message _ _ true)) => apply within_add_reply
  | |- within _ (db_op (deactivate_user _)) => apply within_deactivate
  end.

Ltac solve_handler := cbv zeta; solve_within within_step.

Lemma within_start user msg : within (evolves Q) (start ADMIN_USER_ID user msg).
Proof using Q_upsert Type*. unfold start. solve_handler. Qed.

Lemma within_help user msg : within (evolves Q) (help_command ADMIN_USER_ID user msg).
Proof using Type*. unfold help_command. solve_handler. Qed.

Lemma within_users user msg : within (evolves Q) (users_command ADMIN_USER_ID user msg).
Proof using Type*. unfold users_command, send_chunked. solve_handler. Qed.

Lemma within_stats user msg : within (evolves Q) (stats_command ADMIN_USER_ID user msg).
Proof using Type*. unfold stats_command, total_messages_of. solve_handler. Qed.

Lemma within_reply user msg args : within (evolves Q) (reply_command ADMIN_USER_ID user msg args).
Proof using Q_reply Type*. unfold reply_command. solve_handler. Qed.

Lemma within_broadcast user msg args : within (evolves Q) (broadcast_command ADMIN_USER_ID user msg args).
Proof using Type*. unfold broadcast_command, broadcast_one. solve_handler. Qed.

Lemma within_block user msg args : within (evolves Q) (block_command ADMIN_USER_ID user msg args).
Proof using Q_block Type*. unfold block_command. solve_handler. Qed.

Lemma within_admin_message msg : within (evolves Q) (handle_admin_message msg).
Proof using Type*. unfold handle_admin_message. solve_handler. Qed.

Lemma within_button chat data : within (evolves Q) (button_callback chat data).
Proof using Type*. unfold button_callback. solve_handler. Qed.

Lemma within_unblock user msg args :
  (∀ uid rs, reg_ok rs -> Q rs (reg_set_active uid true rs)) ->
  within (evolves Q) (unblock_command ADMIN_USER_ID user msg args).
Proof using Type*.
  intros Hu. unfold unblock_command. solve_handler.
  apply (within_run_call Q (CallActivate _)). intros. by apply Hu.
Qed.

Lemma within_client_message user msg :
  (∀ t now rs, reg_ok rs -> Q rs (reg_append (tu_id user) (MessageRec t now false) rs)) ->
  within (evolves Q) (handle_client_message ADMIN_USER_ID user msg).
Proof using Q_upsert Type*.
  intros Hc. unfold handle_client_message, is_blocked. solve_handler.
  apply (within_run_call Q (CallAddMessage _ _ false)). intros. by apply Hc.
Qed.

End Handlers.

(** ** Every update, and every run *)

Section Dispatch.
Context (ADMIN_USER_ID : Z) (Q : relation (list user_rec)) `{!PreOrder Q}.
Hypothesis Q_upsert : ∀ uid un fn now rs, reg_ok rs -> Q rs (reg_upsert uid un fn now rs).
Hypothesis Q_reply : ∀ uid t now rs, reg_ok rs -> Q rs (reg_append uid (MessageRec t now true) rs).
Hypothesis Q_block : ∀ uid rs, reg_ok rs -> Q rs (reg_set_active uid false rs).
Hypothesis Q_unblock : ∀ uid rs, reg_ok rs -> Q rs (reg_set_active uid true rs).
Hypothesis Q_note : ∀ uid t now rs, reg_ok rs -> Q rs (reg_append uid (MessageRec t now false) rs).

Ltac dispatch_step := idtac;
  match goal with
  | |- within _ (start _ _ _) => apply within_start
  | |- within _ (help_command _ _ _) => apply within_help
  | |- within _ (users_command _ _ _) => apply within_users
  | |- within _ (stats_command _ _ _) => apply within_stats
  | |- within _ (reply_command _ _ _ _) => apply within_reply
  | |- within _ (broadcast_command _ _ _ _) => apply within_broadcast
  | |- within _ (block_command _ _ _ _) => apply within_block
  | |- within _ (unblock_command _ _ _ _) => apply within_unblock
  | |- within _ (handle_message _ _ _) => unfold handle_message
  | |- within _ (handle_admin_message _) => apply within_admin_message
  | |- within _ (handle_client_message _ _ _) => apply within_client_message
  | |- within _ (button_callback _ _) => apply within_button
  | |- Q _ _ => first [apply Q_note | apply Q_unblock | apply Q_block | apply Q_reply | apply Q_upsert];
               assumption
  | |- _ => assumption
  end.

Lemma within_dispatch u : within (evolves Q) (dispatch ADMIN_USER_ID u).
Proof using Type*. unfold dispatch. solve_within dispatch_step. Qed.

Lemma evolves_run us w : evolves Q w (run ADMIN_USER_ID us w).
Proof using Type*.
  revert w. induction us as [|u us IH]; intros w; simpl; [reflexivity|].
  etrans; [|apply IH]. unfold evolves. rewrite process_update_run. apply within_dispatch.
Qed.

End Dispatch.

(** ** The append-only ledger *)

(** Every record of [rs] is still in [rs'] under its id, with the same
    profile and join date, and a ledger that extends the old one. *)
Definition ledger_le (rs rs' : list user_rec) : Prop :=
  ∀ uid r, reg_find uid rs = Some r ->
    ∃ r', reg_find uid rs' = Some r' ∧ u_username r' = u_username r ∧ u_first_name r' = u_first_name r
          ∧ u_joined r' = u_joined r ∧ u_messages r `prefix_of` u_messages r'.

#[export] Instance ledger_le_preorder : PreOrder ledger_le.
Proof.
  split.
  - intros rs uid r Hr. exists r. by split_and!.
  - intros rs1 rs2 rs3 H12 H23 uid r Hr.
    destruct (H12 uid r Hr) as (r2 & Hr2 & ? & ? & ? & ?).
    destruct (H23 uid r2 Hr2) as (r3 & Hr3 & ? & ? & ? & ?).
    exists r3. split_and!; try congruence. by etrans.
Qed.

Lemma ledger_le_upsert uid un fn now rs : ledger_le rs (reg_upsert uid un fn now rs).
Proof.
  intros uid' r Hr. exists r. split_and!; try done.
  destruct (decide (uid = uid')) as [<-|Hne].
  - by rewrite (find_upsert_present _ _ _ _ _ _ Hr).
  - by rewrite find_upsert_other.
Qed.

Lemma ledger_le_append uid m rs : ledger_le rs (reg_append uid m rs).
Proof.
  intros uid' r Hr. destruct (decide (uid = uid')) as [<-|Hne].
  - exists (with_message m r). rewrite find_append, Hr. split_and!; try done.
    apply prefix_app_r. done.
  - exists r. rewrite find_append_other by done. by split_and!.
Qed.

Lemma ledger_le_set_active uid b rs : ledger_le rs (reg_set_active uid b rs).
Proof.
  intros uid' r Hr. destruct (decide (uid = uid')) as [<-|Hne].
  - exists (with_active b r). by rewrite find_set_active, Hr.
  - exists r. rewrite find_set_active_other by done. by split_and!.
Qed.

(** A run touches nothing of [self.data] but its ["users"] entry, and a
    registry that was on disk is on disk after it. *)
Lemma run_frame ADMIN_USER_ID us w rs :
  wf_db (w_db w) rs -> db_frame (w_db w) (w_db (run ADMIN_USER_ID us w)).
Proof.
  intros Hwf.
  destruct (evolves_run ADMIN_USER_ID ledger_le (fun _ _ _ _ _ _ => ledger_le_upsert _ _ _ _ _)
              (fun _ _ _ _ _ => ledger_le_append _ _ _) (fun _ _ _ => ledger_le_set_active _ _ _)
              (fun _ _ _ => ledger_le_set_active _ _ _) (fun _ _ _ _ _ => ledger_le_append _ _ _) us w)
    as [H _].
  by destruct (H rs Hwf) as (rs' & _ & _ & ?).
Qed.

(** C5 (invariant): over any sequence of updates, whichever requests
    Telegram rejects and whichever handlers raise, the registry stays
    well formed, no record is ever deleted, no record's id, profile or
    join date changes, every ledger only grows at its end, and the log of
    requests only grows. *)
Theorem run_ledger_append_only ADMIN_USER_ID us w rs :
  wf_db (w_db w) rs ->
  ∃ rs', wf_db (w_db (run ADMIN_USER_ID us w)) rs' ∧ ledger_le rs rs'
       ∧ w_log w `prefix_of` w_log (run ADMIN_USER_ID us w).
Proof.
  intros Hwf.
  destruct (evolves_run ADMIN_USER_ID ledger_le (fun _ _ _ _ _ _ => ledger_le_upsert _ _ _ _ _)
              (fun _ _ _ _ _ => ledger_le_append _ _ _) (fun _ _ _ => ledger_le_set_active _ _ _)
              (fun _ _ _ => ledger_le_set_active _ _ _) (fun _ _ _ _ _ => ledger_le_append _ _ _) us w)
    as [H Hlog].
  destruct (H rs Hwf) as (rs' & ? & ? & _). eauto.
Qed.

(** ** Witnesses *)

(** A run mixing a client message, a reply, a block and a broadcast,
    on a network that rejects every other request. *)
Definition mixed_run : list update :=
  [UMessage (client 7) (text_message 7);
   UCommand operator operator_chat (lit "reply") [lit "7"; lit "thanks"];
   UCommand operator operator_chat (lit "block") [lit "7"];
   UCommand operator operator_chat (lit "broadcast") [lit "news"]].

Definition alternating_net (i : nat) : option pystr :=
  if Nat.even i then None else Some (lit "Timed out").

Lemma run_ledger_append_only_witness :
  wf_db sample_db [sample_user] ∧
  ∃ rs', wf_db (w_db (run 100 mixed_run (World sample_db None [] alternating_net []))) rs'
       ∧ ledger_le [sample_user] rs'
       ∧ [] `prefix_of` w_log (run 100 mixed_run (World sample_db None [] alternating_net [])).
Proof.
  assert (H : wf_db sample_db [sample_user]) by solve_wf_db.
  split; [exact H|].
  exact (run_ledger_append_only 100 mixed_run (World sample_db None [] alternating_net []) [sample_user] H).
Defined.
