(* ===== verification/Engine.v ===== *)
(** * The abstract relay engine and the refinement theorem

    [engine_step] is the spec's RelayEngine (§4.2) on the abstract
    registry: the registry effect of one update.  Section [Effects]
    computes the registry effect of every handler of [bot.py] on a
    well-formed registry.  Section [Refinement] proves that processing an
    update implements [engine_step] and, by induction, that every run of
    the bot implements [engine_run].  Theorems about sequences of updates
    (such as the spec's block-gating scenario) are then proved on the
    engine, by the registry laws alone. *)

From S2P Require Import Prelude PyStr PyM PyObj Database Telegram Relay Admin Bot.

(** ** The abstract relay engine

    [engine_step] is the registry effect of one update, on the abstract
    registry.  It reads one bit of the network: whether the first request
    the handler makes is delivered.  That bit matters only for [/reply],
    whose [add_message] comes after the send. *)

Section Engine.
Context (ADMIN_USER_ID : Z).

(** [int(context.args[0])] *)
Definition target_of (args : list pystr) : option Z := py_int (default [] (head args)).

(** [/block] and [/unblock]: for the operator, with one argument that
    parses. *)
Definition set_active_effect (operator value : bool) (args : list pystr) (rs : list user_rec)
  : list user_rec :=
  match operator, args with
  | true, [a] => match py_int a with Some uid => reg_set_active uid value rs | None => rs end
  | _, _ => rs
  end.

Definition engine_step (now : pystr) (first_delivered : bool) (u : update) (rs : list user_rec)
  : list user_rec :=
  match u with
  | UCommand from msg name args =>
    let operator := bool_decide (tu_id from = ADMIN_USER_ID) in
    if bool_decide (name = lit "start") then
      if operator then rs else reg_upsert (tu_id from) (tu_username from) (Some (tu_first_name from)) now rs
    else if bool_decide (name = lit "help") then rs
    else if bool_decide (name = lit "users") then rs
    else if bool_decide (name = lit "stats") then rs
    else if bool_decide (name = lit "reply") then
      if operator && (2 <=? length args) && first_delivered then
        match target_of args with
        | Some uid => reg_append uid (MessageRec (py_join (lit " ") (tail args)) now true) rs
        | None => rs
        end
      else rs
    else if bool_decide (name = lit "broadcast") then rs
    else if bool_decide (name = lit "block") then set_active_effect operator false args rs
    else if bool_decide (name = lit "unblock") then set_active_effect operator true args rs
    else rs
  | UCallback _ _ _ => rs
  | UMessage from msg =>
    if bool_decide (tu_id from = ADMIN_USER_ID) then rs
    else match reg_find (tu_id from) rs with
         | Some r =>
           if u_active r then reg_append (tu_id from) (MessageRec (message_text_of msg) now false) rs
           else rs
         | None => rs
         end
  end.

(** The engine over a run, with the delivery bit of each update. *)
Fixpoint engine_run (now : pystr) (bs : list bool) (us : list update) (rs : list user_rec)
  : list user_rec :=
  match us, bs with
  | u :: us', b :: bs' => engine_run now bs' us' (engine_step now b u rs)
  | _, _ => rs
  end.

End Engine.

(** ** Registry effects of the handlers *)

(** The registry of [w] abstracts to [rs] and its clock reads [now]. *)
Definition db_at (rs : list user_rec) (now : pystr) (w : world) : Prop :=
  wf_db (w_db w) rs ∧ clock (w_db w) = now.

Lemma db_at_process_update ADMIN_USER_ID u w rs now :
  db_at rs now (snd (dispatch ADMIN_USER_ID u w)) -> db_at rs now (process_update ADMIN_USER_ID u w).
Proof. unfold db_at. by rewrite process_update_run. Qed.

Lemma same_db_set_current_chat uid : within same_db (set_current_chat uid).
Proof. by intros w. Qed.

Lemma db_at_same {A} (m : PyM world A) w rs :
  within same_db m -> wf_db (w_db w) rs -> db_at rs (clock (w_db w)) (snd (m w)).
Proof. intros Hm Hwf. by apply same_db_wf. Qed.

(** A registry write, then requests only. *)
Lemma db_at_write {A B} (m : PyM DB A) (k : A -> PyM world B) w a db' rs now :
  m (w_db w) = (Ok a, db') -> wf_db db' rs -> clock db' = now -> within same_db (k a) ->
  db_at rs now (snd ((x ← db_op m; k x) w)).
Proof.
  intros Hm Hwf <- Hk. erewrite run_bind_ok by (apply db_op_run; exact Hm).
  by apply (same_db_wf (k a) (set_db db' w)).
Qed.

(** The same inside a [try] whose handler only makes requests. *)
Lemma db_at_try_write {A B} (m : PyM DB A) (k : A -> PyM world B) c h w a db' rs now :
  m (w_db w) = (Ok a, db') -> wf_db db' rs -> clock db' = now -> within same_db (k a) ->
  (∀ e, within same_db (h e)) ->
  db_at rs now (snd (try_except (x ← db_op m; k x) c h w)).
Proof.
  intros Hm Hwf <- Hk Hh. unfold try_except. erewrite run_bind_ok by (apply db_op_run; exact Hm).
  pose proof (Hk (set_db db' w)) as Hs. unfold same_db in Hs.
  destruct (k a (set_db db' w)) as [[b|e] s'] eqn:E; simpl in *; [by split; rewrite Hs|].
  destruct (c e); simpl; [|by split; rewrite Hs].
  rewrite <- Hs. apply (same_db_wf (h e) s'); [done|]. by rewrite Hs.
Qed.

Ltac same_db_step := idtac;
  match goal with
  | |- within _ (api_call _) => apply same_db_api_call
  | |- within _ (logger_error _) => apply same_db_logger_error
  | |- within _ (set_current_chat _) => apply same_db_set_current_chat
  | |- within _ (db_op (get_user _)) => apply same_db_db_op, get_user_pure
  | |- within _ (db_op get_all_users) => apply same_db_db_op, get_all_users_pure
  end.

Ltac solve_same_db := cbv zeta; solve_within same_db_step.

Section Effects.
Context (ADMIN_USER_ID : Z).

Lemma same_db_help user msg : within same_db (help_command ADMIN_USER_ID user msg).
Proof. unfold help_command. solve_same_db. Qed.

Lemma same_db_users user msg : within same_db (users_command ADMIN_USER_ID user msg).
Proof. unfold users_command, send_chunked. solve_same_db. Qed.

Lemma same_db_stats user msg : within same_db (stats_command ADMIN_USER_ID user msg).
Proof. unfold stats_command, total_messages_of. solve_same_db. Qed.

Lemma same_db_broadcast user msg args : within same_db (broadcast_command ADMIN_USER_ID user msg args).
Proof. unfold broadcast_command, broadcast_one. solve_same_db. Qed.

Lemma same_db_admin_message msg : within same_db (handle_admin_message msg).
Proof. unfold handle_admin_message. solve_same_db. Qed.

Lemma same_db_button chat data : within same_db (button_callback chat data).
Proof. unfold button_callback. solve_same_db. Qed.

Lemma start_effect user msg w rs :
  wf_db (w_db w) rs ->
  db_at (if bool_decide (tu_id user = ADMIN_USER_ID) then rs
         else reg_upsert (tu_id user) (tu_username user) (Some (tu_first_name user)) (clock (w_db w)) rs)
        (clock (w_db w)) (snd (start ADMIN_USER_ID user msg w)).
Proof.
  intros Hwf. unfold start. case_bool_decide.
  - apply db_at_same; [solve_same_db | done].
  - destruct (add_user_run _ _ Hwf (tu_id user) (tu_username user) (Some (tu_first_name user)))
      as (db' & Hrun & Hwf' & Hc & _).
    eapply db_at_write; [exact Hrun | exact Hwf' | exact Hc | solve_same_db].
Qed.

Lemma client_message_effect user msg w rs :
  wf_db (w_db w) rs ->
  db_at (match reg_find (tu_id user) rs with
         | Some r =>
           if u_active r then reg_append (tu_id user) (MessageRec (message_text_of msg) (clock (w_db w)) false) rs
           else rs
         | None => rs
         end) (clock (w_db w)) (snd (handle_client_message ADMIN_USER_ID user msg w)).
Proof.
  intros Hwf. destruct (reg_find (tu_id user) rs) as [r|] eqn:Hr; [destruct (u_active r) eqn:Ha|].
  - destruct (client_message_accepted_run ADMIN_USER_ID user msg w rs r Hwf Hr Ha) as (db' & Hwf' & _ & Hc & ->).
    assert (Ht : within same_db (try_except
      (api_call (SendMessage (PInt ADMIN_USER_ID) (forward_text user (message_text_of msg)));;
       api_call (ReplyText (tm_chat msg) confirm_text))
      any_exception (fun e => logger_error (forward_failed_log e);;
                              api_call (ReplyText (tm_chat msg) forward_error_text)))) by solve_same_db.
    destruct (same_db_wf _ (set_db db' w) _ Ht Hwf') as [H1 H2]. split; [done | by rewrite H2].
  - rewrite (client_message_rejected_run _ _ _ _ rs Hwf) by (by rewrite Hr).
    apply db_at_same; [apply same_db_api_call | done].
  - rewrite (client_message_rejected_run _ _ _ _ rs Hwf) by (by rewrite Hr).
    apply db_at_same; [apply same_db_api_call | done].
Qed.

Lemma set_active_command_effect (value : bool) user msg args w rs :
  wf_db (w_db w) rs ->
  db_at (set_active_effect (bool_decide (tu_id user = ADMIN_USER_ID)) value args rs) (clock (w_db w))
    (snd ((if value then unblock_command ADMIN_USER_ID else block_command ADMIN_USER_ID) user msg args w)).
Proof.
  intros Hwf. case_bool_decide as Hadm.
  2:{ apply db_at_same; [|done]. destruct value; unfold unblock_command, block_command, is_admin;
      rewrite bool_decide_eq_false_2 by done; solve_same_db. }
  destruct args as [|a [|b args]]; cbn [set_active_effect].
  1,3: apply db_at_same; [|done]; destruct value; unfold unblock_command, block_command;
    rewrite is_admin_true by done; cbn [negb length Nat.eqb]; solve_same_db.
  destruct (py_int a) as [uid|] eqn:Hi.
  - rewrite (set_active_command_unfold ADMIN_USER_ID user msg a uid value w Hadm Hi).
    destruct (run_call_refines (w_db w) rs (if value then CallActivate uid else CallDeactivate uid) Hwf)
      as (db' & Hrun & Hwf' & Hc & _).
    eapply db_at_try_write; [| | exact Hc | solve_same_db | solve_same_db].
    + destruct value; exact Hrun.
    + destruct value; exact Hwf'.
  - apply db_at_same; [|done]. destruct value; unfold unblock_command, block_command;
      rewrite is_admin_true by done; cbn [negb length Nat.eqb head default from_option id];
      unfold int_of_str; rewrite Hi; solve_same_db.
Qed.

Lemma reply_command_effect user msg args w rs :
  wf_db (w_db w) rs ->
  db_at (if bool_decide (tu_id user = ADMIN_USER_ID) && (2 <=? length args)
            && delivered (w_net w) (length (w_log w)) then
           match target_of args with
           | Some uid => reg_append uid (MessageRec (py_join (lit " ") (tail args)) (clock (w_db w)) true) rs
           | None => rs
           end
         else rs) (clock (w_db w)) (snd (reply_command ADMIN_USER_ID user msg args w)).
Proof.
  intros Hwf. case_bool_decide as Hadm; cbn [andb].
  2:{ apply db_at_same; [|done]. unfold reply_command, is_admin.
      rewrite bool_decide_eq_false_2 by done. solve_same_db. }
  destruct args as [|a [|a' words]]; cbn [length Nat.leb andb].
  1,2: apply db_at_same; [|done]; unfold reply_command; rewrite is_admin_true by done;
    cbn [negb length Nat.ltb Nat.leb]; solve_same_db.
  unfold target_of. cbn [head tail default from_option id].
  destruct (py_int a) as [uid|] eqn:Hi.
  - rewrite (reply_command_unfold ADMIN_USER_ID user msg a uid (a' :: words) w Hadm ltac:(done) Hi).
    unfold try_except. py_unfold. rewrite api_call_run.
    destruct (delivered (w_net w) (length (w_log w))); py_unfold.
    + destruct (run_call_refines (w_db w) rs (CallAddMessage uid (py_join (lit " ") (a' :: words)) true) Hwf)
        as (db' & Hrun & Hwf' & Hc & _).
      erewrite db_op_run by exact Hrun. py_unfold. rewrite api_call_run.
      destruct (delivered _ _); py_unfold; [done|]. rewrite api_call_run. by destruct (delivered _ _).
    + rewrite api_call_run. by destruct (delivered _ _).
  - destruct (delivered _ _); apply db_at_same; try done; unfold reply_command; rewrite is_admin_true by done;
      cbn [negb length Nat.ltb Nat.leb head default from_option id];
      unfold int_of_str; rewrite Hi; solve_same_db.
Qed.

End Effects.

(** ** Refinement of the engine *)

Section Refinement.
Context (ADMIN_USER_ID : Z).

Lemma update_refines_engine u w rs :
  wf_db (w_db w) rs ->
  db_at (engine_step ADMIN_USER_ID (clock (w_db w)) (delivered (w_net w) (length (w_log w))) u rs)
        (clock (w_db w)) (process_update ADMIN_USER_ID u w).
Proof.
  intros Hwf. apply db_at_process_update. unfold dispatch, engine_step.
  destruct u as [from msg name args|from msg|from chat data]; cbv zeta.
  - destruct (bool_decide (name = lit "start")); [by apply start_effect|].
    destruct (bool_decide (name = lit "help")); [by apply db_at_same; [apply same_db_help|]|].
    destruct (bool_decide (name = lit "users")); [by apply db_at_same; [apply same_db_users|]|].
    destruct (bool_decide (name = lit "stats")); [by apply db_at_same; [apply same_db_stats|]|].
    destruct (bool_decide (name = lit "reply")); [by apply reply_command_effect|].
    destruct (bool_decide (name = lit "broadcast")); [by apply db_at_same; [apply same_db_broadcast|]|].
    destruct (bool_decide (name = lit "block"));
      [lazymatch goal with |- context [block_command] => exact (set_active_command_effect _ false _ _ _ _ _ Hwf) end|].
    destruct (bool_decide (name = lit "unblock"));
      [lazymatch goal with |- context [unblock_command] => exact (set_active_command_effect _ true _ _ _ _ _ Hwf) end|].
    by apply db_at_same; [apply within_ret; apply _|].
  - unfold handle_message. destruct (bool_decide (tu_id from = ADMIN_USER_ID));
      [by apply db_at_same; [apply same_db_admin_message|] | by apply client_message_effect].
  - by apply db_at_same; [apply same_db_button|].
Qed.

(** The delivery bit of each update's first request along the run: the
    oracle's answer for the request at the end of the log when the update
    arrives, which is where [api_call] logs the first request the
    handler makes. *)
Fixpoint run_bits (us : list update) (w : world) : list bool :=
  match us with
  | [] => []
  | u :: us' => delivered (w_net w) (length (w_log w)) :: run_bits us' (process_update ADMIN_USER_ID u w)
  end.

Lemma length_run_bits us w : length (run_bits us w) = length us.
Proof. revert w. induction us as [|u us IH]; intros w; simpl; [done | by rewrite IH]. Qed.

(** One step of [update_refines_engine] per update: the bot's run and
    the engine's, for the delivery bits the run reads. *)
Lemma run_engine_bits us w rs :
  wf_db (w_db w) rs ->
  db_at (engine_run ADMIN_USER_ID (clock (w_db w)) (run_bits us w) us rs) (clock (w_db w))
        (run ADMIN_USER_ID us w).
Proof.
  revert w rs. induction us as [|u us IH]; intros w rs Hwf; [done|].
  destruct (update_refines_engine u w rs Hwf) as [Hwf1 Hc1].
  specialize (IH _ _ Hwf1). rewrite Hc1 in IH. exact IH.
Qed.

Lemma run_engine_trace us w rs :
  wf_db (w_db w) rs ->
  ∃ bs, length bs = length us
      ∧ db_at (engine_run ADMIN_USER_ID (clock (w_db w)) bs us rs) (clock (w_db w))
              (run ADMIN_USER_ID us w).
Proof. intros Hwf. exists (run_bits us w). split; [apply length_run_bits | by apply run_engine_bits]. Qed.

(** C3 (refinement): every run of the bot, over any sequence of updates
    and whichever requests Telegram rejects, leaves a well-formed registry
    equal to the abstract engine's run over the same updates, where the
    engine reads, for each update, whether the first request that update
    makes was delivered ([run_bits]).  The clock is not advanced. *)
Theorem run_refines_engine us w rs :
  wf_db (w_db w) rs ->
  db_at (engine_run ADMIN_USER_ID (clock (w_db w)) (run_bits us w) us rs) (clock (w_db w))
        (run ADMIN_USER_ID us w).
Proof. apply run_engine_bits. Qed.

End Refinement.

(** ** The engine on the updates of the block-gating scenario *)

Section EngineFacts.
Context (ADMIN_USER_ID : Z).

Lemma engine_set_active op msg a (value : bool) now b rs :
  tu_id op = ADMIN_USER_ID ->
  engine_step ADMIN_USER_ID now b
    (UCommand op msg (if value then lit "unblock" else lit "block") [a]) rs
  = match py_int a with Some uid => reg_set_active uid value rs | None => rs end.
Proof.
  intros H. unfold engine_step. cbv zeta.
  rewrite (bool_decide_eq_true_2 (tu_id op = ADMIN_USER_ID)) by done. by destruct value.
Qed.

Lemma engine_client_message from msg now b rs :
  tu_id from ≠ ADMIN_USER_ID ->
  engine_step ADMIN_USER_ID now b (UMessage from msg) rs =
    match reg_find (tu_id from) rs with
    | Some r => if u_active r then reg_append (tu_id from) (MessageRec (message_text_of msg) now false) rs
                else rs
    | None => rs
    end.
Proof. intros H. unfold engine_step. by rewrite bool_decide_eq_false_2. Qed.

End EngineFacts.

Section Scenarios.
Context (ADMIN_USER_ID : Z).

(** C13 (functional): block gating over a sequence (spec §8).  The
    operator blocks a registered client, the client sends [m1], the
    operator unblocks the client, the client sends [m2].  Whichever
    requests fail, the client's record ends active with exactly one new
    message, [m2], recorded with [is_from_admin = False]: [m1] was
    rejected and never recorded. *)
Theorem block_gating_sequence op chat client m1 m2 uid w rs r :
  tu_id op = ADMIN_USER_ID -> tu_id client = uid -> uid ≠ ADMIN_USER_ID ->
  wf_db (w_db w) rs -> reg_find uid rs = Some r ->
  let w' := run ADMIN_USER_ID
              [UCommand op chat (lit "block") [py_str_int uid]; UMessage client m1;
               UCommand op chat (lit "unblock") [py_str_int uid]; UMessage client m2] w in
  ∃ rs', wf_db (w_db w') rs'
    ∧ reg_find uid rs' = Some (with_message (MessageRec (message_text_of m2) (clock (w_db w)) false)
                                            (with_active true r)).
Proof.
  intros Hop Hc Hne Hwf Hr w'. unfold w'.
  match goal with |- context [run _ ?us _] =>
    destruct (run_engine_trace ADMIN_USER_ID us w rs Hwf) as (bs & Hlen & Hwf' & _) end.
  destruct bs as [|b1 [|b2 [|b3 [|b4 [|]]]]]; try discriminate.
  eexists; split; [exact Hwf'|]. cbn [engine_run].
  rewrite (engine_set_active _ op chat _ false) by done. rewrite py_int_str_roundtrip.
  set (rs1 := reg_set_active uid false rs).
  assert (H1 : reg_find uid rs1 = Some (with_active false r)) by (subst rs1; by rewrite find_set_active, Hr).
  rewrite (engine_client_message _ client m1) by congruence. rewrite Hc, H1. cbn [u_active with_active].
  rewrite (engine_set_active _ op chat _ true) by done. rewrite py_int_str_roundtrip.
  set (rs3 := reg_set_active uid true rs1).
  assert (H3 : reg_find uid rs3 = Some (with_active true r)) by (subst rs3; by rewrite find_set_active, H1).
  rewrite (engine_client_message _ client m2) by congruence. rewrite Hc, H3. cbn [u_active with_active].
  by rewrite find_append, H3.
Qed.

End Scenarios.

(** ** Blocked users stay blocked *)

(** The messages a user wrote, as opposed to the operator's replies. *)
Definition client_notes (r : user_rec) : list message_rec :=
  List.filter (fun m => negb (m_from_admin m)) (u_messages r).

(** If [uid] is blocked in [rs], it is blocked in [rs'] and has written
    nothing more. *)
Definition keeps_blocked (uid : Z) (rs rs' : list user_rec) : Prop :=
  ∀ r, reg_find uid rs = Some r -> u_active r = false ->
    ∃ r', reg_find uid rs' = Some r' ∧ u_active r' = false ∧ client_notes r' = client_notes r.

#[export] Instance keeps_blocked_preorder uid : PreOrder (keeps_blocked uid).
Proof.
  split.
  - intros rs r Hr Ha. by exists r.
  - intros rs1 rs2 rs3 H12 H23 r Hr Ha.
    destruct (H12 r Hr Ha) as (r2 & Hr2 & Ha2 & Hn2).
    destruct (H23 r2 Hr2 Ha2) as (r3 & ? & ? & ?). exists r3. split_and!; congruence.
Qed.

Section KeepsBlocked.
Context (uid : Z).

Lemma keeps_blocked_upsert uid' un fn now rs : keeps_blocked uid rs (reg_upsert uid' un fn now rs).
Proof.
  intros r Hr Ha. exists r. split_and!; try done.
  destruct (decide (uid' = uid)) as [<-|Hne].
  - by rewrite (find_upsert_present _ _ _ _ _ _ Hr).
  - by rewrite find_upsert_other.
Qed.

Lemma keeps_blocked_reply uid' t now rs : keeps_blocked uid rs (reg_append uid' (MessageRec t now true) rs).
Proof.
  intros r Hr Ha. destruct (decide (uid' = uid)) as [<-|Hne].
  - exists (with_message (MessageRec t now true) r). rewrite find_append, Hr. split_and!; try done.
    unfold client_notes. cbn [with_message u_messages]. rewrite List.filter_app. simpl.
    by rewrite app_nil_r.
  - exists r. by rewrite find_append_other.
Qed.

Lemma keeps_blocked_note_other uid' m rs : uid' ≠ uid -> keeps_blocked uid rs (reg_append uid' m rs).
Proof. intros Hne r Hr Ha. exists r. by rewrite find_append_other. Qed.

Lemma keeps_blocked_block uid' rs : keeps_blocked uid rs (reg_set_active uid' false rs).
Proof.
  intros r Hr Ha. destruct (decide (uid' = uid)) as [<-|Hne].
  - exists (with_active false r). by rewrite find_set_active, Hr.
  - exists r. by rewrite find_set_active_other.
Qed.

Lemma keeps_blocked_set_active_false o args rs :
  keeps_blocked uid rs (set_active_effect o false args rs).
Proof.
  destruct o, args as [|a [|]]; cbn [set_active_effect]; try reflexivity.
  destruct (py_int a); [apply keeps_blocked_block | reflexivity].
Qed.

End KeepsBlocked.

Section Silenced.
Context (ADMIN_USER_ID : Z).

(** An [/unblock] command from the operator. *)
Definition operator_unblock (u : update) : bool :=
  match u with
  | UCommand from _ name _ => bool_decide (tu_id from = ADMIN_USER_ID) && bool_decide (name = lit "unblock")
  | _ => false
  end.

Lemma engine_keeps_blocked uid now b u rs :
  operator_unblock u = false -> keeps_blocked uid rs (engine_step ADMIN_USER_ID now b u rs).
Proof.
  intros Hu. unfold engine_step. destruct u as [from msg name args|from msg|from chat data]; cbv zeta.
  - cbn [operator_unblock] in Hu.
    destruct (bool_decide (name = lit "start"));
      [case_bool_decide; [reflexivity | apply keeps_blocked_upsert]|].
    destruct (bool_decide (name = lit "help")); [reflexivity|].
    destruct (bool_decide (name = lit "users")); [reflexivity|].
    destruct (bool_decide (name = lit "stats")); [reflexivity|].
    destruct (bool_decide (name = lit "reply")).
    { destruct (_ && _ && _); [|reflexivity]. case_match; [apply keeps_blocked_reply | reflexivity]. }
    destruct (bool_decide (name = lit "broadcast")); [reflexivity|].
    destruct (bool_decide (name = lit "block")); [apply keeps_blocked_set_active_false|].
    destruct (bool_decide (name = lit "unblock")) eqn:Hn; [|reflexivity].
    rewrite andb_true_r in Hu. by rewrite Hu.
  - case_bool_decide; [reflexivity|].
    destruct (reg_find (tu_id from) rs) as [r0|] eqn:Hr0; [|reflexivity].
    destruct (u_active r0) eqn:Ha0; [|reflexivity].
    destruct (decide (tu_id from = uid)) as [<-|Hne].
    + intros r Hr Ha. congruence.
    + by apply keeps_blocked_note_other.
  - reflexivity.
Qed.

Lemma engine_run_keeps_blocked uid now bs us rs :
  Forall (fun u => operator_unblock u = false) us ->
  keeps_blocked uid rs (engine_run ADMIN_USER_ID now bs us rs).
Proof.
  revert bs rs. induction us as [|u us IH]; intros [|b bs] rs Hus; try reflexivity.
  inversion_clear Hus. cbn [engine_run]. etrans; [by apply engine_keeps_blocked | by apply IH].
Qed.

(** C6 (invariant): block gating over any run.  While no [/unblock] from
    the operator is processed, a blocked user stays blocked and nothing
    the user writes is recorded, whatever else happens: other clients'
    messages, operator replies (which are recorded), broadcasts, blocks,
    failed requests. *)
Theorem blocked_user_stays_blocked us w rs uid r :
  wf_db (w_db w) rs -> reg_find uid rs = Some r -> u_active r = false ->
  Forall (fun u => operator_unblock u = false) us ->
  ∃ rs' r', wf_db (w_db (run ADMIN_USER_ID us w)) rs' ∧ reg_find uid rs' = Some r'
          ∧ u_active r' = false ∧ client_notes r' = client_notes r.
Proof.
  intros Hwf Hr Ha Hus.
  destruct (run_engine_trace ADMIN_USER_ID us w rs Hwf) as (bs & _ & Hwf' & _).
  destruct (engine_run_keeps_blocked uid (clock (w_db w)) bs us rs Hus r Hr Ha) as (r' & ? & ? & ?).
  eauto 10.
Qed.

End Silenced.

(** ** Every client message is answered *)

Section Answered.
Context (ADMIN_USER_ID : Z).

(** A request to [chat] among the requests appended to the log. *)
Definition answers (chat : Z) (w w' : world) : Prop :=
  ∃ t d, (ReplyText chat t, d) ∈ drop (length (w_log w)) (w_log w').

Lemma answers_api_call chat t w : answers chat w (snd (api_call (ReplyText chat t) w)).
Proof.
  rewrite api_call_run. exists t, (delivered (w_net w) (length (w_log w))). simpl.
  rewrite drop_app_length. by left.
Qed.

(** C9 (liveness): every message from a client gets an answer.  On a
    well-formed registry, processing a message from anyone but the
    operator always sends the client a reply in the chat it wrote from:
    the blocked notice, the confirmation, or the error notice when the
    forward or the confirmation fails.  (The answer may itself fail to be
    delivered; it is always attempted.) *)
Theorem client_message_answered from msg w rs :
  tu_id from ≠ ADMIN_USER_ID -> wf_db (w_db w) rs ->
  answers (tm_chat msg) w (process_update ADMIN_USER_ID (UMessage from msg) w).
Proof.
  intros Hne Hwf. unfold answers. rewrite process_update_run. fold (answers (tm_chat msg) w (snd (dispatch ADMIN_USER_ID (UMessage from msg) w))).
  unfold dispatch, handle_message.
  rewrite bool_decide_eq_false_2 by done.
  destruct (reg_find (tu_id from) rs) as [r|] eqn:Hr; [destruct (u_active r) eqn:Ha|].
  - destruct (client_message_accepted_run ADMIN_USER_ID from msg w rs r Hwf Hr Ha)
      as (db' & _ & _ & _ & ->).
    unfold try_except. py_unfold. rewrite api_call_run. world_simpl.
    destruct (delivered _ _); py_unfold; rewrite ?logger_error_run; py_unfold; rewrite api_call_run; world_simpl;
      [destruct (delivered _ _); py_unfold; [|rewrite logger_error_run; py_unfold; rewrite api_call_run; world_simpl]|];
      unfold answers; cbn [snd w_log]; rewrite drop_app_length;
      do 2 eexists; apply list_elem_of_In; simpl; eauto.
  - rewrite (client_message_rejected_run ADMIN_USER_ID _ _ _ rs Hwf) by (by rewrite Hr).
    apply answers_api_call.
  - rewrite (client_message_rejected_run ADMIN_USER_ID _ _ _ rs Hwf) by (by rewrite Hr).
    apply answers_api_call.
Qed.

End Answered.

(** ** Witnesses *)

(** The run reads [false] for the [/reply]: its send is the second
    request of the run, which [alternating_net] rejects, so the engine
    records no reply. *)
Lemma run_refines_engine_witness :
  wf_db sample_db [sample_user] ∧
  run_bits 100 mixed_run (World sample_db None [] alternating_net []) = [true; false; false; true] ∧
  db_at (engine_run 100 (clock sample_db) (run_bits 100 mixed_run (World sample_db None [] alternating_net []))
           mixed_run [sample_user]) (clock sample_db)
        (run 100 mixed_run (World sample_db None [] alternating_net [])).
Proof.
  assert (H : wf_db sample_db [sample_user]) by solve_wf_db.
  split_and!; [exact H | vm_compute; reflexivity |].
  exact (run_refines_engine 100 mixed_run (World sample_db None [] alternating_net []) [sample_user] H).
Defined.

Lemma block_gating_sequence_witness :
  tu_id operator = 100%Z ∧ tu_id (client 7) = 7%Z ∧ (7 ≠ 100)%Z ∧
  wf_db sample_db [sample_user] ∧ reg_find 7 [sample_user] = Some sample_user ∧
  ∃ rs', wf_db (w_db (run 100
            [UCommand operator operator_chat (lit "block") [py_str_int 7];
             UMessage (client 7) (text_message 7);
             UCommand operator operator_chat (lit "unblock") [py_str_int 7];
             UMessage (client 7) (TgMessage 7 None (Some (lit "photo")))]
            (World sample_db None [] alternating_net []))) rs'
    ∧ reg_find 7 rs' = Some (with_message (MessageRec (lit "photo") (clock sample_db) false)
                                          (with_active true sample_user)).
Proof.
  assert (H : wf_db sample_db [sample_user]) by solve_wf_db.
  split_and!; [reflexivity | reflexivity | lia | exact H | reflexivity |].
  exact (block_gating_sequence 100 operator operator_chat (client 7) (text_message 7)
           (TgMessage 7 None (Some (lit "photo"))) 7 (World sample_db None [] alternating_net [])
           [sample_user] sample_user eq_refl eq_refl ltac:(lia) H eq_refl).
Defined.

Lemma blocked_user_stays_blocked_witness :
  wf_db (registry_db [sample_user; blocked_user]) [sample_user; blocked_user]
  ∧ reg_find 8 [sample_user; blocked_user] = Some blocked_user ∧ u_active blocked_user = false
  ∧ Forall (fun u => operator_unblock 100 u = false) (UMessage (client 8) (text_message 8) :: mixed_run)
  ∧ ∃ rs' r', wf_db (w_db (run 100 (UMessage (client 8) (text_message 8) :: mixed_run)
                             (relay_world [sample_user; blocked_user]))) rs'
       ∧ reg_find 8 rs' = Some r' ∧ u_active r' = false ∧ client_notes r' = client_notes blocked_user.
Proof.
  assert (H : wf_db (registry_db [sample_user; blocked_user]) [sample_user; blocked_user])
    by solve_wf_db.
  assert (Hu : Forall (fun u => operator_unblock 100 u = false)
                 (UMessage (client 8) (text_message 8) :: mixed_run))
    by (repeat constructor).
  split_and!; [exact H | reflexivity | reflexivity | exact Hu |].
  exact (blocked_user_stays_blocked 100 _ (relay_world [sample_user; blocked_user])
           [sample_user; blocked_user] 8 blocked_user H eq_refl eq_refl Hu).
Defined.

Lemma client_message_answered_witness :
  (8 ≠ 100)%Z ∧ wf_db (registry_db [sample_user; blocked_user]) [sample_user; blocked_user] ∧
  answers 8 (relay_world [sample_user; blocked_user])
    (process_update 100 (UMessage (client 8) (text_message 8)) (relay_world [sample_user; blocked_user])).
Proof.
  assert (H : wf_db (registry_db [sample_user; blocked_user]) [sample_user; blocked_user])
    by solve_wf_db.
  split_and!; [lia | exact H |].
  exact (client_message_answered 100 (client 8) (text_message 8) (relay_world [sample_user; blocked_user])
           [sample_user; blocked_user] ltac:(simpl; lia) H).
Defined.
