(* ===== verification/Lifecycle.v ===== *)
(** * The per-user lifecycle

    The spec (§4.2) gives every user a state machine over [isActive]:
    [Active --deactivate--> Blocked], [Blocked --activate--> Active],
    [Active] on first contact.  [ustep] is that machine as the bot
    implements it, labelled by the update that fires each transition:
    the user's own [/start] creates the record, the operator's [/block]
    and [/unblock] with the user's id set the flag, and every other
    update leaves the state as it is.  [lifecycle] chains the steps over a
    sequence of updates.

    [engine_ustep] shows that every step of the abstract engine is a
    [ustep]; with the refinement of [Engine] this makes every run of the
    bot follow [lifecycle].  Rule induction on [lifecycle] then shows that
    a user who never sends [/start] is never registered. *)

From S2P Require Import Prelude PyStr PyM PyObj Database Telegram Relay Admin Bot Engine.

(** No record, a record with [is_active] true, or false. *)
Inductive ustate := Absent | Active | Blocked.

#[export] Instance ustate_eq_dec : EqDecision ustate.
Proof. solve_decision. Defined.

Definition state_of (uid : Z) (rs : list user_rec) : ustate :=
  match reg_find uid rs with
  | None => Absent
  | Some r => if u_active r then Active else Blocked
  end.

Section Lifecycle.
Context (ADMIN_USER_ID uid : Z).

Inductive ustep : ustate -> update -> ustate -> Prop :=
| ustep_start from msg args :
    tu_id from = uid -> uid ≠ ADMIN_USER_ID ->
    ustep Absent (UCommand from msg (lit "start") args) Active
| ustep_block from msg a s :
    tu_id from = ADMIN_USER_ID -> py_int a = Some uid -> s ≠ Absent ->
    ustep s (UCommand from msg (lit "block") [a]) Blocked
| ustep_unblock from msg a s :
    tu_id from = ADMIN_USER_ID -> py_int a = Some uid -> s ≠ Absent ->
    ustep s (UCommand from msg (lit "unblock") [a]) Active
| ustep_stay s u : ustep s u s.

Inductive lifecycle : ustate -> list update -> ustate -> Prop :=
| lifecycle_nil s : lifecycle s [] s
| lifecycle_cons s u s1 us s' : ustep s u s1 -> lifecycle s1 us s' -> lifecycle s (u :: us) s'.

(** The user's own [/start]. *)
Definition is_start_from (u : update) : bool :=
  match u with
  | UCommand from _ name _ => bool_decide (tu_id from = uid) && bool_decide (name = lit "start")
  | _ => false
  end.

End Lifecycle.

(** ** The state after each registry operation *)

Section States.
Context (uid : Z).
Implicit Types (rs : list user_rec).

Lemma state_of_append uid' m rs : state_of uid (reg_append uid' m rs) = state_of uid rs.
Proof.
  unfold state_of. destruct (decide (uid' = uid)) as [<-|Hne].
  - rewrite find_append. by destruct (reg_find uid' rs).
  - by rewrite find_append_other.
Qed.

Lemma state_of_set_active_other uid' v rs :
  uid' ≠ uid -> state_of uid (reg_set_active uid' v rs) = state_of uid rs.
Proof. intros Hne. unfold state_of. by rewrite find_set_active_other. Qed.

Lemma state_of_set_active v rs :
  state_of uid (reg_set_active uid v rs) =
    if bool_decide (state_of uid rs = Absent) then Absent else if v then Active else Blocked.
Proof. unfold state_of. rewrite find_set_active. destruct (reg_find uid rs) as [r|]; [by destruct (u_active r), v | done]. Qed.

Lemma state_of_upsert_other uid' un fn now rs :
  uid' ≠ uid -> state_of uid (reg_upsert uid' un fn now rs) = state_of uid rs.
Proof. intros Hne. unfold state_of. by rewrite find_upsert_other. Qed.

Lemma state_of_upsert un fn now rs :
  state_of uid (reg_upsert uid un fn now rs) =
    if bool_decide (state_of uid rs = Absent) then Active else state_of uid rs.
Proof.
  unfold state_of. destruct (reg_find uid rs) as [r|] eqn:Hr.
  - rewrite (find_upsert_present _ _ _ _ _ r), Hr by done. by destruct (u_active r).
  - by rewrite find_upsert_absent.
Qed.

End States.

(** ** Every step of the engine is a step of the lifecycle *)

Section Steps.
Context (ADMIN_USER_ID uid : Z).

Lemma set_active_ustep from msg args (v : bool) rs :
  ustep ADMIN_USER_ID uid (state_of uid rs)
    (UCommand from msg (if v then lit "unblock" else lit "block") args)
    (state_of uid (set_active_effect (bool_decide (tu_id from = ADMIN_USER_ID)) v args rs)).
Proof.
  unfold set_active_effect. case_bool_decide as Ho; [|apply ustep_stay].
  destruct args as [|a [|]]; try apply ustep_stay.
  destruct (py_int a) as [uid'|] eqn:Ha; [|apply ustep_stay].
  destruct (decide (uid' = uid)) as [<-|Hne];
    [|rewrite state_of_set_active_other by done; apply ustep_stay].
  rewrite state_of_set_active. case_bool_decide as Hab; [rewrite Hab; apply ustep_stay|].
  destruct v; [apply ustep_unblock | apply ustep_block]; done.
Qed.

Lemma engine_ustep now b u rs :
  ustep ADMIN_USER_ID uid (state_of uid rs) u (state_of uid (engine_step ADMIN_USER_ID now b u rs)).
Proof.
  unfold engine_step. destruct u as [from msg name args|from msg|from chat data]; cbv zeta.
  - case_bool_decide as Hn; [subst name|].
    { case_bool_decide as Ho; [apply ustep_stay|].
      destruct (decide (tu_id from = uid)) as [Hu|Hu];
        [|rewrite state_of_upsert_other by done; apply ustep_stay].
      subst uid. rewrite state_of_upsert. case_bool_decide as Ha; [rewrite Ha|apply ustep_stay].
      by apply ustep_start. }
    do 3 (case_bool_decide; [apply ustep_stay|]).
    case_bool_decide.
    { repeat case_match; rewrite ?state_of_append; apply ustep_stay. }
    case_bool_decide; [apply ustep_stay|].
    case_bool_decide as Hb; [subst name; apply (set_active_ustep _ _ _ false)|].
    case_bool_decide as Hu; [subst name; apply (set_active_ustep _ _ _ true)|].
    apply ustep_stay.
  - case_bool_decide; [apply ustep_stay|].
    repeat case_match; rewrite ?state_of_append; apply ustep_stay.
  - apply ustep_stay.
Qed.

Lemma engine_run_lifecycle now bs us rs :
  length bs = length us ->
  lifecycle ADMIN_USER_ID uid (state_of uid rs) us (state_of uid (engine_run ADMIN_USER_ID now bs us rs)).
Proof.
  revert bs rs. induction us as [|u us IH]; intros [|b bs] rs Hlen; try discriminate; [constructor|].
  econstructor; [apply (engine_ustep now b) | apply IH; by injection Hlen].
Qed.

(** Rule induction: without the user's [/start] nothing leaves [Absent]. *)
Lemma lifecycle_absent s us s' :
  lifecycle ADMIN_USER_ID uid s us s' -> s = Absent ->
  Forall (fun u => is_start_from uid u = false) us -> s' = Absent.
Proof.
  induction 1 as [s|s u s1 us s' Hs _ IH]; intros -> Hf; [done|].
  inversion_clear Hf as [|? ? Hu Hus]. apply IH; [|done].
  inversion Hs as [from msg args Hfrom _| | |]; subst; try done.
  exfalso. cbn in Hu. rewrite !bool_decide_eq_true_2 in Hu by done. discriminate.
Qed.

End Steps.

(** ** Runs of the bot *)

Section Runs.
Context (ADMIN_USER_ID : Z).

(** C7 (refinement): every run of the bot moves each user along the
    spec's lifecycle (§4.2), whichever requests fail: the record appears
    only with the user's own [/start] (and then [Active]), the flag
    changes only by the operator's [/block <id>] and [/unblock <id>] on a
    registered user, and no update removes a record. *)
Theorem run_follows_lifecycle uid us w rs :
  wf_db (w_db w) rs ->
  ∃ rs', wf_db (w_db (run ADMIN_USER_ID us w)) rs'
       ∧ lifecycle ADMIN_USER_ID uid (state_of uid rs) us (state_of uid rs').
Proof.
  intros Hwf. destruct (run_engine_trace ADMIN_USER_ID us w rs Hwf) as (bs & Hlen & Hwf' & _).
  eexists. split; [exact Hwf' | by apply engine_run_lifecycle].
Qed.

(** C8 (safety): a user who never sends [/start] is never registered,
    whatever the user sends and whatever the operator does ([/block],
    [/reply] to the id, buttons): [handle_client_message] rejects the
    user's messages before its [add_user], and no other handler creates
    a record. *)
Theorem never_registered_without_start uid us w rs :
  wf_db (w_db w) rs -> reg_find uid rs = None ->
  Forall (fun u => is_start_from uid u = false) us ->
  ∃ rs', wf_db (w_db (run ADMIN_USER_ID us w)) rs' ∧ reg_find uid rs' = None.
Proof.
  intros Hwf Hr Hus. destruct (run_engine_trace ADMIN_USER_ID us w rs Hwf) as (bs & Hlen & Hwf' & _).
  eexists. split; [exact Hwf'|].
  pose proof (engine_run_lifecycle ADMIN_USER_ID uid (clock (w_db w)) bs us rs Hlen) as Hl.
  unfold state_of at 1 in Hl. rewrite Hr in Hl.
  apply (lifecycle_absent _ _ _ _ _ Hl eq_refl) in Hus. unfold state_of in Hus. by repeat case_match.
Qed.

End Runs.

(** ** Witnesses *)

Lemma run_follows_lifecycle_witness :
  wf_db sample_db [sample_user] ∧
  ∃ rs', wf_db (w_db (run 100 mixed_run (World sample_db None [] alternating_net []))) rs'
       ∧ lifecycle 100 7 (state_of 7 [sample_user]) mixed_run (state_of 7 rs').
Proof.
  assert (H : wf_db sample_db [sample_user]) by solve_wf_db.
  split; [exact H | exact (run_follows_lifecycle 100 7 mixed_run (World sample_db None [] alternating_net []) _ H)].
Defined.

(** Client 9 writes twice and the operator blocks and replies to id 9. *)
Definition unregistered_run : list update :=
  [UMessage (client 9) (text_message 9);
   UCommand operator operator_chat (lit "block") [lit "9"];
   UCommand operator operator_chat (lit "reply") [lit "9"; lit "hello"];
   UMessage (client 9) (text_message 9)].

Lemma never_registered_without_start_witness :
  wf_db sample_db [sample_user] ∧ reg_find 9 [sample_user] = None
  ∧ Forall (fun u => is_start_from 9 u = false) unregistered_run
  ∧ ∃ rs', wf_db (w_db (run 100 unregistered_run (World sample_db None [] alternating_net []))) rs'
         ∧ reg_find 9 rs' = None.
Proof.
  assert (H : wf_db sample_db [sample_user]) by solve_wf_db.
  assert (Hr : reg_find 9 [sample_user] = None) by reflexivity.
  assert (Hf : Forall (fun u => is_start_from 9 u = false) unregistered_run) by (repeat constructor).
  split_and!; [exact H | exact Hr | exact Hf | exact (never_registered_without_start 100 9 _ (World sample_db None [] alternating_net []) _ H Hr Hf)].
Defined.
