(* ===== verification/Exceptions.v ===== *)
(** * Which exceptions escape a handler

    python-telegram-bot logs an exception that escapes a handler and goes
    on; the update is then only half handled.  This file proves that, on
    a well-formed registry, the exceptions that can escape are the
    network's [TelegramError]s and two others the code does not guard:
    the [AttributeError] of an operator message without text, and the
    [ValueError] of a callback [reply_<x>] whose [<x>] is not a number.
    No [KeyError], [TypeError] or [IndexError] escapes.

    The proofs use a small Hoare logic on [PyM world]: [triple m Q E]
    says that on a well-formed registry [m] keeps the registry well
    formed, and returns a value satisfying [Q] or raises an exception
    satisfying [E].  Its rules follow the combinators of [PyM]; the
    registry reads have the postconditions that the value returned is
    [None] or a record ([get_user]) or a list of records
    ([get_all_users]), which is what lets the handlers index them. *)

From S2P Require Import Prelude PyStr PyM PyObj Database Telegram Relay Admin Bot.

Definition triple {A} (m : PyM world A) (Q : A -> Prop) (E : exn -> Prop) : Prop :=
  ∀ w rs, wf_db (w_db w) rs ->
    (∃ rs', wf_db (w_db (snd (m w))) rs')
    ∧ match fst (m w) with Ok a => Q a | Raised e => E e end.

(** The network's errors. *)
Definition is_telegram (e : exn) : Prop := ∃ msg, e = TelegramError msg.

Section Rules.
Context (E : exn -> Prop).

Lemma triple_ret {A} (a : A) (Q : A -> Prop) : Q a -> triple (mret a) Q E.
Proof. intros HQ w rs Hwf. eauto. Qed.

Lemma triple_raise {A} e (Q : A -> Prop) : E e -> triple (raise e) Q E.
Proof. intros He w rs Hwf. eauto. Qed.

(** A pure step: its value, or its exception. *)
Lemma triple_of_outcome {A} (o : outcome A) :
  (∀ e, o = Raised e -> E e) -> triple (of_outcome o) (fun a => o = Ok a) E.
Proof. intros Ho w rs Hwf. split; [eauto|]. destruct o; simpl; auto. Qed.

Lemma triple_bind {A B} (m : PyM world A) (k : A -> PyM world B) (Q1 : A -> Prop) (Q : B -> Prop) :
  triple m Q1 E -> (∀ a, Q1 a -> triple (k a) Q E) -> triple (x ← m; k x) Q E.
Proof.
  intros Hm Hk w rs Hwf. destruct (Hm w rs Hwf) as [[rs1 Hwf1] Hr]. cbv [mbind pym_bind].
  destruct (m w) as [[a|e] w1]; simpl in *; [|eauto]. exact (Hk a Hr w1 rs1 Hwf1).
Qed.

Lemma triple_try {A} (m : PyM world A) (c : exn -> bool) (h : exn -> PyM world A) (E1 : exn -> Prop) (Q : A -> Prop) :
  triple m Q E1 -> (∀ e, E1 e -> if c e then triple (h e) Q E else E e) -> triple (try_except m c h) Q E.
Proof.
  intros Hm Hh w rs Hwf. destruct (Hm w rs Hwf) as [[rs1 Hwf1] Hr]. unfold try_except.
  destruct (m w) as [[a|e] w1]; simpl in *; [eauto|].
  specialize (Hh e Hr). destruct (c e); [exact (Hh w1 rs1 Hwf1)|]. simpl. eauto.
Qed.

Lemma triple_weaken {A} (m : PyM world A) (Q Q' : A -> Prop) :
  triple m Q E -> (∀ a, Q a -> Q' a) -> triple m Q' E.
Proof. intros Hm HQ w rs Hwf. destruct (Hm w rs Hwf) as [? Hr]. split; [done|]. by case_match; auto. Qed.

(** A [for] loop, with an invariant on its accumulator and the element
    drawn from the list. *)
Lemma triple_for {B C} (l : list B) (acc : C) (body : C -> B -> PyM world C) (I : C -> Prop) :
  I acc -> (∀ acc x, I acc -> x ∈ l -> triple (body acc x) I E) -> triple (py_for l acc body) I E.
Proof.
  revert acc. induction l as [|x l IH]; intros acc Hacc Hb; simpl; [by apply triple_ret|].
  apply (triple_bind _ _ I); [apply Hb; [done | by left]|].
  intros acc' Hacc'. apply IH; [done|]. intros a y Ha Hy. apply Hb; [done | by right].
Qed.

Lemma triple_api_call r : (∀ e, is_telegram e -> E e) -> triple (api_call r) (fun _ => True) E.
Proof.
  intros HE w rs Hwf. rewrite api_call_run. split; [by exists rs|].
  destruct (delivered _ _); simpl; [done|]. apply HE. eexists; reflexivity.
Qed.

Lemma triple_logger_error msg : triple (logger_error msg) (fun _ => True) E.
Proof. intros w rs Hwf. split; [by exists rs | done]. Qed.

Lemma triple_set_current_chat uid : triple (set_current_chat uid) (fun _ => True) E.
Proof. intros w rs Hwf. split; [by exists rs | done]. Qed.

Lemma triple_run_call c : triple (db_op (run_call c)) (fun _ => True) E.
Proof.
  intros w rs Hwf. destruct (run_call_refines (w_db w) rs c Hwf) as (db' & Hrun & Hwf' & _).
  rewrite (db_op_run _ _ _ _ Hrun). simpl. eauto.
Qed.

(** The reads: [None] or a record, and a list of records. *)
Lemma triple_get_user uid :
  triple (db_op (get_user uid)) (fun a => a = PNone ∨ ∃ r, a = user_obj r) E.
Proof.
  intros w rs Hwf. rewrite (db_op_run _ _ _ _ (get_user_run _ _ Hwf uid)), set_db_id.
  split; [eauto|]. cbn [fst]. destruct (reg_find uid rs) as [r|]; [right; eauto | by left].
Qed.

Lemma triple_get_all_users :
  triple (db_op get_all_users) (fun l => ∃ act, l = map user_obj act) E.
Proof.
  intros w rs Hwf. rewrite (db_op_run _ _ _ _ (get_all_users_run _ _ Hwf)), set_db_id.
  split; [eauto|]. simpl. eauto.
Qed.

Lemma triple_weaken_exn {A} (m : PyM world A) (Q : A -> Prop) (E' : exn -> Prop) :
  triple m Q E' -> (∀ e, E' e -> E e) -> triple m Q E.
Proof. intros Hm HE w rs Hwf. destruct (Hm w rs Hwf) as [? Hr]. split; [done|]. by case_match; auto. Qed.

Lemma triple_try_catch {A} (m : PyM world A) c h (Q : A -> Prop) :
  triple m Q (fun e => c e = true ∨ E e) -> (∀ e, c e = true -> triple (h e) Q E) ->
  triple (try_except m c h) Q E.
Proof.
  intros Hm Hh. apply (triple_try _ _ _ _ _ Hm). intros e [Hc|He]; [by rewrite Hc; apply Hh|].
  destruct (c e) eqn:Hc; [by apply Hh | done].
Qed.

Lemma triple_bind_ok {A B} (a : A) (k : A -> PyM world B) Q :
  triple (k a) Q E -> triple (x ← of_outcome (Ok a); k x) Q E.
Proof. done. Qed.

Lemma triple_bind_raised {A B} e (k : A -> PyM world B) Q :
  E e -> triple (x ← of_outcome (Raised e); k x) Q E.
Proof. intros He w rs Hwf. simpl. eauto. Qed.

End Rules.

Lemma int_of_str_raises s e : int_of_str s = Raised e -> is_ValueError e = true.
Proof. unfold int_of_str. by destruct (py_int s); intros [= <-]. Qed.

Lemma elem_of_map_user_obj x (l : list user_rec) : x ∈ map user_obj l -> ∃ r, x = user_obj r.
Proof. intros (y & Hy & _)%list_elem_of_In%in_map_iff. eauto. Qed.

(** [query.data.split('_')[1]] exists when the data starts with [reply_]. *)
Lemma reply_data_index data :
  startswith (lit "reply_") data = true -> ∃ p, list_index (py_split 95 data) 1 = Ok p.
Proof.
  intros (s & ->)%startswith_inv.
  change (lit "reply_" ++ s) with (lit "reply" ++ 95%Z :: s).
  rewrite py_split_sep by (apply (bool_decide_unpack _); vm_compute; reflexivity).
  destruct (py_split 95 s) as [|p ps] eqn:Hs; [by apply split_by_nonempty in Hs | by eexists].
Qed.

(** The exceptions a handler may let escape, found by [solve_exn]. *)
Ltac solve_exn :=
  first [ reflexivity | assumption
        | exact (int_of_str_raises _ _ ltac:(eassumption))
        | split; solve_exn | left; solve_exn | right; solve_exn ].

Lemma elem_of_last_n {A} n (l : list A) x : x ∈ last_n n l -> x ∈ l.
Proof. intros Hx. by eapply elem_of_suffix; [|apply last_n_suffix]. Qed.

#[local] Hint Rewrite user_listing_user_obj reply_button_user_obj : pyrw.

(** Decompose a handler into the rules, using what the reads return. *)
Ltac triple_step := idtac;
  match goal with
  | |- True => exact I
  | |- ∀ _, _ => intros
  | H : (fun _ => _) _ |- _ => cbv beta in H
  | H : _ = PNone ∨ ∃ _, _ = user_obj _ |- _ => destruct H as [-> | [? ->]]
  | H : ∃ _, _ = map user_obj _ |- _ => destruct H as [? ->]
  | H : _ ∈ last_n _ _ |- _ => apply elem_of_last_n in H
  | H : _ ∈ map user_obj _ |- _ => apply elem_of_map_user_obj in H as [? ->]
  | H : _ = _ |- _ => discriminate H
  | |- is_telegram _ => assumption
  | |- _ ∨ _ => solve_exn
  | |- triple _ _ _ => progress autorewrite with pyrw
  | |- triple (mbind _ (of_outcome (Ok _))) _ _ => apply triple_bind_ok
  | |- triple (mbind _ (of_outcome (Raised _))) _ _ => apply triple_bind_raised
  | |- triple (mbind _ (of_outcome _)) _ _ => eapply triple_bind; [apply triple_of_outcome|]
  | |- triple (mbind _ (db_op (get_user _))) _ _ => eapply triple_bind; [apply triple_get_user|]
  | |- triple (mbind _ (db_op get_all_users)) _ _ => eapply triple_bind; [apply triple_get_all_users|]
  | |- triple (mbind _ _) _ _ => apply (triple_bind _ _ _ (fun _ => True))
  | |- triple (try_except _ _ _) _ _ => apply triple_try_catch
  | |- triple (py_for _ _ _) _ _ => apply (triple_for _ _ _ _ (fun _ => True))
  | |- triple (mret _) _ _ => apply triple_ret
  | |- triple return_none _ _ => apply triple_ret
  | |- triple (raise _) _ _ => apply triple_raise
  | |- triple (api_call _) _ _ => apply triple_api_call
  | |- triple (logger_error _) _ _ => apply triple_logger_error
  | |- triple (set_current_chat _) _ _ => apply triple_set_current_chat
  | |- triple (db_op (add_user ?u ?n ?f)) _ _ => apply (triple_run_call _ (CallAddUser u n f))
  | |- triple (db_op (add_message ?u ?t ?b)) _ _ => apply (triple_run_call _ (CallAddMessage u t b))
  | |- triple (db_op (deactivate_user ?u)) _ _ => apply (triple_run_call _ (CallDeactivate u))
  | |- triple (db_op (activate_user ?u)) _ _ => apply (triple_run_call _ (CallActivate u))
  | |- triple (if _ then _ else _) _ _ => progress cbn [negb andb orb]
  | |- triple (if ?b then ?m1 else ?m2) ?Q ?E =>
    lazymatch b with
    | true => change (triple m1 Q E) | false => change (triple m2 Q E) | _ => destruct b eqn:?
    end
  | |- triple (match _ with _ => _ end) _ _ => case_match
  end.

Ltac solve_triple := cbv zeta; repeat triple_step.

Section Handlers.
Context (ADMIN_USER_ID : Z).

Lemma triple_start user msg : triple (start ADMIN_USER_ID user msg) (fun _ => True) is_telegram.
Proof. unfold start. solve_triple. Qed.

Lemma triple_help user msg : triple (help_command ADMIN_USER_ID user msg) (fun _ => True) is_telegram.
Proof. unfold help_command. solve_triple. Qed.

Lemma triple_users user msg : triple (users_command ADMIN_USER_ID user msg) (fun _ => True) is_telegram.
Proof. unfold users_command, send_chunked. solve_triple. Qed.

Lemma triple_stats user msg : triple (stats_command ADMIN_USER_ID user msg) (fun _ => True) is_telegram.
Proof. unfold stats_command, total_messages_of. solve_triple. Qed.

Lemma triple_reply user msg args :
  triple (reply_command ADMIN_USER_ID user msg args) (fun _ => True) is_telegram.
Proof. unfold reply_command. solve_triple. Qed.

Lemma triple_broadcast user msg args :
  triple (broadcast_command ADMIN_USER_ID user msg args) (fun _ => True) is_telegram.
Proof. unfold broadcast_command, broadcast_one. solve_triple. Qed.

Lemma triple_block user msg args :
  triple (block_command ADMIN_USER_ID user msg args) (fun _ => True) is_telegram.
Proof. unfold block_command. solve_triple. Qed.

Lemma triple_unblock user msg args :
  triple (unblock_command ADMIN_USER_ID user msg args) (fun _ => True) is_telegram.
Proof. unfold unblock_command. solve_triple. Qed.

Lemma triple_client_message user msg :
  triple (handle_client_message ADMIN_USER_ID user msg) (fun _ => True) is_telegram.
Proof. unfold handle_client_message, is_blocked. solve_triple. Qed.

(** The operator's message: an [AttributeError] when it has no text. *)
Lemma triple_admin_message msg :
  triple (handle_admin_message msg) (fun _ => True)
    (fun e => is_telegram e ∨ tm_text msg = None ∧ e = no_attribute PNone "startswith").
Proof. unfold handle_admin_message. solve_triple. Qed.

(** A button: a [ValueError] when the data is [reply_] and no number. *)
Lemma triple_button chat data :
  triple (button_callback chat data) (fun _ => True)
    (fun e => is_telegram e ∨ startswith (lit "reply_") data = true ∧ is_ValueError e = true).
Proof.
  unfold button_callback. destruct (startswith (lit "reply_") data) eqn:Hs; [|solve_triple].
  destruct (reply_data_index data Hs) as [p Hp]. rewrite Hp. solve_triple.
Qed.

End Handlers.

(** The exceptions [dispatch] may let escape on an update. *)
Definition escapes (ADMIN_USER_ID : Z) (u : update) (e : exn) : Prop :=
  is_telegram e ∨
  match u with
  | UCommand _ _ _ _ => False
  | UMessage from msg =>
    tu_id from = ADMIN_USER_ID ∧ tm_text msg = None ∧ e = no_attribute PNone "startswith"
  | UCallback _ _ data => startswith (lit "reply_") data = true ∧ is_ValueError e = true
  end.

(** C10 (error): every handler [main] registers, run on a well-formed
    registry, keeps the registry well formed and either returns or raises
    one of three exceptions: a [TelegramError] of the network; the
    [AttributeError] of [message.text.startswith] on an operator message
    without text (a photo); or the [ValueError] of [int()] on a button
    whose data is [reply_] followed by no number.  No [KeyError],
    [IndexError] or [TypeError] escapes: every [user['...']] the
    handlers make reads a record the registry wrote. *)
Theorem dispatch_escapes ADMIN_USER_ID u w rs :
  wf_db (w_db w) rs ->
  (∃ rs', wf_db (w_db (snd (dispatch ADMIN_USER_ID u w))) rs')
  ∧ match fst (dispatch ADMIN_USER_ID u w) with
    | Ok _ => True
    | Raised e => escapes ADMIN_USER_ID u e
    end.
Proof.
  revert w rs. change (triple (dispatch ADMIN_USER_ID u) (fun _ => True) (escapes ADMIN_USER_ID u)).
  destruct u as [from msg name args|from msg|from chat data]; unfold dispatch, handle_message.
  - repeat case_bool_decide;
      (eapply triple_weaken_exn; [|intros e He; left; exact He]);
      lazymatch goal with
      | |- triple (start _ _ _) _ _ => apply triple_start
      | |- triple (help_command _ _ _) _ _ => apply triple_help
      | |- triple (users_command _ _ _) _ _ => apply triple_users
      | |- triple (stats_command _ _ _) _ _ => apply triple_stats
      | |- triple (reply_command _ _ _ _) _ _ => apply triple_reply
      | |- triple (broadcast_command _ _ _ _) _ _ => apply triple_broadcast
      | |- triple (block_command _ _ _ _) _ _ => apply triple_block
      | |- triple (unblock_command _ _ _ _) _ _ => apply triple_unblock
      | |- triple return_none _ _ => by apply triple_ret
      end.
  - case_bool_decide.
    + eapply triple_weaken_exn; [apply triple_admin_message|]. intros e [He|He]; [by left | by right].
    + eapply triple_weaken_exn; [apply triple_client_message|]. intros e He. by left.
  - eapply triple_weaken_exn; [apply triple_button|]. intros e [He|He]; [by left | by right].
Qed.

(** An operator photo, whose [text] is [None]. *)
Definition operator_photo : tg_message := TgMessage 100 None (Some (lit "a photo")).

Definition photo_world : world := World (registry_db [sample_user]) None [] (fun _ => None) [].

Lemma dispatch_escapes_witness :
  wf_db (w_db photo_world) [sample_user]
  ∧ fst (dispatch 100 (UMessage operator operator_photo) photo_world)
    = Raised (no_attribute PNone "startswith")
  ∧ escapes 100 (UMessage operator operator_photo) (no_attribute PNone "startswith").
Proof.
  assert (Hwf : wf_db (w_db photo_world) [sample_user]) by solve_wf_db.
  pose proof (proj2 (dispatch_escapes 100 (UMessage operator operator_photo) photo_world _ Hwf)) as He.
  destruct (dispatch 100 (UMessage operator operator_photo) photo_world) as [o w'] eqn:Hd.
  apply (f_equal fst) in Hd. vm_compute in Hd. subst o. split; [exact Hwf|]. split; [reflexivity | exact He].
Defined.
