(* ===== verification/Console.v ===== *)
(** * The console: [main]'s start-up and the smoke test [test_bot.py]

    Two parts of the repository talk to the terminal rather than to the
    registry.  [main] of [bot.py] prints three lines and then polls
    Telegram: [boot_main] appends the lines to the console and hands the
    updates to [run] of [Bot.v].  [test_bot.py] checks the token:
    [test_bot] is its coroutine, a [PyM console] computation over the
    console and the answer the Telegram API gives to [getMe]; [test_main]
    is its [__main__] block.  [print] appends a line; [Bot(token=...)]
    raises [InvalidToken], a [TelegramError], on an empty token, as
    python-telegram-bot does.

    [test_bot_total] shows that the smoke test never raises, whatever
    the API answers: it reports the bot's account in four lines and
    returns [True], or prints one error line and returns [False]. *)

From S2P Require Import Prelude PyStr PyM PyObj Database Telegram Bot.

(** ** State *)

(** The lines printed so far, and what [getMe] answers: the bot's own
    account, or the [TelegramError] the request raises. *)
Record console := Console { c_get_me : outcome tg_user; c_out : list pystr }.

(** [print(s)] *)
Definition print_line (s : pystr) : PyM console unit :=
  modify (fun c => Console (c_get_me c) (c_out c ++ [s])).

(** ** [main] of [bot.py] *)

(** The three lines [main] prints before [run_polling]. *)
Definition startup_lines (ADMIN_USER_ID : Z) : list pystr :=
  [lit "🤖 Bot is starting...";
   lit "👤 Admin ID: " ++ py_str_int ADMIN_USER_ID;
   lit "✅ Bot is ready!"].

(** [main]: the handler table is [dispatch]; the lines are printed, and
    [application.run_polling] processes the updates Telegram delivers,
    here a finite sequence of them. *)
Definition boot_main (ADMIN_USER_ID : Z) (us : list update) (out : list pystr) (w : world)
  : list pystr * world :=
  (out ++ startup_lines ADMIN_USER_ID, run ADMIN_USER_ID us w).

(** ** [test_bot.py] *)

(** [Bot(token=BOT_TOKEN)] *)
Definition Bot_init (token : pystr) : PyM console unit :=
  if bool_decide (token = []) then
    raise (TelegramError (lit "You must pass the token you received from https://t.me/Botfather!"))
  else mret tt.

(** [await bot.get_me()] *)
Definition get_me : PyM console tg_user := fun c => (c_get_me c, c).

(** [f"{x}"] of an optional str: ["None"] for [None]. *)
Definition fmt_opt (o : option pystr) : pystr := match o with Some s => s | None => lit "None" end.

(** [test_bot()] *)
Definition test_bot (token : pystr) : PyM console bool :=
  try_except
    (Bot_init token;;
     me ← get_me;
     print_line (lit "✅ Bot is working!");;
     print_line (lit "🤖 Bot name: " ++ tu_first_name me);;
     print_line (lit "📝 Bot username: @" ++ fmt_opt (tu_username me));;
     print_line (lit "🆔 Bot ID: " ++ py_str_int (tu_id me));;
     mret true)
    any_exception
    (fun e => print_line (lit "❌ Error: " ++ exn_str e);; mret false).

(** [if __name__ == "__main__":] of [test_bot.py] *)
Definition test_main (token : pystr) : PyM console unit :=
  print_line (lit "Testing bot connection...");;
  _ ← test_bot token;
  return_none.

(** ** Properties *)

Lemma print_line_bind {A} s (k : PyM console A) c :
  (print_line s;; k) c = k (Console (c_get_me c) (c_out c ++ [s])).
Proof. reflexivity. Qed.

Lemma Bot_init_run token c :
  Bot_init token c = if bool_decide (token = []) then
    (Raised (TelegramError (lit "You must pass the token you received from https://t.me/Botfather!")), c)
  else (Ok tt, c).
Proof. unfold Bot_init. by case_bool_decide. Qed.

(** C34 (error): the smoke test never raises: with a non-empty token
    and an account from [getMe] it prints four lines and returns
    [True]; with an empty token or a failing [getMe] it prints one error
    line and returns [False].  What was printed before is kept. *)
Theorem test_bot_total token c :
  ∃ b lines, test_bot token c = (Ok b, Console (c_get_me c) (c_out c ++ lines))
    ∧ (b = true <-> token ≠ [] ∧ ∃ me, c_get_me c = Ok me)
    ∧ length lines = if b then 4 else 1.
Proof.
  unfold test_bot. pose proof (Bot_init_run token c) as Hb. case_bool_decide as Ht.
  - exists false, [lit "❌ Error: " ++ exn_str (TelegramError
      (lit "You must pass the token you received from https://t.me/Botfather!"))].
    rewrite (run_try_caught _ _ _ _ _ _ (run_bind_raised _ _ _ _ _ Hb) eq_refl), print_line_bind.
    split_and!; [done | split; [discriminate | by intros [? _]] | done].
  - assert (Hg : get_me c = (c_get_me c, c)) by done.
    destruct (c_get_me c) as [me|e] eqn:Hm.
    + set (L := [lit "✅ Bot is working!"; lit "🤖 Bot name: " ++ tu_first_name me;
        lit "📝 Bot username: @" ++ fmt_opt (tu_username me); lit "🆔 Bot ID: " ++ py_str_int (tu_id me)]).
      exists true, L. rewrite (run_try_ok _ _ _ c true (Console (c_get_me c) (c_out c ++ L))); [split_and!; [by rewrite Hm | split; [intros _; split; [done | eauto] | done] | done]|].
      rewrite (run_bind_ok _ _ _ tt c Hb), (run_bind_ok _ _ _ me c Hg), !print_line_bind.
      cbn [c_get_me c_out]. rewrite run_ret, <- !app_assoc. done.
    + exists false, [lit "❌ Error: " ++ exn_str e].
      rewrite (run_try_caught _ _ _ _ e c), print_line_bind;
        [| by rewrite (run_bind_ok _ _ _ tt c Hb), (run_bind_raised _ _ _ _ _ Hg) | done].
      split_and!; [by rewrite Hm | split; [discriminate | intros [_ [? ?]]; congruence] | done].
Qed.

(** ** Witnesses *)

Lemma test_bot_total_example :
  test_bot (lit "123:ABC") (Console (Ok (TgUser 42 (Some (lit "relay_bot")) (lit "Relay"))) [])
  = (Ok true, Console (Ok (TgUser 42 (Some (lit "relay_bot")) (lit "Relay")))
       [lit "✅ Bot is working!"; lit "🤖 Bot name: Relay"; lit "📝 Bot username: @relay_bot"; lit "🆔 Bot ID: 42"]).
Proof. reflexivity. Qed.
