(* ===== verification/Process.v ===== *)
(** * The process: configuration, import-time initialisation and [__main__]

    [bot.py] does its work in three places.  At import it reads
    [config.py] ([BOT_TOKEN], [ADMIN_USER_ID], [DB_FILE]), builds the
    registry with [db = UserDatabase(DB_FILE)] and sets
    [admin_current_chat = None] (lines 14-18); then its [__main__] block
    calls [main] (lines 327-328), which prints the start-up lines and
    polls.  An exception at import ends the process before [main] runs:
    nothing is printed and no update is handled.

    [config] is [config.py], which is not in the repository (the spec's
    "single configured operator identity" and the file of the store).
    [files] is the file system as the process finds it: the bytes of
    each existing file.  [bot_module_init] is the import of [bot.py],
    [bot_process] the whole process over a finite sequence of updates,
    ending either [DiedAtImport] or [Ran] with the console lines and the
    final world.

    The theorems compose [Json], [Database] and [Console]: a process
    started on the bytes [_save_data] wrote runs with exactly the saved
    registry ([restart_after_save]), and a process started on the bytes
    a crash during [_save_data] left either dies at import or runs with
    an empty registry ([restart_after_crash]); a file that is not JSON
    starts an empty registry without a log record ([malformed_store_unlogged]).
    Over a run of updates,
    [restart_after_run] composes [Engine]'s refinement, the frame of the
    registry calls ([run_frame]) and the validity of the records the
    engine builds from Unicode input ([engine_run_valid]) with the
    round trip: the file a run leaves restarts the bot on the engine's
    registry. *)

From S2P Require Import Prelude PyStr PyM PyObj Json Database Telegram Relay Bot Engine Console.

(** ** Configuration and the file system *)

(** [config.py] *)
Record config := Config { BOT_TOKEN : pystr; ADMIN_USER_ID : Z; DB_FILE : pystr }.

(** The bytes of every existing file, by name. *)
Definition files := pystr -> option (list Z).

(** What [UserDatabase(name)] finds: no file ([os.path.exists] false),
    or what [open(name, 'r', encoding='utf-8')] and [json.load] make of
    its bytes. *)
Definition read_db_file (fs : files) (name : pystr) : option file_content :=
  option_map decode_file (fs name).

(** ** The process *)

(** The import of [bot.py]: [db = UserDatabase(DB_FILE)],
    [admin_current_chat = None], and an empty log of requests over the
    network [net]. *)
Definition bot_module_init (cfg : config) (fs : files) (now : pystr) (net : nat -> option pystr)
  : outcome world :=
  match UserDatabase_init (read_db_file fs (DB_FILE cfg)) now with
  | Ok db => Ok (World db None [] net [])
  | Raised e => Raised e
  end.

(** How the process ends. *)
Inductive process_end :=
| DiedAtImport (e : exn)
| Ran (out : list pystr) (w : world).

(** [python bot.py]: the import, then [if __name__ == '__main__': main()]. *)
Definition bot_process (cfg : config) (fs : files) (now : pystr) (net : nat -> option pystr)
  (us : list update) : process_end :=
  match bot_module_init cfg fs now net with
  | Raised e => DiedAtImport e
  | Ok w => let '(out, w') := boot_main (ADMIN_USER_ID cfg) us [] w in Ran out w'
  end.

(** ** Starting on a given file *)

Lemma bot_process_file cfg fs now net us :
  bot_process cfg fs now net us =
  match UserDatabase_init (read_db_file fs (DB_FILE cfg)) now with
  | Ok db => Ran (startup_lines (ADMIN_USER_ID cfg)) (run (ADMIN_USER_ID cfg) us (World db None [] net []))
  | Raised e => DiedAtImport e
  end.
Proof.
  unfold bot_process, bot_module_init. by destruct (UserDatabase_init _ now).
Qed.

(** A file that is not a JSON document: the process dies at import or
    runs with an empty registry. *)
Lemma bot_process_not_json cfg fs now net us f :
  read_db_file fs (DB_FILE cfg) = Some f -> (∀ j, f ≠ FileJson j) ->
  bot_process cfg fs now net us = DiedAtImport UnicodeDecodeError ∨
  ∃ db0, wf_db db0 []
    ∧ bot_process cfg fs now net us
      = Ran (startup_lines (ADMIN_USER_ID cfg)) (run (ADMIN_USER_ID cfg) us (World db0 None [] net [])).
Proof.
  intros Hf Hj. rewrite bot_process_file, Hf. pose proof (load_policy (Some f) now) as Hp.
  destruct f as [j| |]; [by destruct (Hj j) | |left; by rewrite Hp].
  right. destruct Hp as (db0 & -> & Hwf). eauto.
Qed.

(** C29 (roundtrip): a process started on the file [_save_data] wrote
    for [self.data] runs with exactly that registry: [UserDatabase]
    decodes the bytes back to [self.data], the reply target is unset,
    [main] prints its three lines and the updates are handled from
    there. *)
Theorem restart_after_save cfg fs d now net us :
  json_wf d = true -> fs (DB_FILE cfg) = Some (encode_file d) ->
  bot_process cfg fs now net us
  = Ran (startup_lines (ADMIN_USER_ID cfg))
        (run (ADMIN_USER_ID cfg) us (World (mkDB d (Some (FileJson d)) now) None [] net [])).
Proof.
  intros Hwf Hfs. unfold bot_process, bot_module_init, read_db_file. rewrite Hfs. cbn [option_map].
  by rewrite decode_encode_file.
Qed.

(** C30 (safety): [_save_data] is not atomic.  A crash at any point
    before its last byte leaves a proper prefix of the bytes on disk, and
    the restarted process either dies at import with
    [UnicodeDecodeError], printing nothing, or runs with an empty
    registry: every user and every message is lost.  The spec asks for
    a write-then-rename, which leaves the old or the new registry. *)
Theorem restart_after_crash cfg fs d p now net us :
  json_wf (PDict d) = true -> p `prefix_of` encode_file (PDict d) -> p ≠ encode_file (PDict d) ->
  fs (DB_FILE cfg) = Some p ->
  bot_process cfg fs now net us = DiedAtImport UnicodeDecodeError ∨
  ∃ db0, wf_db db0 []
    ∧ bot_process cfg fs now net us
      = Ran (startup_lines (ADMIN_USER_ID cfg)) (run (ADMIN_USER_ID cfg) us (World db0 None [] net [])).
Proof.
  intros Hwf [t Ht] Hne Hfs. apply (bot_process_not_json _ _ _ _ _ (decode_file p)).
  - unfold read_db_file. by rewrite Hfs.
  - intros j. assert (Hk : length p < length (encode_file (PDict d))).
    { rewrite Ht, length_app. destruct t; [rewrite app_nil_r in Ht; congruence | cbn; lia]. }
    pose proof (crash_never_loads d (length p) j Hwf Hk) as Hc.
    by rewrite Ht, take_app_length in Hc.
Qed.

(** C31 (error): a store that is UTF-8 but not JSON is treated as empty,
    silently.  The process starts with an empty registry, remembers the
    damaged content as what is on disk, and its log is empty: neither
    [_load_data] nor the import logs anything, where the spec asks that
    the anomaly be logged. *)
Theorem malformed_store_unlogged cfg fs now net us bs :
  fs (DB_FILE cfg) = Some bs -> decode_file bs = FileMalformed ->
  bot_process cfg fs now net us
  = Ran (startup_lines (ADMIN_USER_ID cfg))
        (run (ADMIN_USER_ID cfg) us (World (mkDB empty_data (Some FileMalformed) now) None [] net [])).
Proof. intros Hfs Hd. unfold bot_process, bot_module_init, read_db_file. by rewrite Hfs; cbn [option_map]; rewrite Hd. Qed.

(** ** What a run leaves on disk

    [json.dump] writes [self.data] faithfully when every string in it is
    a sequence of characters ([Database.rec_valid]).  The strings a run
    adds come from Telegram (names, texts, captions, command words) and
    from the clock; Telegram delivers text as Unicode, so they are. *)

Definition user_valid (u : tg_user) : bool :=
  opt_valid (tu_username u) && forallb valid_char (tu_first_name u).

Definition update_valid (u : update) : bool :=
  match u with
  | UCommand from _ _ args => user_valid from && forallb (forallb valid_char) args
  | UMessage from msg => user_valid from && opt_valid (tm_text msg) && opt_valid (tm_caption msg)
  | UCallback _ _ _ => true
  end.

Lemma valid_py_join l :
  forallb (forallb valid_char) l = true -> forallb valid_char (py_join (lit " ") l) = true.
Proof.
  induction l as [|w l IH]; cbn [forallb]; rewrite ?andb_true_iff; [done|]. intros [Hw Hl].
  destruct l as [|w' l]; [done|].
  change (py_join (lit " ") (w :: w' :: l)) with (w ++ lit " " ++ py_join (lit " ") (w' :: l)).
  by rewrite !forallb_app, Hw, (IH Hl).
Qed.

Lemma valid_str_or a b :
  opt_valid a = true -> forallb valid_char b = true -> forallb valid_char (str_or a b) = true.
Proof. destruct a; cbn; [case_bool_decide|]; auto. Qed.

Lemma valid_message_text_of msg :
  opt_valid (tm_text msg) = true -> opt_valid (tm_caption msg) = true ->
  forallb valid_char (message_text_of msg) = true.
Proof. intros. unfold message_text_of. by apply valid_str_or; [|apply valid_str_or]. Qed.

Lemma valid_list_update uid f rs :
  (∀ r, rec_valid r = true -> rec_valid (f r) = true) ->
  forallb rec_valid rs = true -> forallb rec_valid (list_update uid f rs) = true.
Proof.
  intros Hf. unfold list_update. induction rs as [|r rs IH]; cbn; rewrite ?andb_true_iff; [done|].
  intros [Hr Hrs]. split; [case_match; auto | auto].
Qed.

Lemma valid_append uid m rs :
  msg_valid m = true -> forallb rec_valid rs = true -> forallb rec_valid (reg_append uid m rs) = true.
Proof.
  intros Hm. apply valid_list_update. intros [] Hr. unfold rec_valid, with_message in *. cbn in *.
  rewrite forallb_app. cbn. by rewrite Hm, andb_true_r.
Qed.

Lemma valid_set_active uid b rs :
  forallb rec_valid rs = true -> forallb rec_valid (reg_set_active uid b rs) = true.
Proof. apply valid_list_update. by intros []. Qed.

Lemma valid_upsert uid un fn now rs :
  opt_valid un = true -> opt_valid fn = true -> forallb valid_char now = true ->
  forallb rec_valid rs = true -> forallb rec_valid (reg_upsert uid un fn now rs) = true.
Proof.
  intros Hun Hfn Hnow Hrs. cbn [reg_upsert list_registry]. case_match; [done|].
  rewrite forallb_app, Hrs. cbn. unfold rec_valid. cbn. by rewrite Hun, Hfn, Hnow.
Qed.

Lemma engine_step_valid A now b u rs :
  forallb valid_char now = true -> update_valid u = true -> forallb rec_valid rs = true ->
  forallb rec_valid (engine_step A now b u rs) = true.
Proof.
  intros Hnow Hu Hrs. destruct u as [from msg name args|from msg|]; cbn [update_valid] in Hu;
    unfold user_valid in Hu; rewrite ?andb_true_iff in Hu; unfold engine_step, set_active_effect;
    repeat (case_bool_decide || case_match); try done;
    try first [apply valid_upsert | apply valid_append | apply valid_set_active]; try naive_solver.
  all: unfold msg_valid; cbn; rewrite Hnow, andb_true_r.
  - apply valid_py_join. destruct args as [|a args]; [done|]. cbn in Hu |- *. rewrite ?andb_true_iff in Hu. naive_solver.
  - apply valid_message_text_of; naive_solver.
Qed.

Lemma engine_run_valid A now bs us rs :
  forallb valid_char now = true -> forallb update_valid us = true -> forallb rec_valid rs = true ->
  forallb rec_valid (engine_run A now bs us rs) = true.
Proof.
  intros Hnow. revert bs rs. induction us as [|u us IH]; intros [|b bs] rs; cbn; rewrite ?andb_true_iff; try done.
  intros [Hu Hus] Hrs. apply IH; [done|]. by apply engine_step_valid.
Qed.

(** C28 (roundtrip): what a run of the bot saves is what the next process
    starts with.  From a registry that is on disk and holds characters
    only, whatever updates Telegram delivers and whichever requests it
    rejects, the run leaves its registry on disk ([_save_data] after each
    change), and a process restarted on the bytes of that file runs with
    a registry equal to the abstract engine's run over the same updates,
    with the delivery bits the run read ([run_bits]): no user, message or
    block is lost across the restart. *)
Theorem restart_after_run cfg w rs us fs now net us' :
  let w' := run (ADMIN_USER_ID cfg) us w in
  wf_db (w_db w) rs -> saved (w_db w) -> json_wf (data (w_db w)) = true ->
  forallb rec_valid rs = true -> forallb valid_char (clock (w_db w)) = true ->
  forallb update_valid us = true ->
  fs (DB_FILE cfg) = Some (encode_file (data (w_db w'))) ->
  saved (w_db w')
    ∧ wf_db (w_db w') (engine_run (ADMIN_USER_ID cfg) (clock (w_db w)) (run_bits (ADMIN_USER_ID cfg) us w) us rs)
    ∧ bot_process cfg fs now net us'
      = Ran (startup_lines (ADMIN_USER_ID cfg))
            (run (ADMIN_USER_ID cfg) us' (World (mkDB (data (w_db w')) (Some (FileJson (data (w_db w')))) now) None [] net [])).
Proof.
  intros w' Hwf Hs Hj Hv Hc Hu Hfs.
  destruct (run_engine_bits (ADMIN_USER_ID cfg) us w rs Hwf) as [Hwf' _].
  destruct (run_frame (ADMIN_USER_ID cfg) us w rs Hwf) as [Hus Hsv].
  assert (Hj' : json_wf (data (w_db w')) = true).
  { eapply json_wf_users_only; [exact Hus | exact Hj | exact Hwf' | by apply engine_run_valid]. }
  split_and!; [by apply Hsv | done |].
  unfold bot_process, bot_module_init, read_db_file. rewrite Hfs. cbn [option_map].
  by rewrite decode_encode_file.
Qed.

(** ** Witnesses *)

Definition sample_config : config := Config (lit "123:ABC") 100 (lit "users.json").

(** The file system holding [bs] as [users.json]. *)
Definition with_db_file (bs : list Z) : files :=
  fun name => if bool_decide (name = lit "users.json") then Some bs else None.

Lemma restart_after_save_witness :
  json_wf sample_registry = true ∧ with_db_file (encode_file sample_registry) (DB_FILE sample_config)
    = Some (encode_file sample_registry) ∧
  bot_process sample_config (with_db_file (encode_file sample_registry)) (lit "2024-01-01") (fun _ => None) []
  = Ran (startup_lines 100)
        (run 100 [] (World (mkDB sample_registry (Some (FileJson sample_registry)) (lit "2024-01-01")) None [] (fun _ => None) [])).
Proof.
  assert (H1 : json_wf sample_registry = true) by reflexivity.
  assert (H2 : with_db_file (encode_file sample_registry) (DB_FILE sample_config) = Some (encode_file sample_registry))
    by reflexivity.
  split_and!; [exact H1 | exact H2 | exact (restart_after_save sample_config _ _ _ _ [] H1 H2)].
Defined.

Lemma restart_after_crash_witness :
  let d := match sample_registry with PDict d => d | _ => [] end in
  let p := take 41 (encode_file (PDict d)) in
  json_wf (PDict d) = true ∧ p `prefix_of` encode_file (PDict d) ∧ p ≠ encode_file (PDict d) ∧
  with_db_file p (DB_FILE sample_config) = Some p ∧
  (bot_process sample_config (with_db_file p) (lit "2024-01-01") (fun _ => None) [] = DiedAtImport UnicodeDecodeError ∨
   ∃ db0, wf_db db0 []
     ∧ bot_process sample_config (with_db_file p) (lit "2024-01-01") (fun _ => None) []
       = Ran (startup_lines 100) (run 100 [] (World db0 None [] (fun _ => None) []))).
Proof.
  intros d p. assert (H1 : json_wf (PDict d) = true) by reflexivity.
  assert (H2 : p `prefix_of` encode_file (PDict d)) by apply prefix_take.
  assert (H3 : p ≠ encode_file (PDict d)) by (intros H; apply (f_equal length) in H; vm_compute in H; lia).
  assert (H4 : with_db_file p (DB_FILE sample_config) = Some p) by reflexivity.
  split_and!; [exact H1 | exact H2 | exact H3 | exact H4 |
               exact (restart_after_crash sample_config _ d p _ _ [] H1 H2 H3 H4)].
Defined.

(** A registry on disk: [sample_db] as the file holds it. *)
Definition saved_sample_db : DB := mkDB (data sample_db) (Some (FileJson (data sample_db))) (clock sample_db).

(** A newcomer's [/start], then a message of the registered client. *)
Definition sample_run : list update :=
  [UCommand (TgUser 9 None (lit "Bo")) (TgMessage 9 (Some (lit "/start")) None) (lit "start") [];
   UMessage (TgUser 7 (Some (lit "ann")) (lit "Ann")) (TgMessage 7 (Some (lit "hello")) None)].

Lemma restart_after_run_witness :
  let w := World saved_sample_db None [] (fun _ => None) [] in
  let w' := run 100 sample_run w in
  let fs := with_db_file (encode_file (data (w_db w'))) in
  wf_db (w_db w) [sample_user] ∧ saved (w_db w) ∧ json_wf (data (w_db w)) = true ∧
  forallb rec_valid [sample_user] = true ∧ forallb valid_char (clock (w_db w)) = true ∧
  forallb update_valid sample_run = true ∧
  fs (DB_FILE sample_config) = Some (encode_file (data (w_db w'))) ∧
  saved (w_db w')
    ∧ wf_db (w_db w') (engine_run 100 (clock (w_db w)) (run_bits 100 sample_run w) sample_run [sample_user])
    ∧ bot_process sample_config fs (lit "2024-01-03") (fun _ => None) []
      = Ran (startup_lines 100)
            (run 100 [] (World (mkDB (data (w_db w')) (Some (FileJson (data (w_db w')))) (lit "2024-01-03")) None [] (fun _ => None) [])).
Proof.
  intros w w' fs.
  assert (H1 : wf_db (w_db w) [sample_user]) by solve_wf_db.
  assert (H2 : saved (w_db w)) by reflexivity.
  assert (H3 : json_wf (data (w_db w)) = true) by (vm_compute; reflexivity).
  assert (H4 : forallb rec_valid [sample_user] = true) by (vm_compute; reflexivity).
  assert (H5 : forallb valid_char (clock (w_db w)) = true) by (vm_compute; reflexivity).
  assert (H6 : forallb update_valid sample_run = true) by (vm_compute; reflexivity).
  assert (H7 : fs (DB_FILE sample_config) = Some (encode_file (data (w_db w')))) by reflexivity.
  exact (conj H1 (conj H2 (conj H3 (conj H4 (conj H5 (conj H6 (conj H7
           (restart_after_run sample_config w [sample_user] sample_run fs (lit "2024-01-03") (fun _ => None) []
              H1 H2 H3 H4 H5 H6 H7)))))))).
Defined.

Lemma malformed_store_unlogged_witness :
  with_db_file [123%Z] (DB_FILE sample_config) = Some [123%Z] ∧ decode_file [123%Z] = FileMalformed ∧
  bot_process sample_config (with_db_file [123%Z]) (lit "2024-01-01") (fun _ => None) []
  = Ran (startup_lines 100)
        (run 100 [] (World (mkDB empty_data (Some FileMalformed) (lit "2024-01-01")) None [] (fun _ => None) [])).
Proof.
  assert (H1 : with_db_file [123%Z] (DB_FILE sample_config) = Some [123%Z]) by reflexivity.
  assert (H2 : decode_file [123%Z] = FileMalformed) by (vm_compute; reflexivity).
  split_and!; [exact H1 | exact H2 | exact (malformed_store_unlogged sample_config _ _ _ [] _ H1 H2)].
Defined.
